(** * hub-kms: the REST operation dispatcher, pkg/restapi/kms/operation

    A shallow embedding of [operations.go]: the six request handlers
    (create keystore, create key, sign, verify, encrypt, decrypt), the
    provider factory [prepareKMSProvider], the response helpers and the
    Location builders, together with the parts of Go's standard library
    the handlers lean on (errors, fmt, strings, encoding/base64,
    unicode/utf8, the value level of encoding/json and the response
    recorder of net/http/httptest).

    Go [string]s are byte sequences and are modelled by [string]; a
    [[]byte] is a [list ascii]; [uint] values are [Z] (the base64 code
    only ever holds 24 bits in one, so no wrap-around can occur). *)

From Stdlib Require Import ZArith String Ascii List Bool Lia DecimalString.
From stdpp Require Import base gmap strings.
From coqutil Require Import Z.bitblast.
Import ListNotations.
Local Open Scope string_scope.

(** ** Go error values *)

(** [errors.New] allocates, so two errors made from the same text are
    different values: [addr] is the identity of the allocation.
    [wrapError] is what [fmt.Errorf] builds for the verb [%w]: the whole
    formatted text and the error it wraps.  The other constructors are
    the error types of encoding/base64 and encoding/json. *)
Inductive error : Type :=
| errorString (addr : positive) (s : string)
| wrapError (msg : string) (err : error)
| CorruptInputError (offset : Z)
| SyntaxError (msg : string) (Offset : Z)
| UnmarshalTypeError (Value Type_ Struct Field : string).

(** strconv.FormatInt(n, 10) *)
Definition FormatInt (n : Z) : string := NilZero.string_of_int (Z.to_int n).

(** The method [Error() string] of each error type. *)
Definition Error (e : error) : string :=
  match e with
  | errorString _ s => s
  | wrapError msg _ => msg
  | CorruptInputError n => "illegal base64 data at input byte " ++ FormatInt n
  | SyntaxError msg _ => msg
  | UnmarshalTypeError v t s f =>
      if String.eqb s "" && String.eqb f ""
      then "json: cannot unmarshal " ++ v ++ " into Go value of type " ++ t
      else "json: cannot unmarshal " ++ v ++ " into Go struct field "
             ++ s ++ "." ++ f ++ " of type " ++ t
  end.

(** Go's [==] on two error interface values, as far as it can hold here:
    pointers made by [errors.New] are compared by identity, a
    [CorruptInputError] (an integer type) by value; errors of different
    dynamic types, and pointers from different allocations, differ. *)
Definition same_error (a b : error) : bool :=
  match a, b with
  | errorString p _, errorString q _ => Pos.eqb p q
  | CorruptInputError m, CorruptInputError n => Z.eqb m n
  | _, _ => false
  end.

(** errors.Is: walk the Unwrap chain of [err] looking for [target]. *)
Fixpoint errors_Is (err target : error) : bool :=
  same_error err target
  || match err with
     | wrapError _ inner => errors_Is inner target
     | _ => false
     end.

(** A Go call returning [(T, error)]; callers test the error first. *)
Inductive result (A : Type) : Type :=
| Ok (a : A)
| Err (e : error).
Arguments Ok {A} a.
Arguments Err {A} e.

(** ** fmt *)

(** fmt.Sprintf for formats whose only verb is [%s], each argument given
    by its text (for an error, the result of [Error()]).  A verb left
    without an argument prints the way Go does. *)
Fixpoint Sprintf (format : string) (args : list string) : string :=
  match format with
  | String "%" (String "s" rest) =>
      match args with
      | a :: args' => a ++ Sprintf rest args'
      | [] => "%!s(MISSING)" ++ Sprintf rest []
      end
  | String c rest => String c (Sprintf rest args)
  | EmptyString => EmptyString
  end.

(** ** strings *)

Module strings.

(** A generic [strings.Replacer]: the old/new pairs, in argument order. *)
Definition Replacer : Type := list (string * string).

Definition NewReplacer (oldnew : list (string * string)) : Replacer := oldnew.

(** The pair that applies at the head of [s]: the first one, in
    argument order, whose old string is a prefix of [s].  Every old
    string this package uses is a non-empty constant; empty old
    strings, which Go matches between runes, are passed over. *)
Fixpoint lookup (r : Replacer) (s : string) : option (string * string) :=
  match r with
  | [] => None
  | (old, new) :: r' =>
      if negb (String.eqb old "") && String.prefix old s
      then Some (old, new)
      else lookup r' s
  end.

(** Left to right, without overlap and without rescanning what was
    written: [skip] counts the bytes of a matched old string that are
    still to be dropped. *)
Fixpoint replaceFrom (r : Replacer) (s : string) (skip : nat) : string :=
  match s with
  | EmptyString => EmptyString
  | String c s' =>
      match skip with
      | S k => replaceFrom r s' k
      | O =>
          match lookup r s with
          | Some (old, new) => new ++ replaceFrom r s' (String.length old - 1)
          | None => String c (replaceFrom r s' 0)
          end
      end
  end.

Definition Replace (r : Replacer) (s : string) : string := replaceFrom r s 0.

(** strings.ReplaceAll(s, old, new) *)
Definition ReplaceAll (s old new : string) : string :=
  if String.eqb old new then s else replaceFrom [(old, new)] s 0.

End strings.

(** ** encoding/base64 *)

Module base64.

Local Open Scope list_scope.

(** An [Encoding]: the 64-character alphabet and the padding character
    ([None] is Go's [NoPadding]).  Strict mode is left out: none of
    the encodings below turns it on. *)
Record Encoding : Type := {
  encode : list ascii;
  padChar : option ascii
}.

Definition StdPadding : ascii := "="%char.
Definition NoPadding : option ascii := None.

Definition encodeStd : string :=
  "ABCDEFGHIJKLMNOPQRSTUVWXYZabcdefghijklmnopqrstuvwxyz0123456789+/".
Definition encodeURL : string :=
  "ABCDEFGHIJKLMNOPQRSTUVWXYZabcdefghijklmnopqrstuvwxyz0123456789-_".

Definition NewEncoding (encoder : string) : Encoding :=
  {| encode := list_ascii_of_string encoder; padChar := Some StdPadding |}.

Definition WithPadding (enc : Encoding) (padding : option ascii) : Encoding :=
  {| encode := encode enc; padChar := padding |}.

Definition StdEncoding : Encoding := NewEncoding encodeStd.
Definition URLEncoding : Encoding := NewEncoding encodeURL.
Definition RawURLEncoding : Encoding := WithPadding URLEncoding NoPadding.

(** The conversions [uint(b)] and [byte(v)]. *)
Definition uint (b : ascii) : Z := Z.of_N (N_of_ascii b).
Definition byte (v : Z) : ascii := ascii_of_N (Z.to_N (Z.land v 255)).

(** [enc.decodeMap]: 0xFF everywhere, then [decodeMap[encoder[i]] = i]
    for i = 0, 1, ... in turn. *)
Fixpoint decodeMapFrom (encoder : list ascii) (i : Z) (c : ascii) (cur : Z) : Z :=
  match encoder with
  | [] => cur
  | e :: es => decodeMapFrom es (i + 1) c (if Ascii.eqb e c then i else cur)
  end.

Definition decodeMap (enc : Encoding) (c : ascii) : Z :=
  decodeMapFrom (encode enc) 0 c 255.

(** [enc.encode[val>>shift&0x3F]] *)
Definition sextet (enc : Encoding) (val shift : Z) : ascii :=
  nth (Z.to_nat (Z.land (Z.shiftr val shift) 63)) (encode enc) zero.

Definition padding (enc : Encoding) : list ascii :=
  match padChar enc with
  | Some p => [p]
  | None => []
  end.

(** [Encode]: whole groups of three bytes, then the remaining one or
    two bytes with their padding. *)
Fixpoint Encode (enc : Encoding) (src : list ascii) : list ascii :=
  match src with
  | a :: b :: c :: rest =>
      let val := Z.lor (Z.lor (Z.shiftl (uint a) 16) (Z.shiftl (uint b) 8)) (uint c) in
      sextet enc val 18 :: sextet enc val 12 :: sextet enc val 6 :: sextet enc val 0
        :: Encode enc rest
  | [a; b] =>
      let val := Z.lor (Z.shiftl (uint a) 16) (Z.shiftl (uint b) 8) in
      sextet enc val 18 :: sextet enc val 12 :: sextet enc val 6 :: padding enc
  | [a] =>
      let val := Z.shiftl (uint a) 16 in
      sextet enc val 18 :: sextet enc val 12 :: padding enc ++ padding enc
  | [] => []
  end.

Definition EncodeToString (enc : Encoding) (src : list ascii) : string :=
  string_of_list_ascii (Encode enc src).

Definition isNewline (c : ascii) : bool :=
  Ascii.eqb c "010"%char || Ascii.eqb c "013"%char.

Definition isPad (enc : Encoding) (c : ascii) : bool :=
  match padChar enc with
  | Some p => Ascii.eqb c p
  | None => false
  end.

(** [for si < len(src) && (src[si] == '\n' || src[si] == '\r') { si++ }] *)
Fixpoint skipNewlines (src : list ascii) (si : Z) : list ascii * Z :=
  match src with
  | c :: rest => if isNewline c then skipNewlines rest (si + 1) else (src, si)
  | [] => ([], si)
  end.

(** The end of [decodeQuantum]: the [dlen] six-bit values read so far
    are put together and [dlen - 1] bytes come out. *)
Definition quantumBytes (dbuf : list Z) : list ascii :=
  let d := fun i => nth i dbuf 0%Z in
  let val := Z.lor (Z.lor (Z.lor (Z.shiftl (d 0%nat) 18) (Z.shiftl (d 1%nat) 12))
                          (Z.shiftl (d 2%nat) 6)) (d 3%nat) in
  firstn (length dbuf - 1)
    [byte (Z.shiftr val 16); byte (Z.shiftr val 8); byte val].

(** What follows the padding of a final quantum: newlines, then the
    end of the input; anything else is trailing garbage, reported
    together with the bytes of the quantum. *)
Definition finish (dbuf : list Z) (src : list ascii) (si : Z)
  : list ascii * option error :=
  let '(r, s) := skipNewlines src si in
  (quantumBytes dbuf,
   match r with
   | [] => None
   | _ :: _ => Some (CorruptInputError s)
   end).

(** [Decode], one input byte at a time: [si] is the offset of the head
    of [src] in the whole input and [dbuf] holds the six-bit values of
    the quantum being read (its length is Go's [j]).  The result is
    what [DecodeString] returns: the bytes decoded before any error,
    and the error. *)
Fixpoint decode (enc : Encoding) (src : list ascii) (si : Z) (dbuf : list Z)
  : list ascii * option error :=
  match src with
  | [] =>
      match dbuf with
      | [] => ([], None)
      | _ :: _ =>
          if (length dbuf =? 1)%nat || bool_decide (padChar enc <> NoPadding)
          then ([], Some (CorruptInputError (si - Z.of_nat (length dbuf))))
          else (quantumBytes dbuf, None)
      end
  | c :: rest =>
      let out := decodeMap enc c in
      if negb (out =? 255)%Z then
        let dbuf' := dbuf ++ [out] in
        if (length dbuf' =? 4)%nat
        then let '(bs, e) := decode enc rest (si + 1) [] in
             (quantumBytes dbuf' ++ bs, e)
        else decode enc rest (si + 1) dbuf'
      else if isNewline c then decode enc rest (si + 1) dbuf
      else if negb (isPad enc c) then ([], Some (CorruptInputError si))
      else
        match length dbuf with
        | 0%nat | 1%nat => ([], Some (CorruptInputError si))
        | 2%nat =>
            let '(r1, s1) := skipNewlines rest (si + 1) in
            match r1 with
            | [] => ([], Some (CorruptInputError s1))
            | c2 :: r2 =>
                if negb (isPad enc c2)
                then ([], Some (CorruptInputError (s1 - 1)))
                else finish dbuf r2 (s1 + 1)
            end
        | _ => finish dbuf rest (si + 1)
        end
  end.

Definition DecodeString (enc : Encoding) (s : string) : list ascii * option error :=
  decode enc (list_ascii_of_string s) 0 [].

End base64.

(** ** unicode/utf8, as the JSON encoder uses it *)

Module utf8.

Definition RuneSelf : N := 128.

(** U+FFFD, the replacement character, as its three bytes ef bf bd. *)
Definition RuneError : string :=
  String (ascii_of_N 239) (String (ascii_of_N 191) (String (ascii_of_N 189) "")).

(** The lowest and the highest continuation byte, 80 and bf. *)
Definition locb : N := 128.
Definition hicb : N := 191.

Definition inRange (lo hi : N) (b : ascii) : bool :=
  ((lo <=? N_of_ascii b) && (N_of_ascii b <=? hi))%N.

(** The tables [first] and [acceptRanges] for a byte that is not
    ASCII: the size of the sequence the byte starts and the range its
    second byte must lie in; [None] for the bytes that start nothing
    (80 to c1, f5 to ff). *)
Definition first (b : ascii) : option (nat * (N * N)) :=
  if inRange 194 223 b then Some (2%nat, (locb, hicb))
  else if inRange 224 224 b then Some (3%nat, (160%N, hicb))
  else if inRange 225 236 b then Some (3%nat, (locb, hicb))
  else if inRange 237 237 b then Some (3%nat, (locb, 159%N))
  else if inRange 238 239 b then Some (3%nat, (locb, hicb))
  else if inRange 240 240 b then Some (4%nat, (144%N, hicb))
  else if inRange 241 243 b then Some (4%nat, (locb, hicb))
  else if inRange 244 244 b then Some (4%nat, (locb, 143%N))
  else None.

End utf8.

(** ** encoding/json, at the level of values *)

Module json.

Local Open Scope list_scope.

(** A JSON value as the decoder's scanner delivers it and as the
    encoder receives it; strings are already unquoted. *)
#[local] Unset Elimination Schemes.
Inductive Value : Type :=
| Null
| Bool (b : bool)
| Number (lit : string)
| Str (s : string)
| Array (vs : list Value)
| Object (ms : list (string * Value)).
#[local] Set Elimination Schemes.

(** What [json.NewDecoder(r)] finds in a stream: no usable value and
    the error that says why (io.EOF on an empty stream, a syntax error,
    an unexpected end of input), or the first JSON value of the
    stream. *)
Inductive Stream : Type :=
| Malformed (err : error)
| Document (v : Value).

(** A Go struct all of whose fields are strings, as the decoder sees
    it: the name of the type and the JSON names of its fields. *)
Record StructType : Type := {
  Name : string;
  Fields : list string
}.

(** The word that [UnmarshalTypeError.Value] uses for a JSON value. *)
Definition describe (v : Value) : string :=
  match v with
  | Null => "null"
  | Bool _ => "bool"
  | Number _ => "number"
  | Str _ => "string"
  | Array _ => "array"
  | Object _ => "object"
  end.

(** [d.saveError]: only the first error is kept. *)
Definition saveError (saved : option error) (err : error) : option error :=
  match saved with
  | Some _ => saved
  | None => Some err
  end.

Section Unmarshal.

(** The decoder's case-insensitive comparison of a field name with
    an object key. *)
Variable equalFold : string -> string -> bool.

(** The field an object key goes to: the one of that exact name, or
    else the first one that matches up to case. *)
Definition fieldFor (t : StructType) (key : string) : option string :=
  if existsb (String.eqb key) (Fields t)
  then Some key
  else List.find (fun f => equalFold f key) (Fields t).

(** One member of an object: a key without a field is skipped, a
    string is stored, [null] leaves the field alone, and any other
    value is a type error, after which decoding goes on. *)
Definition member (t : StructType)
    (st : gmap string string * option error) (m : string * Value)
  : gmap string string * option error :=
  match fieldFor t (fst m) with
  | None => st
  | Some f =>
      match snd m with
      | Str s => (<[f := s]> (fst st), snd st)
      | Null => st
      | v => (fst st, saveError (snd st)
                        (UnmarshalTypeError (describe v) "string" (Name t) f))
      end
  end.

(** Unmarshal into a zero-valued struct of type [t]: the fields that
    were set, by JSON name. *)
Definition Unmarshal (t : StructType) (v : Value) : result (gmap string string) :=
  match v with
  | Null => Ok ∅
  | Object ms =>
      match fold_left (member t) ms (∅, None) with
      | (fs, None) => Ok fs
      | (_, Some err) => Err err
      end
  | _ => Err (UnmarshalTypeError (describe v) ("operation." ++ Name t)%string "" "")
  end.

(** [json.NewDecoder(r).Decode(&v)] *)
Definition Decode (t : StructType) (r : Stream) : result (gmap string string) :=
  match r with
  | Malformed err => Err err
  | Document v => Unmarshal t v
  end.

End Unmarshal.

(** The string a reader of the encoded document gets back.  The
    encoder copies a string rune by rune: a byte below [utf8.RuneSelf]
    and a well-formed sequence of two to four bytes go out as they are
    (escapes do not change the value), and a byte for which
    [utf8.DecodeRuneInString] answers [RuneError] with size 1 goes out
    as U+FFFD. *)
Fixpoint encodedString (s : string) : string :=
  match s with
  | EmptyString => EmptyString
  | String b0 s1 =>
      if (N_of_ascii b0 <? utf8.RuneSelf)%N then String b0 (encodedString s1)
      else
        let invalid := String.append utf8.RuneError (encodedString s1) in
        match utf8.first b0 with
        | None => invalid
        | Some (size, (lo, hi)) =>
            match s1 with
            | EmptyString => invalid
            | String b1 s2 =>
                if negb (utf8.inRange lo hi b1) then invalid
                else if (size <=? 2)%nat
                then String b0 (String b1 (encodedString s2))
                else
                  match s2 with
                  | EmptyString => invalid
                  | String b2 s3 =>
                      if negb (utf8.inRange utf8.locb utf8.hicb b2) then invalid
                      else if (size <=? 3)%nat
                      then String b0 (String b1 (String b2 (encodedString s3)))
                      else
                        match s3 with
                        | EmptyString => invalid
                        | String b3 s4 =>
                            if negb (utf8.inRange utf8.locb utf8.hicb b3) then invalid
                            else String b0 (String b1 (String b2
                                   (String b3 (encodedString s4))))
                        end
                  end
            end
        end
  end.

(** A member of an encoded struct; [omitempty] drops an empty string. *)
Definition field (name value : string) (omitempty : bool) : list (string * Value) :=
  if omitempty && String.eqb value "" then [] else [(name, Str (encodedString value))].

End json.

(** A Go map index expression [m[k]] on a [map[string]string]. *)
Definition mapIndex (m : gmap string string) (k : string) : string :=
  default "" (m !! k).

(** ** net/http and gorilla/mux, as the handlers use them *)

Module http.

Definition MethodPost : string := "POST".
Definition StatusOK : Z := 200.
Definition StatusCreated : Z := 201.
Definition StatusBadRequest : Z := 400.
Definition StatusInternalServerError : Z := 500.

(** The parts of a request the handlers read: the body, the [Host]
    header and the path variables that mux extracted from the URL. *)
Record Request : Type := {
  Body : json.Stream;
  Host : string;
  Vars : gmap string string
}.

(** A response writer in the manner of [httptest.ResponseRecorder]:
    the status code (200 until one is written), the header map and
    the JSON documents written to the body.  [writeErr] makes every
    [Write] fail with that error, as a closed transport does. *)
Record ResponseWriter : Type := {
  Code : Z;
  wroteHeader : bool;
  HeaderMap : gmap string (list string);
  ResponseBody : list json.Value;
  writeErr : option error
}.

Definition NewRecorder : ResponseWriter :=
  {| Code := 200; wroteHeader := false; HeaderMap := ∅;
     ResponseBody := []; writeErr := None |}.

(** [rw.Header().Set(key, value)] *)
Definition Header_Set (key value : string) (rw : ResponseWriter) : ResponseWriter :=
  {| Code := Code rw; wroteHeader := wroteHeader rw;
     HeaderMap := <[key := [value]]> (HeaderMap rw);
     ResponseBody := ResponseBody rw; writeErr := writeErr rw |}.

(** [rw.Header().Get(key)] *)
Definition Header_Get (key : string) (rw : ResponseWriter) : string :=
  match HeaderMap rw !! key with
  | Some (v :: _) => v
  | _ => ""
  end.

(** [rw.WriteHeader(code)]: only the first call counts. *)
Definition WriteHeader (code : Z) (rw : ResponseWriter) : ResponseWriter :=
  if wroteHeader rw then rw
  else {| Code := code; wroteHeader := true; HeaderMap := HeaderMap rw;
          ResponseBody := ResponseBody rw; writeErr := writeErr rw |}.

(** [http.DetectContentType] on the text of a JSON document.  The text
    the encoder writes begins with an opening brace, bracket or quote,
    a minus sign, a digit or a letter of [true], [false] and [null],
    none of which starts a signature the sniffer knows, and it holds
    no byte that the sniffer takes for binary data, since the encoder
    escapes the control characters: the sniffer falls through to plain
    text. *)
Definition DetectContentType (doc : json.Value) : string := "text/plain; charset=utf-8".

(** Whether the recorder sets the sniffed type: the header map has no
    Content-Type and no Transfer-Encoding. *)
Definition sniffs (m : gmap string (list string)) : bool :=
  let hasType := match m !! "Content-Type" with Some _ => true | None => false end in
  let hasTE :=
    match m !! "Transfer-Encoding" with
    | Some (v :: _) => negb (String.eqb v "")
    | _ => false
    end in
  negb hasType && negb hasTE.

(** The recorder's [writeHeader], which [Write] calls first: unless a
    header was written, it sets Content-Type to the sniffed type when
    the map has no Content-Type and no Transfer-Encoding, and writes
    status 200. *)
Definition writeHeader (doc : json.Value) (rw : ResponseWriter) : ResponseWriter :=
  if wroteHeader rw then rw
  else WriteHeader StatusOK
         (if sniffs (HeaderMap rw)
          then Header_Set "Content-Type" (DetectContentType doc) rw
          else rw).

(** [rw.Write(doc)]: a failing writer takes nothing and touches no
    header (the tests' [failingResponseWriter] returns at once);
    otherwise the recorder's [writeHeader] runs and the document is
    added to the body. *)
Definition Write (doc : json.Value) (rw : ResponseWriter)
  : option error * ResponseWriter :=
  match writeErr rw with
  | Some err => (Some err, rw)
  | None =>
      let rw' := writeHeader doc rw in
      (None, {| Code := Code rw'; wroteHeader := wroteHeader rw';
                HeaderMap := HeaderMap rw';
                ResponseBody := (ResponseBody rw' ++ [doc])%list;
                writeErr := writeErr rw' |})
  end.

End http.

(** ** package operation: constants and wire types *)

(** http params *)
Definition keystoreIDQueryParam : string := "keystoreID".
Definition keyIDQueryParam : string := "keyID".

(** API endpoints *)
Definition kmsBasePath : string := "/kms".
Definition keystoresEndpoint : string := kmsBasePath ++ "/keystores".
Definition keystoreEndpoint : string :=
  keystoresEndpoint ++ "/{" ++ keystoreIDQueryParam ++ "}".
Definition keysEndpoint : string := keystoreEndpoint ++ "/keys".
Definition keyEndpoint : string := keysEndpoint ++ "/{" ++ keyIDQueryParam ++ "}".
Definition signEndpoint : string := keyEndpoint ++ "/sign".
Definition verifyEndpoint : string := keyEndpoint ++ "/verify".
Definition encryptEndpoint : string := keyEndpoint ++ "/encrypt".
Definition decryptEndpoint : string := keyEndpoint ++ "/decrypt".

(** error messages *)
Definition receivedBadRequest : string := "Received bad request: %s".
Definition createKeystoreFailure : string := "Failed to create a keystore: %s".
Definition createKMSProviderFailure : string := "Failed to create a kms provider: %s".
Definition createKeyFailure : string := "Failed to create a key: %s".
Definition signMessageFailure : string := "Failed to sign a message: %s".
Definition verifyMessageFailure : string := "Failed to verify a message: %s".
Definition encryptMessageFailure : string := "Failed to encrypt a message: %s".
Definition decryptMessageFailure : string := "Failed to decrypt a message: %s".

(** A request struct that [parseRequest] can fill: its type as the
    decoder sees it, and the struct built from the fields that were
    set (a field that was not set keeps Go's zero value, the empty
    string). *)
Class RequestStruct (T : Type) : Type := {
  structType : json.StructType;
  fromFields : gmap string string -> T
}.

(** A response struct and its JSON encoding. *)
Class ResponseStruct (T : Type) : Type := {
  Marshal : T -> json.Value
}.

(** Modelled from the spec: the request structs of models.go, which is
    not among the sources.  The Go field names are the ones the handlers
    read; the JSON names are those of the wire contract (section 6) and
    of the request builders of the tests, with [passphrase] for the
    field the handlers hand to the provider factory. *)
Module createKeystoreReq.
Record t : Type := { Controller : string }.
#[global] Instance request : RequestStruct t := {|
  structType := {| json.Name := "createKeystoreReq"; json.Fields := ["controller"] |};
  fromFields fs := {| Controller := mapIndex fs "controller" |}
|}.
End createKeystoreReq.

Module createKeyReq.
Record t : Type := { KeyType : string; Passphrase : string }.
#[global] Instance request : RequestStruct t := {|
  structType := {| json.Name := "createKeyReq";
                   json.Fields := ["keyType"; "passphrase"] |};
  fromFields fs := {| KeyType := mapIndex fs "keyType";
                      Passphrase := mapIndex fs "passphrase" |}
|}.
End createKeyReq.

Module signReq.
Record t : Type := { Message : string; Passphrase : string }.
#[global] Instance request : RequestStruct t := {|
  structType := {| json.Name := "signReq";
                   json.Fields := ["message"; "passphrase"] |};
  fromFields fs := {| Message := mapIndex fs "message";
                      Passphrase := mapIndex fs "passphrase" |}
|}.
End signReq.

Module verifyReq.
Record t : Type := { Signature : string; Message : string; Passphrase : string }.
#[global] Instance request : RequestStruct t := {|
  structType := {| json.Name := "verifyReq";
                   json.Fields := ["signature"; "message"; "passphrase"] |};
  fromFields fs := {| Signature := mapIndex fs "signature";
                      Message := mapIndex fs "message";
                      Passphrase := mapIndex fs "passphrase" |}
|}.
End verifyReq.

Module encryptReq.
Record t : Type := { Message : string; AdditionalData : string; Passphrase : string }.
#[global] Instance request : RequestStruct t := {|
  structType := {| json.Name := "encryptReq";
                   json.Fields := ["message"; "aad"; "passphrase"] |};
  fromFields fs := {| Message := mapIndex fs "message";
                      AdditionalData := mapIndex fs "aad";
                      Passphrase := mapIndex fs "passphrase" |}
|}.
End encryptReq.

Module decryptReq.
Record t : Type := {
  CipherText : string; AdditionalData : string; Nonce : string; Passphrase : string
}.
#[global] Instance request : RequestStruct t := {|
  structType := {| json.Name := "decryptReq";
                   json.Fields := ["cipherText"; "aad"; "nonce"; "passphrase"] |};
  fromFields fs := {| CipherText := mapIndex fs "cipherText";
                      AdditionalData := mapIndex fs "aad";
                      Nonce := mapIndex fs "nonce";
                      Passphrase := mapIndex fs "passphrase" |}
|}.
End decryptReq.

(** Modelled from the spec: the response structs of models.go, with the
    JSON names of the wire contract (section 6). *)
Module signResp.
Record t : Type := { Signature : string }.
#[global] Instance response : ResponseStruct t := {|
  Marshal v := json.Object (json.field "signature" (Signature v) false)
|}.
End signResp.

Module encryptResp.
Record t : Type := { CipherText : string; Nonce : string }.
#[global] Instance response : ResponseStruct t := {|
  Marshal v := json.Object (json.field "cipherText" (CipherText v) false
                            ++ json.field "nonce" (Nonce v) false)%list
|}.
End encryptResp.

Module decryptResp.
Record t : Type := { PlainText : string }.
#[global] Instance response : ResponseStruct t := {|
  Marshal v := json.Object (json.field "plainText" (PlainText v) false)
|}.
End decryptResp.

(** [errorResponse] is declared in operations.go itself:
    [Message string `json:"errMessage,omitempty"`]. *)
Module errorResponse.
Record t : Type := { Message : string }.
#[global] Instance response : ResponseStruct t := {|
  Marshal v := json.Object (json.field "errMessage" (Message v) true)
|}.
End errorResponse.

(** KMSCreatorContext provides a context to the KMSCreator method. *)
Record KMSCreatorContext : Type := {
  KeystoreID : string;
  Passphrase : string
}.

(** Modelled from the spec: the sentinel [ErrInvalidSignature] of
    package kms ([kmsservice] in operations.go), which is not among the
    sources: an [errors.New] value whose text is the one that section 6
    shows for a rejected signature. *)
Definition ErrInvalidSignature : error := errorString 1 "invalid signature".

(** ** What a handler does: calls on the response writer, on the
    collaborating packages and on the logger, in order *)

Definition errOf {A : Type} (r : result A) : option error :=
  match r with
  | Ok _ => None
  | Err err => Some err
  end.

(** Each call on a collaborator is recorded with what it returned (for
    the two constructors, which return opaque handles, with the error
    or its absence). *)
Inductive event : Type :=
| EvHeaderSet (key value : string)
| EvWriteHeader (statusCode : Z)
| EvWrite (doc : json.Value)
| EvErrorf (msg : string)
| EvNewRepository (err : option error)
| EvKMSCreator (ctx : KMSCreatorContext) (err : option error)
| EvCreate (controller : string) (ret : result string)
| EvCreateKey (keystoreID keyType : string) (ret : result string)
| EvSign (keystoreID keyID : string) (msg : list ascii) (ret : result (list ascii))
| EvVerify (keystoreID keyID : string) (sig msg : list ascii) (ret : option error)
| EvEncrypt (keystoreID keyID : string) (msg aad : list ascii)
    (ret : result (list ascii * list ascii))
| EvDecrypt (keystoreID keyID : string) (cipherText aad nonce : list ascii)
    (ret : result (list ascii)).

(** The state a handler runs in: the response writer it was given and
    the calls made so far. *)
Record Exchange : Type := {
  rw : http.ResponseWriter;
  trace : list event
}.

Definition M (A : Type) : Type := Exchange -> A * Exchange.

#[global] Instance M_ret : MRet M := fun A a x => (a, x).
#[global] Instance M_bind : MBind M :=
  fun A B k m x => let '(a, x') := m x in k a x'.

Definition emit (e : event) : M unit :=
  fun x => (tt, {| rw := rw x; trace := (trace x ++ [e])%list |}).

Definition onWriter (f : http.ResponseWriter -> http.ResponseWriter) : M unit :=
  fun x => (tt, {| rw := f (rw x); trace := trace x |}).

Definition rw_Header_Set (key value : string) : M unit :=
  emit (EvHeaderSet key value) ;; onWriter (http.Header_Set key value).

Definition rw_WriteHeader (status : Z) : M unit :=
  emit (EvWriteHeader status) ;; onWriter (http.WriteHeader status).

Definition rw_Write (doc : json.Value) : M (option error) :=
  fun x => let '(err, w) := http.Write doc (rw x) in
           (err, {| rw := w; trace := (trace x ++ [EvWrite doc])%list |}).

(** [json.NewEncoder(rw).Encode(v)]: the encoded value goes to the
    writer in a single [Write]. *)
Definition Encode {T : Type} `{ResponseStruct T} (v : T) : M (option error) :=
  rw_Write (Marshal v).

Definition logger_Errorf (format : string) (args : list string) : M unit :=
  emit (EvErrorf (Sprintf format args)).

Definition writeErrorResponse (status : Z) (msg : string) : M unit :=
  rw_WriteHeader status ;;
  err ← Encode {| errorResponse.Message := msg |} ;
  match err with
  | Some err => logger_Errorf "Unable to send an error message, %s" [Error err]
  | None => mret tt
  end.

Definition writeResponse {T : Type} `{ResponseStruct T} (v : T) : M unit :=
  err ← Encode v ;
  match err with
  | Some err => logger_Errorf "Unable to send a response, %s" [Error err]
  | None => mret tt
  end.

Definition keystoreLocation (hostURL keystoreID : string) : string :=
  Sprintf "%s%s" [hostURL; strings.ReplaceAll keystoreEndpoint "{keystoreID}" keystoreID].

Definition keyLocation (hostURL keystoreID keyID : string) : string :=
  let r := strings.NewReplacer [("{keystoreID}", keystoreID); ("{keyID}", keyID)] in
  Sprintf "%s%s" [hostURL; strings.Replace r keyEndpoint].

(** Run a handler against a response writer. *)
Definition serve (h : M unit) (w : http.ResponseWriter) : Exchange :=
  snd (h {| rw := w; trace := [] |}).

(** ** The dispatcher *)

Section Operation.

(** The handles of the collaborators: a storage provider, a keystore
    repository, a key manager and the crypto capability.  The
    dispatcher only passes them on. *)
Context {storage_Provider keystore_Repository kms_KeyManager crypto_Crypto : Type}.

(** Provider contains dependencies for Operation.  [KMSCreator] is the
    injected constructor: [func(ctx KMSCreatorContext) (kms.KeyManager, error)]. *)
Record Provider : Type := {
  StorageProvider : storage_Provider;
  KMSCreator : KMSCreatorContext -> result kms_KeyManager;
  Crypto : crypto_Crypto
}.

Record kmsProvider : Type := {
  keystore : keystore_Repository;
  kms : kms_KeyManager;
  crypto : crypto_Crypto
}.

(** Operation defines handlers logic for Key Server. *)
Record Operation : Type := {
  provider : Provider
}.

(** The functions of packages keystore and kms that the handlers
    call, and whose code is not among the sources; the dispatcher
    depends on nothing but what each call returns.  The kms ones are
    the methods of [kmsservice.NewService(provider)]. *)
Record Packages : Type := {
  keystore_NewRepository : storage_Provider -> result keystore_Repository;
  keystore_Create : keystore_Repository -> string -> result string;
  kmsservice_CreateKey : kmsProvider -> string -> string -> result string;
  kmsservice_Sign : kmsProvider -> string -> string -> list ascii -> result (list ascii);
  kmsservice_Verify :
    kmsProvider -> string -> string -> list ascii -> list ascii -> option error;
  kmsservice_Encrypt :
    kmsProvider -> string -> string -> list ascii -> list ascii
    -> result (list ascii * list ascii);
  kmsservice_Decrypt :
    kmsProvider -> string -> string -> list ascii -> list ascii -> list ascii
    -> result (list ascii)
}.

Variable pkg : Packages.

(** encoding/json's comparison of field names with keys up to case. *)
Variable equalFold : string -> string -> bool.

Definition parseRequest (T : Type) `{RequestStruct T} (req : http.Request)
  : M (option T) :=
  match json.Decode equalFold structType (http.Body req) with
  | Err err =>
      writeErrorResponse http.StatusBadRequest (Sprintf receivedBadRequest [Error err]) ;;
      mret None
  | Ok fs => mret (Some (fromFields fs))
  end.

(** The calls on the collaborators, each leaving its event. *)
Definition NewRepository (sp : storage_Provider) : M (result keystore_Repository) :=
  let r := keystore_NewRepository pkg sp in
  emit (EvNewRepository (errOf r)) ;; mret r.

Definition callKMSCreator (p : Provider) (ctx : KMSCreatorContext)
  : M (result kms_KeyManager) :=
  let r := KMSCreator p ctx in
  emit (EvKMSCreator ctx (errOf r)) ;; mret r.

Definition srv_Create (repo : keystore_Repository) (controller : string)
  : M (result string) :=
  let r := keystore_Create pkg repo controller in
  emit (EvCreate controller r) ;; mret r.

Definition srv_CreateKey (p : kmsProvider) (keystoreID keyType : string)
  : M (result string) :=
  let r := kmsservice_CreateKey pkg p keystoreID keyType in
  emit (EvCreateKey keystoreID keyType r) ;; mret r.

Definition srv_Sign (p : kmsProvider) (keystoreID keyID : string) (msg : list ascii)
  : M (result (list ascii)) :=
  let r := kmsservice_Sign pkg p keystoreID keyID msg in
  emit (EvSign keystoreID keyID msg r) ;; mret r.

Definition srv_Verify (p : kmsProvider) (keystoreID keyID : string)
    (sig msg : list ascii) : M (option error) :=
  let r := kmsservice_Verify pkg p keystoreID keyID sig msg in
  emit (EvVerify keystoreID keyID sig msg r) ;; mret r.

Definition srv_Encrypt (p : kmsProvider) (keystoreID keyID : string)
    (msg aad : list ascii) : M (result (list ascii * list ascii)) :=
  let r := kmsservice_Encrypt pkg p keystoreID keyID msg aad in
  emit (EvEncrypt keystoreID keyID msg aad r) ;; mret r.

Definition srv_Decrypt (p : kmsProvider) (keystoreID keyID : string)
    (cipherText aad nonce : list ascii) : M (result (list ascii)) :=
  let r := kmsservice_Decrypt pkg p keystoreID keyID cipherText aad nonce in
  emit (EvDecrypt keystoreID keyID cipherText aad nonce r) ;; mret r.

Definition prepareKMSProvider (p : Provider) (keystoreID passphrase : string)
  : M (option kmsProvider) :=
  r ← NewRepository (StorageProvider p) ;
  match r with
  | Err err =>
      writeErrorResponse http.StatusInternalServerError
        (Sprintf createKMSProviderFailure [Error err]) ;;
      mret None
  | Ok keystoreRepo =>
      r ← callKMSCreator p {| KeystoreID := keystoreID; Passphrase := passphrase |} ;
      match r with
      | Err err =>
          writeErrorResponse http.StatusInternalServerError
            (Sprintf createKMSProviderFailure [Error err]) ;;
          mret None
      | Ok keyManager =>
          mret (Some {| keystore := keystoreRepo; kms := keyManager;
                        crypto := Crypto p |})
      end
  end.

Definition createKeystoreHandler (o : Operation) (req : http.Request) : M unit :=
  ok ← parseRequest createKeystoreReq.t req ;
  match ok with
  | None => mret tt
  | Some request =>
      r ← NewRepository (StorageProvider (provider o)) ;
      match r with
      | Err err =>
          writeErrorResponse http.StatusInternalServerError
            (Sprintf createKeystoreFailure [Error err])
      | Ok repo =>
          r ← srv_Create repo (createKeystoreReq.Controller request) ;
          match r with
          | Err err =>
              writeErrorResponse http.StatusInternalServerError
                (Sprintf createKeystoreFailure [Error err])
          | Ok keystoreID =>
              rw_Header_Set "Location" (keystoreLocation (http.Host req) keystoreID) ;;
              rw_WriteHeader http.StatusCreated
          end
      end
  end.

Definition createKeyHandler (o : Operation) (req : http.Request) : M unit :=
  ok ← parseRequest createKeyReq.t req ;
  match ok with
  | None => mret tt
  | Some request =>
      let keystoreID := mapIndex (http.Vars req) keystoreIDQueryParam in
      p ← prepareKMSProvider (provider o) keystoreID (createKeyReq.Passphrase request) ;
      match p with
      | None => mret tt
      | Some kmsProvider =>
          r ← srv_CreateKey kmsProvider keystoreID (createKeyReq.KeyType request) ;
          match r with
          | Err err =>
              writeErrorResponse http.StatusInternalServerError
                (Sprintf createKeyFailure [Error err])
          | Ok keyID =>
              rw_Header_Set "Location" (keyLocation (http.Host req) keystoreID keyID) ;;
              rw_WriteHeader http.StatusCreated
          end
      end
  end.

Definition signHandler (o : Operation) (req : http.Request) : M unit :=
  ok ← parseRequest signReq.t req ;
  match ok with
  | None => mret tt
  | Some request =>
      let keystoreID := mapIndex (http.Vars req) keystoreIDQueryParam in
      let keyID := mapIndex (http.Vars req) keyIDQueryParam in
      p ← prepareKMSProvider (provider o) keystoreID (signReq.Passphrase request) ;
      match p with
      | None => mret tt
      | Some provider =>
          r ← srv_Sign provider keystoreID keyID
                (list_ascii_of_string (signReq.Message request)) ;
          match r with
          | Err err =>
              writeErrorResponse http.StatusInternalServerError
                (Sprintf signMessageFailure [Error err])
          | Ok signature =>
              writeResponse {| signResp.Signature :=
                base64.EncodeToString base64.URLEncoding signature |}
          end
      end
  end.

Definition verifyHandler (o : Operation) (req : http.Request) : M unit :=
  ok ← parseRequest verifyReq.t req ;
  match ok with
  | None => mret tt
  | Some request =>
      let keystoreID := mapIndex (http.Vars req) keystoreIDQueryParam in
      let keyID := mapIndex (http.Vars req) keyIDQueryParam in
      p ← prepareKMSProvider (provider o) keystoreID (verifyReq.Passphrase request) ;
      match p with
      | None => mret tt
      | Some provider =>
          match base64.DecodeString base64.URLEncoding (verifyReq.Signature request) with
          | (_, Some err) =>
              writeErrorResponse http.StatusBadRequest
                (Sprintf receivedBadRequest [Error err])
          | (signature, None) =>
              err ← srv_Verify provider keystoreID keyID signature
                      (list_ascii_of_string (verifyReq.Message request)) ;
              match err with
              | Some err =>
                  let status :=
                    if errors_Is err ErrInvalidSignature
                    then http.StatusOK
                    else http.StatusInternalServerError in
                  writeErrorResponse status (Sprintf verifyMessageFailure [Error err])
              | None => rw_WriteHeader http.StatusOK
              end
          end
      end
  end.

Definition encryptHandler (o : Operation) (req : http.Request) : M unit :=
  ok ← parseRequest encryptReq.t req ;
  match ok with
  | None => mret tt
  | Some request =>
      let keystoreID := mapIndex (http.Vars req) keystoreIDQueryParam in
      let keyID := mapIndex (http.Vars req) keyIDQueryParam in
      p ← prepareKMSProvider (provider o) keystoreID (encryptReq.Passphrase request) ;
      match p with
      | None => mret tt
      | Some provider =>
          r ← srv_Encrypt provider keystoreID keyID
                (list_ascii_of_string (encryptReq.Message request))
                (list_ascii_of_string (encryptReq.AdditionalData request)) ;
          match r with
          | Err err =>
              writeErrorResponse http.StatusInternalServerError
                (Sprintf encryptMessageFailure [Error err])
          | Ok (cipherText, nonce) =>
              writeResponse {|
                encryptResp.CipherText :=
                  base64.EncodeToString base64.URLEncoding cipherText;
                encryptResp.Nonce := base64.EncodeToString base64.URLEncoding nonce |}
          end
      end
  end.

Definition decryptHandler (o : Operation) (req : http.Request) : M unit :=
  ok ← parseRequest decryptReq.t req ;
  match ok with
  | None => mret tt
  | Some request =>
      let keystoreID := mapIndex (http.Vars req) keystoreIDQueryParam in
      let keyID := mapIndex (http.Vars req) keyIDQueryParam in
      p ← prepareKMSProvider (provider o) keystoreID (decryptReq.Passphrase request) ;
      match p with
      | None => mret tt
      | Some provider =>
          match base64.DecodeString base64.URLEncoding (decryptReq.CipherText request) with
          | (_, Some err) =>
              writeErrorResponse http.StatusBadRequest
                (Sprintf receivedBadRequest [Error err])
          | (cipherText, None) =>
              match base64.DecodeString base64.URLEncoding (decryptReq.Nonce request) with
              | (_, Some err) =>
                  writeErrorResponse http.StatusBadRequest
                    (Sprintf receivedBadRequest [Error err])
              | (nonce, None) =>
                  r ← srv_Decrypt provider keystoreID keyID cipherText
                        (list_ascii_of_string (decryptReq.AdditionalData request))
                        nonce ;
                  match r with
                  | Err err =>
                      writeErrorResponse http.StatusInternalServerError
                        (Sprintf decryptMessageFailure [Error err])
                  | Ok plainText =>
                      writeResponse {| decryptResp.PlainText :=
                        string_of_list_ascii plainText |}
                  end
              end
          end
      end
  end.

(** Handler defines an HTTP handler for the API endpoint. *)
Record Handler : Type := NewHTTPHandler {
  Path : string;
  Method : string;
  Handle : http.Request -> M unit
}.

Definition registerHandlers (o : Operation) : list Handler :=
  [ NewHTTPHandler keystoresEndpoint http.MethodPost (createKeystoreHandler o);
    NewHTTPHandler keysEndpoint http.MethodPost (createKeyHandler o);
    NewHTTPHandler signEndpoint http.MethodPost (signHandler o);
    NewHTTPHandler verifyEndpoint http.MethodPost (verifyHandler o);
    NewHTTPHandler encryptEndpoint http.MethodPost (encryptHandler o);
    NewHTTPHandler decryptEndpoint http.MethodPost (decryptHandler o) ].

End Operation.

Arguments Provider : clear implicits.
Arguments kmsProvider : clear implicits.
Arguments Operation : clear implicits.
Arguments Packages : clear implicits.
Arguments Handler : clear implicits.

(** ** Endpoints, fresh writers and what is read off a trace *)

Inductive endpoint : Type :=
| createKeystore | createKey | sign | verify | encrypt | decrypt.

Definition endpoints : list endpoint :=
  [createKeystore; createKey; sign; verify; encrypt; decrypt].

Definition pathOf (ep : endpoint) : string :=
  match ep with
  | createKeystore => keystoresEndpoint
  | createKey => keysEndpoint
  | sign => signEndpoint
  | verify => verifyEndpoint
  | encrypt => encryptEndpoint
  | decrypt => decryptEndpoint
  end.

(** The request struct each handler hands to [parseRequest]. *)
Definition requestType (ep : endpoint) : json.StructType :=
  match ep with
  | createKeystore => structType (T := createKeystoreReq.t)
  | createKey => structType (T := createKeyReq.t)
  | sign => structType (T := signReq.t)
  | verify => structType (T := verifyReq.t)
  | encrypt => structType (T := encryptReq.t)
  | decrypt => structType (T := decryptReq.t)
  end.

(** The endpoints whose handler calls [prepareKMSProvider]. *)
Definition provisioned (ep : endpoint) : bool :=
  match ep with
  | createKeystore => false
  | _ => true
  end.

Section Endpoints.

Context {storage_Provider keystore_Repository kms_KeyManager crypto_Crypto : Type}.
Variable pkg : Packages storage_Provider keystore_Repository kms_KeyManager crypto_Crypto.
Variable equalFold : string -> string -> bool.
Variable o : Operation storage_Provider kms_KeyManager crypto_Crypto.

Definition handlerOf (ep : endpoint) : http.Request -> M unit :=
  match ep with
  | createKeystore => createKeystoreHandler pkg equalFold o
  | createKey => createKeyHandler pkg equalFold o
  | sign => signHandler pkg equalFold o
  | verify => verifyHandler pkg equalFold o
  | encrypt => encryptHandler pkg equalFold o
  | decrypt => decryptHandler pkg equalFold o
  end.

(** What [parseRequest] gets from the decoder on this endpoint. *)
Definition decoded (ep : endpoint) (req : http.Request) : result (gmap string string) :=
  json.Decode equalFold (requestType ep) (http.Body req).

End Endpoints.

(** A writer nothing has been written to; with [werr] set, one whose
    [Write] fails (the tests' [failingResponseWriter]). *)
Definition recorder (werr : option error) : http.ResponseWriter :=
  {| http.Code := 200; http.wroteHeader := false; http.HeaderMap := ∅;
     http.ResponseBody := []; http.writeErr := werr |}.

(** The documents handed to [Write], whether or not the writer took them. *)
Definition writes (t : list event) : list json.Value :=
  flat_map (fun e => match e with EvWrite doc => [doc] | _ => [] end) t.

Definition headerWrites (t : list event) : list Z :=
  flat_map (fun e => match e with EvWriteHeader c => [c] | _ => [] end) t.

(** The headers the handler set itself. *)
Definition headerSets (t : list event) : list (string * string) :=
  flat_map (fun e => match e with EvHeaderSet key value => [(key, value)] | _ => [] end) t.

Definition logged (t : list event) : list string :=
  flat_map (fun e => match e with EvErrorf msg => [msg] | _ => [] end) t.

(** The calls of the key-manager constructor. *)
Definition creatorCalls (t : list event) : list KMSCreatorContext :=
  flat_map (fun e => match e with EvKMSCreator ctx _ => [ctx] | _ => [] end) t.

(** The target capabilities: the keystore service's [Create] and the
    kms service's key creation and crypto operations. *)
Definition isCapability (e : event) : bool :=
  match e with
  | EvCreate _ _ | EvCreateKey _ _ _ | EvSign _ _ _ _ | EvVerify _ _ _ _ _
  | EvEncrypt _ _ _ _ _ | EvDecrypt _ _ _ _ _ _ => true
  | _ => false
  end.

(** The crypto operations alone. *)
Definition isCrypto (e : event) : bool :=
  match e with
  | EvSign _ _ _ _ | EvVerify _ _ _ _ _
  | EvEncrypt _ _ _ _ _ | EvDecrypt _ _ _ _ _ _ => true
  | _ => false
  end.

(** Any call on storage, on the key-manager constructor or on a capability. *)
Definition isCollaborator (e : event) : bool :=
  match e with
  | EvNewRepository _ | EvKMSCreator _ _ => true
  | _ => isCapability e
  end.

(** The body of an error response carrying [msg]. *)
Definition errorBody (msg : string) : json.Value :=
  Marshal {| errorResponse.Message := msg |}.

(** ** Outcomes the statements below refer to *)

(** The first base64 field of a decoded request that does not decode,
    in the order in which the handler decodes them. *)
Definition base64Error (ep : endpoint) (fs : gmap string string) : option error :=
  match ep with
  | verify => snd (base64.DecodeString base64.URLEncoding (mapIndex fs "signature"))
  | decrypt =>
      match snd (base64.DecodeString base64.URLEncoding (mapIndex fs "cipherText")) with
      | Some err => Some err
      | None => snd (base64.DecodeString base64.URLEncoding (mapIndex fs "nonce"))
      end
  | _ => None
  end.

Section Outcomes.

Context {storage_Provider keystore_Repository kms_KeyManager crypto_Crypto : Type}.
Variable pkg : Packages storage_Provider keystore_Repository kms_KeyManager crypto_Crypto.
Variable o : Operation storage_Provider kms_KeyManager crypto_Crypto.

(** What stops [prepareKMSProvider], if anything: the repository that
    does not open, or else the constructor that fails. *)
Definition provisionError (ctx : KMSCreatorContext) : option error :=
  match keystore_NewRepository pkg (StorageProvider (provider o)) with
  | Err err => Some err
  | Ok _ => errOf (KMSCreator (provider o) ctx)
  end.

End Outcomes.

(** The context a provisioned handler builds for the constructor: the
    keystore of the URL path and the passphrase of the decoded body. *)
Definition contextOf (req : http.Request) (fs : gmap string string) : KMSCreatorContext :=
  {| KeystoreID := mapIndex (http.Vars req) keystoreIDQueryParam;
     Passphrase := mapIndex fs "passphrase" |}.

(** An error response: the status, and one body carrying [msg], handed
    to the writer and, if the writer works, received. *)
Definition respondsError (werr : option error) (x : Exchange) (status : Z) (msg : string)
  : Prop :=
  http.Code (rw x) = status
  /\ writes (trace x) = [errorBody msg]
  /\ (werr = None -> http.ResponseBody (rw x) = [errorBody msg]).

(** Six bits of a 24-bit group and the group put together again. *)
Definition six (val shift : Z) : Z := Z.land (Z.shiftr val shift) 63.

Definition assemble (s0 s1 s2 s3 : Z) : Z :=
  Z.lor (Z.lor (Z.lor (Z.shiftl s0 18) (Z.shiftl s1 12)) (Z.shiftl s2 6)) s3.

(** The characters of an input that belong to the alphabet, counted. *)
Definition inAlphabet (enc : base64.Encoding) (c : ascii) : bool :=
  negb (base64.decodeMap enc c =? 255)%Z.

Definition alphabetCount (enc : base64.Encoding) (src : list ascii) : nat :=
  length (List.filter (inAlphabet enc) src).

(** A string of ASCII bytes only. *)
Definition isASCII (s : string) : bool :=
  forallb (fun c => (N_of_ascii c <? utf8.RuneSelf)%N) (list_ascii_of_string s).

(** fmt.Errorf(pre + "%w" + post, err) *)
Definition Errorf_w (pre post : string) (err : error) : error :=
  wrapError (pre ++ Error err ++ post) err.

(** Errors that carry [ErrInvalidSignature] the way Go code builds
    them: the sentinel itself, or [fmt.Errorf] wrapping such an error
    with [%w]. *)
Inductive wrapsInvalidSignature : error -> Prop :=
| wraps_sentinel : wrapsInvalidSignature ErrInvalidSignature
| wraps_Errorf pre post err :
    wrapsInvalidSignature err -> wrapsInvalidSignature (Errorf_w pre post err).

(** [text] has [needle] in it. *)
Definition names (text needle : string) : Prop :=
  exists pre post, text = pre ++ needle ++ post.

(** The last two calls of a trace. *)
Definition lastTwo (t : list event) : list event := skipn (length t - 2) t.

(** The two messages the response helpers log when a write fails. *)
Definition writeFailureLogs (err : error) : list string :=
  [Sprintf "Unable to send an error message, %s" [Error err];
   Sprintf "Unable to send a response, %s" [Error err]].

(** The collaborator calls a keystore creation may make. *)
Definition isRepositoryCall (e : event) : bool :=
  match e with
  | EvNewRepository _ | EvCreate _ _ => true
  | _ => false
  end.

(** ** A concrete world for examples

    Collaborators in the manner of the tests' mock provider: handles are
    [unit], and each call returns what the record below says. *)

Record Mock : Type := {
  ErrOpenStoreHandle : option error;
  KMSCreatorErr : option error;
  CreateErr : option error;
  CreateKeystoreID : string;
  CreateKeyErr : option error;
  CreateKeyID : string;
  SignErr : option error;
  SignValue : list ascii;
  VerifyErr : option error;
  EncryptErr : option error;
  EncryptValue : list ascii;
  EncryptNonce : list ascii;
  DecryptErr : option error;
  DecryptValue : list ascii
}.

Definition orErr {A : Type} (err : option error) (a : A) : result A :=
  match err with
  | Some e => Err e
  | None => Ok a
  end.

Definition mockPackages (m : Mock) : Packages unit unit unit unit := {|
  keystore_NewRepository _ := orErr (ErrOpenStoreHandle m) tt;
  keystore_Create _ _ := orErr (CreateErr m) (CreateKeystoreID m);
  kmsservice_CreateKey _ _ _ := orErr (CreateKeyErr m) (CreateKeyID m);
  kmsservice_Sign _ _ _ _ := orErr (SignErr m) (SignValue m);
  kmsservice_Verify _ _ _ _ _ := VerifyErr m;
  kmsservice_Encrypt _ _ _ _ _ := orErr (EncryptErr m) (EncryptValue m, EncryptNonce m);
  kmsservice_Decrypt _ _ _ _ _ _ := orErr (DecryptErr m) (DecryptValue m)
|}.

Definition mockOperation (m : Mock) : Operation unit unit unit := {|
  provider := {| StorageProvider := tt;
                 KMSCreator _ := orErr (KMSCreatorErr m) tt;
                 Crypto := tt |}
|}.

Definition NewMockProvider : Mock := {|
  ErrOpenStoreHandle := None; KMSCreatorErr := None;
  CreateErr := None; CreateKeystoreID := "bsi5ct08vcqmquc0fn5g";
  CreateKeyErr := None; CreateKeyID := "Fm4r2iwjYnswLRZKl38W";
  SignErr := None; SignValue := list_ascii_of_string "signature";
  VerifyErr := None;
  EncryptErr := None; EncryptValue := list_ascii_of_string "cipher text";
  EncryptNonce := list_ascii_of_string "nonce";
  DecryptErr := None; DecryptValue := list_ascii_of_string "plain text"
|}.

(** Comparison up to the case of ASCII letters. *)
Definition lower (c : ascii) : ascii :=
  let n := nat_of_ascii c in
  if (65 <=? n)%nat && (n <=? 90)%nat then ascii_of_nat (n + 32) else c.

Fixpoint asciiEqualFold (s t : string) : bool :=
  match s, t with
  | EmptyString, EmptyString => true
  | String a s', String b t' => Ascii.eqb (lower a) (lower b) && asciiEqualFold s' t'
  | _, _ => false
  end.

(** Serve one request on an endpoint of the mock world. *)
Definition run (m : Mock) (ep : endpoint) (werr : option error) (req : http.Request)
  : Exchange :=
  serve (handlerOf (mockPackages m) asciiEqualFold (mockOperation m) ep req)
        (recorder werr).

Definition io_EOF : error := errorString 2 "EOF".

Definition testVars : gmap string string :=
  <["keystoreID" := "bsi5ct08vcqmquc0fn5g"]> (<["keyID" := "Fm4r2iwjYnswLRZKl38W"]> ∅).

Definition request (body : json.Stream) : http.Request :=
  {| http.Body := body; http.Host := "localhost:8070"; http.Vars := testVars |}.

Definition object (ms : list (string * string)) : json.Stream :=
  json.Document (json.Object (map (fun m => (fst m, json.Str (snd m))) ms)).

(** Mock providers with one call set to fail. *)
Definition withOpenStoreErr (err : error) (m : Mock) : Mock := {|
  ErrOpenStoreHandle := Some err; KMSCreatorErr := KMSCreatorErr m;
  CreateErr := CreateErr m; CreateKeystoreID := CreateKeystoreID m;
  CreateKeyErr := CreateKeyErr m; CreateKeyID := CreateKeyID m;
  SignErr := SignErr m; SignValue := SignValue m; VerifyErr := VerifyErr m;
  EncryptErr := EncryptErr m; EncryptValue := EncryptValue m;
  EncryptNonce := EncryptNonce m;
  DecryptErr := DecryptErr m; DecryptValue := DecryptValue m
|}.

Definition withKMSCreatorErr (err : error) (m : Mock) : Mock := {|
  ErrOpenStoreHandle := ErrOpenStoreHandle m; KMSCreatorErr := Some err;
  CreateErr := CreateErr m; CreateKeystoreID := CreateKeystoreID m;
  CreateKeyErr := CreateKeyErr m; CreateKeyID := CreateKeyID m;
  SignErr := SignErr m; SignValue := SignValue m; VerifyErr := VerifyErr m;
  EncryptErr := EncryptErr m; EncryptValue := EncryptValue m;
  EncryptNonce := EncryptNonce m;
  DecryptErr := DecryptErr m; DecryptValue := DecryptValue m
|}.

Definition withVerifyErr (err : error) (m : Mock) : Mock := {|
  ErrOpenStoreHandle := ErrOpenStoreHandle m; KMSCreatorErr := KMSCreatorErr m;
  CreateErr := CreateErr m; CreateKeystoreID := CreateKeystoreID m;
  CreateKeyErr := CreateKeyErr m; CreateKeyID := CreateKeyID m;
  SignErr := SignErr m; SignValue := SignValue m; VerifyErr := Some err;
  EncryptErr := EncryptErr m; EncryptValue := EncryptValue m;
  EncryptNonce := EncryptNonce m;
  DecryptErr := DecryptErr m; DecryptValue := DecryptValue m
|}.

(** Requests in the manner of the tests' builders. *)
Definition buildCreateKeystoreReq (controller : string) : http.Request :=
  request (object [("controller", controller)]).

Definition buildCreateKeyReq (keyType : string) : http.Request :=
  request (object [("keyType", keyType)]).

Definition buildSignReq (message : string) : http.Request :=
  request (object [("message", message)]).

Definition buildVerifyReq (signature : string) : http.Request :=
  request (object [("signature", signature); ("message", "test message")]).

Definition buildEncryptReq (message aad : string) : http.Request :=
  request (object [("message", message); ("aad", aad)]).

Definition buildDecryptReq (cipherText nonce : string) : http.Request :=
  request (object [("cipherText", cipherText); ("aad", "additional data");
                   ("nonce", nonce)]).

(** A request with no body at all: the decoder reports io.EOF. *)
Definition emptyRequest : http.Request := request (json.Malformed io_EOF).

(** ** The rest of the package: construction, routing, the bundle *)

Section Package.

Context {storage_Provider keystore_Repository kms_KeyManager crypto_Crypto : Type}.
Variable pkg : Packages storage_Provider keystore_Repository kms_KeyManager crypto_Crypto.
Variable equalFold : string -> string -> bool.

(** New returns a new Operation instance.  The handlers that Go keeps
    in the struct are set once, by [registerHandlers], and never
    changed: they are a function of the operation. *)
Definition New (p : Provider storage_Provider kms_KeyManager crypto_Crypto)
  : Operation storage_Provider kms_KeyManager crypto_Crypto :=
  {| provider := p |}.

(** GetRESTHandlers gets all API handlers available for the Key Server service. *)
Definition GetRESTHandlers (o : Operation storage_Provider kms_KeyManager crypto_Crypto)
  : list (Handler) :=
  registerHandlers pkg equalFold o.

(** The tests' [handlerLookup]: the first handler registered under the
    path and the method, if there is one. *)
Definition handlerLookup (o : Operation storage_Provider kms_KeyManager crypto_Crypto)
    (pathToLookup methodToLookup : string) : option Handler :=
  List.find (fun h => String.eqb (Path h) pathToLookup
                      && String.eqb (Method h) methodToLookup)
            (GetRESTHandlers o).

(** The methods of [kmsProvider]. *)
Definition Keystore
    (k : kmsProvider keystore_Repository kms_KeyManager crypto_Crypto)
  : keystore_Repository := keystore k.

Definition KMS (k : kmsProvider keystore_Repository kms_KeyManager crypto_Crypto)
  : kms_KeyManager := kms k.

Definition kmsProvider_Crypto
    (k : kmsProvider keystore_Repository kms_KeyManager crypto_Crypto)
  : crypto_Crypto := crypto k.

End Package.

(** The failure format of each endpoint's capability. *)
Definition failureFormat (ep : endpoint) : string :=
  match ep with
  | createKeystore => createKeystoreFailure
  | createKey => createKeyFailure
  | sign => signMessageFailure
  | verify => verifyMessageFailure
  | encrypt => encryptMessageFailure
  | decrypt => decryptMessageFailure
  end.

(** The error a capability call returned, if it returned one. *)
Definition capabilityError (e : event) : option error :=
  match e with
  | EvCreate _ r | EvCreateKey _ _ r => errOf r
  | EvSign _ _ _ r => errOf r
  | EvVerify _ _ _ _ r => r
  | EvEncrypt _ _ _ _ r => errOf r
  | EvDecrypt _ _ _ _ _ r => errOf r
  | _ => None
  end.

(** The calls on the collaborators, and on the capabilities alone. *)
Definition collaboratorCalls (t : list event) : list event :=
  List.filter isCollaborator t.

Definition capabilityCalls (t : list event) : list event :=
  List.filter isCapability t.

(** The eight message formats of the package. *)
Definition messageFormats : list string :=
  [receivedBadRequest; createKeystoreFailure; createKMSProviderFailure;
   createKeyFailure; signMessageFailure; verifyMessageFailure;
   encryptMessageFailure; decryptMessageFailure].

(** ** A request's plan

    What a handler does, told without the response writer: the calls on
    the collaborators, in order, and the answer that is sent. *)

Inductive answer : Type :=
| Failure (status : Z) (msg : string)
| Created (location : string)
| Payload (doc : json.Value)
| StatusOnly (status : Z).

Section Plan.

Context {storage_Provider keystore_Repository kms_KeyManager crypto_Crypto : Type}.
Variable pkg : Packages storage_Provider keystore_Repository kms_KeyManager crypto_Crypto.
Variable equalFold : string -> string -> bool.
Variable o : Operation storage_Provider kms_KeyManager crypto_Crypto.

Definition failed (format : string) (err : error) : answer :=
  Failure http.StatusInternalServerError (Sprintf format [Error err]).

Definition badRequest (err : error) : answer :=
  Failure http.StatusBadRequest (Sprintf receivedBadRequest [Error err]).

(** The bundle [prepareKMSProvider] returns. *)
Definition bundleOf (repo : keystore_Repository) (km : kms_KeyManager)
  : kmsProvider keystore_Repository kms_KeyManager crypto_Crypto :=
  {| keystore := repo; kms := km; crypto := Crypto (provider o) |}.

(** The call a provisioned handler makes on its capability, once the
    request is decoded and the bundle is there. *)
Definition capabilityCall (ep : endpoint)
    (b : kmsProvider keystore_Repository kms_KeyManager crypto_Crypto)
    (req : http.Request) (fs : gmap string string) : event :=
  let keystoreID := mapIndex (http.Vars req) keystoreIDQueryParam in
  let keyID := mapIndex (http.Vars req) keyIDQueryParam in
  match ep with
  | createKeystore =>
      EvCreate (mapIndex fs "controller")
        (keystore_Create pkg (keystore b) (mapIndex fs "controller"))
  | createKey =>
      EvCreateKey keystoreID (mapIndex fs "keyType")
        (kmsservice_CreateKey pkg b keystoreID (mapIndex fs "keyType"))
  | sign =>
      let msg := list_ascii_of_string (mapIndex fs "message") in
      EvSign keystoreID keyID msg (kmsservice_Sign pkg b keystoreID keyID msg)
  | verify =>
      let sig := fst (base64.DecodeString base64.URLEncoding (mapIndex fs "signature")) in
      let msg := list_ascii_of_string (mapIndex fs "message") in
      EvVerify keystoreID keyID sig msg
        (kmsservice_Verify pkg b keystoreID keyID sig msg)
  | encrypt =>
      let msg := list_ascii_of_string (mapIndex fs "message") in
      let aad := list_ascii_of_string (mapIndex fs "aad") in
      EvEncrypt keystoreID keyID msg aad
        (kmsservice_Encrypt pkg b keystoreID keyID msg aad)
  | decrypt =>
      let cipherText :=
        fst (base64.DecodeString base64.URLEncoding (mapIndex fs "cipherText")) in
      let nonce := fst (base64.DecodeString base64.URLEncoding (mapIndex fs "nonce")) in
      let aad := list_ascii_of_string (mapIndex fs "aad") in
      EvDecrypt keystoreID keyID cipherText aad nonce
        (kmsservice_Decrypt pkg b keystoreID keyID cipherText aad nonce)
  end.

(** The answer to a capability call that was made. *)
Definition answerTo (ep : endpoint) (req : http.Request) (call : event) : answer :=
  match call with
  | EvCreate _ (Ok keystoreID) => Created (keystoreLocation (http.Host req) keystoreID)
  | EvCreateKey keystoreID _ (Ok keyID) =>
      Created (keyLocation (http.Host req) keystoreID keyID)
  | EvSign _ _ _ (Ok signature) =>
      Payload (Marshal {| signResp.Signature :=
                            base64.EncodeToString base64.URLEncoding signature |})
  | EvVerify _ _ _ _ None => StatusOnly http.StatusOK
  | EvVerify _ _ _ _ (Some err) =>
      Failure (if errors_Is err ErrInvalidSignature
               then http.StatusOK else http.StatusInternalServerError)
              (Sprintf verifyMessageFailure [Error err])
  | EvEncrypt _ _ _ _ (Ok (cipherText, nonce)) =>
      Payload (Marshal {| encryptResp.CipherText :=
                            base64.EncodeToString base64.URLEncoding cipherText;
                          encryptResp.Nonce :=
                            base64.EncodeToString base64.URLEncoding nonce |})
  | EvDecrypt _ _ _ _ _ (Ok plainText) =>
      Payload (Marshal {| decryptResp.PlainText := string_of_list_ascii plainText |})
  | _ =>
      match capabilityError call with
      | Some err => failed (failureFormat ep) err
      | None => StatusOnly http.StatusOK
      end
  end.

Definition planOf (ep : endpoint) (req : http.Request) : list event * answer :=
  match decoded equalFold ep req with
  | Err err => ([], badRequest err)
  | Ok fs =>
      match keystore_NewRepository pkg (StorageProvider (provider o)) with
      | Err err =>
          ([EvNewRepository (Some err)],
           failed (if provisioned ep then createKMSProviderFailure
                   else createKeystoreFailure) err)
      | Ok repo =>
          if provisioned ep then
            let ctx := contextOf req fs in
            match KMSCreator (provider o) ctx with
            | Err err =>
                ([EvNewRepository None; EvKMSCreator ctx (Some err)],
                 failed createKMSProviderFailure err)
            | Ok km =>
                match base64Error ep fs with
                | Some err =>
                    ([EvNewRepository None; EvKMSCreator ctx None], badRequest err)
                | None =>
                    let call := capabilityCall ep (bundleOf repo km) req fs in
                    ([EvNewRepository None; EvKMSCreator ctx None; call],
                     answerTo ep req call)
                end
            end
          else
            let call :=
              EvCreate (mapIndex fs "controller")
                (keystore_Create pkg repo (mapIndex fs "controller")) in
            ([EvNewRepository None; call], answerTo ep req call)
      end
  end.

End Plan.

(** The calls on the writer and the logger that send an answer, and the
    writer they leave behind. *)
Definition writeLog (werr : option error) (format : string) : list event :=
  match werr with
  | Some err => [EvErrorf (Sprintf format [Error err])]
  | None => []
  end.

Definition taken (werr : option error) (doc : json.Value) : list json.Value :=
  match werr with
  | Some _ => []
  | None => [doc]
  end.

Definition sendEvents (werr : option error) (a : answer) : list event :=
  match a with
  | Failure status msg =>
      [EvWriteHeader status; EvWrite (errorBody msg)]
        ++ writeLog werr "Unable to send an error message, %s"
  | Created location => [EvHeaderSet "Location" location; EvWriteHeader http.StatusCreated]
  | Payload doc => EvWrite doc :: writeLog werr "Unable to send a response, %s"
  | StatusOnly status => [EvWriteHeader status]
  end.

Definition sendWriter (werr : option error) (a : answer) : http.ResponseWriter :=
  match a with
  | Failure status msg =>
      {| http.Code := status; http.wroteHeader := true; http.HeaderMap := ∅;
         http.ResponseBody := taken werr (errorBody msg); http.writeErr := werr |}
  | Created location =>
      {| http.Code := http.StatusCreated; http.wroteHeader := true;
         http.HeaderMap := <["Location" := [location]]> ∅;
         http.ResponseBody := []; http.writeErr := werr |}
  | Payload doc =>
      match werr with
      | Some _ => recorder werr
      | None =>
          {| http.Code := http.StatusOK; http.wroteHeader := true;
             http.HeaderMap := <["Content-Type" := [http.DetectContentType doc]]> ∅;
             http.ResponseBody := [doc]; http.writeErr := None |}
      end
  | StatusOnly status =>
      {| http.Code := status; http.wroteHeader := true; http.HeaderMap := ∅;
         http.ResponseBody := []; http.writeErr := werr |}
  end.

Definition carryOut (werr : option error) (p : list event * answer) : Exchange :=
  {| rw := sendWriter werr (snd p); trace := (fst p ++ sendEvents werr (snd p))%list |}.

(** A mock provider whose sign capability fails. *)
Definition withSignErr (err : error) (m : Mock) : Mock := {|
  ErrOpenStoreHandle := ErrOpenStoreHandle m; KMSCreatorErr := KMSCreatorErr m;
  CreateErr := CreateErr m; CreateKeystoreID := CreateKeystoreID m;
  CreateKeyErr := CreateKeyErr m; CreateKeyID := CreateKeyID m;
  SignErr := Some err; SignValue := SignValue m; VerifyErr := VerifyErr m;
  EncryptErr := EncryptErr m; EncryptValue := EncryptValue m;
  EncryptNonce := EncryptNonce m;
  DecryptErr := DecryptErr m; DecryptValue := DecryptValue m
|}.

(** A mock provider whose keystore service fails to create. *)
Definition withCreateErr (err : error) (m : Mock) : Mock := {|
  ErrOpenStoreHandle := ErrOpenStoreHandle m; KMSCreatorErr := KMSCreatorErr m;
  CreateErr := Some err; CreateKeystoreID := CreateKeystoreID m;
  CreateKeyErr := CreateKeyErr m; CreateKeyID := CreateKeyID m;
  SignErr := SignErr m; SignValue := SignValue m; VerifyErr := VerifyErr m;
  EncryptErr := EncryptErr m; EncryptValue := EncryptValue m;
  EncryptNonce := EncryptNonce m;
  DecryptErr := DecryptErr m; DecryptValue := DecryptValue m
|}.

(** A mock provider that decrypts to the given bytes. *)
Definition withDecryptValue (plainText : list ascii) (m : Mock) : Mock := {|
  ErrOpenStoreHandle := ErrOpenStoreHandle m; KMSCreatorErr := KMSCreatorErr m;
  CreateErr := CreateErr m; CreateKeystoreID := CreateKeystoreID m;
  CreateKeyErr := CreateKeyErr m; CreateKeyID := CreateKeyID m;
  SignErr := SignErr m; SignValue := SignValue m; VerifyErr := VerifyErr m;
  EncryptErr := EncryptErr m; EncryptValue := EncryptValue m;
  EncryptNonce := EncryptNonce m;
  DecryptErr := DecryptErr m; DecryptValue := plainText
|}.

(** The exchange a handler starts in. *)
Definition start (w : http.ResponseWriter) : Exchange := {| rw := w; trace := [] |}.

(** ** Tactics for running the handlers *)

Arguments Sprintf : simpl never.
Arguments Error : simpl never.
Arguments json.Decode : simpl never.
Arguments base64.DecodeString : simpl never.
Arguments base64.EncodeToString : simpl never.
Arguments keystoreLocation : simpl never.
Arguments keyLocation : simpl never.
Arguments mapIndex : simpl never.
Arguments errors_Is : simpl never.
Arguments http.Header_Get : simpl never.
Arguments http.DetectContentType : simpl never.
Arguments http.sniffs : simpl never.
Arguments json.encodedString : simpl never.

Ltac unfold_handlers :=
  unfold serve, handlerOf, createKeystoreHandler, createKeyHandler, signHandler,
    verifyHandler, encryptHandler, decryptHandler, parseRequest, prepareKMSProvider,
    NewRepository, callKMSCreator, srv_Create, srv_CreateKey, srv_Sign, srv_Verify,
    srv_Encrypt, srv_Decrypt, writeErrorResponse, writeResponse, Encode,
    logger_Errorf, rw_WriteHeader, rw_Write, rw_Header_Set, emit, onWriter,
    recorder,
    mbind, mret, M_bind, M_ret, decoded, requestType, provisionError, base64Error,
    contextOf, respondsError, errorBody in *.

(** The recorder's look at a header map that is still empty. *)
Ltac headers :=
  repeat (progress change (http.sniffs ∅) with true in * ; cbn in * ).

(** Split on whatever the handler branches on next, carry the outcome
    into the hypotheses and drop the paths they exclude. *)
Ltac branch :=
  match goal with
  | |- context [match ?e with _ => _ end] =>
      lazymatch e with
      | context [match _ with _ => _ end] => fail
      | _ =>
          let E := fresh "E" in
          destruct e eqn:E;
          repeat match goal with
                 | H : context [e] |- _ =>
                     tryif constr_eq H E then fail else rewrite E in H
                 end;
          cbn in *; simplify_eq; headers
      end
  end.

(** Run a handler to its end along every path. *)
Ltac run_all := unfold_handlers; cbn in *; headers; repeat branch.

(** An event that is supposed to be in a trace that is now explicit. *)
Ltac find_event H :=
  cbn in H; repeat (destruct H as [H|H]; try discriminate H); try contradiction.

Ltac all_events := repeat (constructor; try reflexivity; try discriminate).

Ltac in_trace := cbn; repeat first [left; reflexivity | right].

Ltac finish :=
  repeat split; intros;
  unfold http.StatusOK, http.StatusCreated, http.StatusBadRequest,
    http.StatusInternalServerError in *;
  cbn in *; simplify_eq;
  repeat match goal with E : ?e = _ |- context [?e] => rewrite E end;
  try reflexivity; try congruence; try discriminate; try in_trace.

(** Follow a request's plan along each of its paths: the body that does
    not decode, the repository that does not open, the constructor that
    fails, the base64 field that does not decode, the capability call. *)
Ltac paths :=
  unfold carryOut, planOf;
  destruct (decoded _ _ _) as [?fs|?derr] eqn:?Hdec;
  [ destruct (keystore_NewRepository _ _) as [?repo|?rerr] eqn:?Hrepo;
    [ destruct (provisioned _) eqn:?Hprov;
      [ destruct (KMSCreator _ _) as [?km|?kerr] eqn:?Hkm;
        [ destruct (base64Error _ _) as [?berr|] eqn:?Hb64 | ] | ] | ] | ];
  cbn [fst snd].

(** Unfold what a plan is made of. *)
Ltac unfold_plan :=
  unfold capabilityCall, answerTo, failed, badRequest, bundleOf,
    sendEvents, sendWriter, writeLog, taken, failureFormat, capabilityError,
    collaboratorCalls, capabilityCalls, respondsError, recorder in *.

(** * Properties *)

(** ** Strings and formats *)

Lemma append_nil_r (s : string) : s ++ "" = s.
Proof.
  induction s as [|c s IH]; [reflexivity|].
  change (String c (s ++ "") = String c s). rewrite IH. reflexivity.
Qed.

Lemma Sprintf_two a b : Sprintf "%s%s" [a; b] = a ++ b.
Proof. change (a ++ b ++ "" = a ++ b). rewrite append_nil_r. reflexivity. Qed.

Lemma Sprintf_receivedBadRequest s :
  Sprintf receivedBadRequest [s] = "Received bad request: " ++ s.
Proof.
  change ("Received bad request: " ++ s ++ "" = "Received bad request: " ++ s).
  rewrite append_nil_r. reflexivity.
Qed.

Lemma Sprintf_createKMSProviderFailure s :
  Sprintf createKMSProviderFailure [s] = "Failed to create a kms provider: " ++ s.
Proof.
  change ("Failed to create a kms provider: " ++ s ++ ""
          = "Failed to create a kms provider: " ++ s).
  rewrite append_nil_r. reflexivity.
Qed.

Lemma Sprintf_verifyMessageFailure s :
  Sprintf verifyMessageFailure [s] = "Failed to verify a message: " ++ s.
Proof.
  change ("Failed to verify a message: " ++ s ++ "" = "Failed to verify a message: " ++ s).
  rewrite append_nil_r. reflexivity.
Qed.

(** The keystore path with the identifier in place of [{keystoreID}]. *)
Lemma keystoreLocation_eq hostURL keystoreID :
  keystoreLocation hostURL keystoreID = hostURL ++ "/kms/keystores/" ++ keystoreID.
Proof.
  unfold keystoreLocation, strings.ReplaceAll. rewrite Sprintf_two.
  destruct (String.eqb "{keystoreID}" keystoreID) eqn:E.
  - apply String.eqb_eq in E. subst keystoreID. reflexivity.
  - change (hostURL ++ "/kms/keystores/" ++ keystoreID ++ ""
            = hostURL ++ "/kms/keystores/" ++ keystoreID).
    rewrite append_nil_r. reflexivity.
Qed.

(** Both identifiers are put in place in one pass: what is written for
    [{keystoreID}] is not scanned again. *)
Lemma keyLocation_eq hostURL keystoreID keyID :
  keyLocation hostURL keystoreID keyID =
    hostURL ++ "/kms/keystores/" ++ keystoreID ++ "/keys/" ++ keyID.
Proof.
  unfold keyLocation. rewrite Sprintf_two.
  change (hostURL ++ "/kms/keystores/" ++ keystoreID ++ "/keys/" ++ keyID ++ ""
          = hostURL ++ "/kms/keystores/" ++ keystoreID ++ "/keys/" ++ keyID).
  rewrite append_nil_r. reflexivity.
Qed.

(** ** encoding/base64 *)

Module base64_facts.

Import base64.
Local Open Scope Z_scope.
Local Open Scope list_scope.

Lemma uint_range b : 0 <= uint b < 256.
Proof. unfold uint. pose proof (N_ascii_bounded b). lia. Qed.

Lemma testbit_high v n i : 0 <= v < 2 ^ n -> n <= i -> Z.testbit v i = false.
Proof.
  intros Hv Hi. destruct (Z.eq_dec v 0) as [->|Hne].
  - apply Z.bits_0.
  - apply Z.bits_above_log2; [lia|].
    assert (Z.log2 v < n); [|lia].
    apply Z.log2_lt_pow2; lia.
Qed.

(** The four six-bit groups of a 24-bit value give it back. *)
Lemma assemble_six val :
  0 <= val < 2 ^ 24 ->
  assemble (six val 18) (six val 12) (six val 6) (six val 0) = val.
Proof.
  intros H. unfold assemble, six. change 63 with (Z.ones 6).
  Z.bitblast.
  rewrite (testbit_high val 24) by lia. reflexivity.
Qed.

Lemma six_range val s : 0 <= six val s < 64.
Proof.
  unfold six. change 63 with (Z.ones 6). rewrite Z.land_ones by lia.
  apply Z.mod_pos_bound. lia.
Qed.

Lemma six_div val s : 0 <= s -> six val s = (val / 2 ^ s) mod 64.
Proof.
  intros Hs. unfold six. change 63 with (Z.ones 6).
  rewrite Z.land_ones, Z.shiftr_div_pow2 by lia. reflexivity.
Qed.

(** Bitwise or of two values with no bit in common is their sum. *)
Lemma lor_add x lo k :
  0 <= k -> 0 <= lo < 2 ^ k -> x mod 2 ^ k = 0 -> Z.lor x lo = x + lo.
Proof.
  intros Hk Hlo Hx. symmetry. apply Z.add_nocarry_lor.
  assert (Hq : x = Z.shiftl (x / 2 ^ k) k).
  { rewrite Z.shiftl_mul_pow2 by lia.
    pose proof (Z.div_mod x (2 ^ k)). lia. }
  rewrite Hq. Z.bitblast.
  rewrite (testbit_high lo k) by lia. apply andb_false_r.
Qed.

Lemma pack3 a b c :
  Z.lor (Z.lor (Z.shiftl (uint a) 16) (Z.shiftl (uint b) 8)) (uint c)
  = uint a * 65536 + uint b * 256 + uint c.
Proof.
  pose proof (uint_range a) as Ha. pose proof (uint_range b) as Hb.
  pose proof (uint_range c) as Hc.
  rewrite !Z.shiftl_mul_pow2 by lia.
  change (2 ^ 16) with 65536. change (2 ^ 8) with 256.
  rewrite (lor_add (uint a * 65536) (uint b * 256) 16);
    [|lia|change (2 ^ 16) with 65536; lia
     |change (2 ^ 16) with 65536; Z.div_mod_to_equations; lia].
  rewrite (lor_add _ (uint c) 8);
    [|lia|change (2 ^ 8) with 256; lia
     |change (2 ^ 8) with 256; Z.div_mod_to_equations; lia].
  reflexivity.
Qed.

Lemma pack2 a b :
  Z.lor (Z.shiftl (uint a) 16) (Z.shiftl (uint b) 8)
  = uint a * 65536 + uint b * 256 + uint zero.
Proof.
  pose proof (uint_range a) as Ha. pose proof (uint_range b) as Hb.
  rewrite !Z.shiftl_mul_pow2 by lia.
  change (2 ^ 16) with 65536. change (2 ^ 8) with 256.
  rewrite (lor_add (uint a * 65536) (uint b * 256) 16);
    [|lia|change (2 ^ 16) with 65536; lia
     |change (2 ^ 16) with 65536; Z.div_mod_to_equations; lia].
  change (uint zero) with 0. lia.
Qed.

Lemma pack1 a :
  Z.shiftl (uint a) 16 = uint a * 65536 + uint zero * 256 + uint zero.
Proof.
  rewrite Z.shiftl_mul_pow2 by lia. change (uint zero) with 0.
  change (2 ^ 16) with 65536. lia.
Qed.

Lemma byte_of v b : 0 <= v -> v mod 256 = uint b -> byte v = b.
Proof.
  intros Hv H. unfold byte. change 255 with (Z.ones 8).
  rewrite Z.land_ones by lia. change (2 ^ 8) with 256. rewrite H.
  unfold uint. rewrite N2Z.id. apply ascii_N_embedding.
Qed.

Lemma unpack3 a b c :
  let val := uint a * 65536 + uint b * 256 + uint c in
  byte (Z.shiftr val 16) = a /\ byte (Z.shiftr val 8) = b /\ byte val = c.
Proof.
  intros val. unfold val.
  pose proof (uint_range a) as Ha. pose proof (uint_range b) as Hb.
  pose proof (uint_range c) as Hc.
  rewrite !Z.shiftr_div_pow2 by lia.
  change (2 ^ 16) with 65536. change (2 ^ 8) with 256.
  repeat split; apply byte_of; Z.div_mod_to_equations; lia.
Qed.

(** Every position of the URL alphabet decodes to itself. *)
Lemma alphabet_table :
  forallb (fun n => decodeMap URLEncoding (nth n (encode URLEncoding) zero) =? Z.of_nat n)
          (seq 0 64) = true.
Proof. vm_compute. reflexivity. Qed.

Lemma decodeMap_sextet val s :
  decodeMap URLEncoding (sextet URLEncoding val s) = six val s.
Proof.
  unfold sextet. fold (six val s). pose proof (six_range val s) as H.
  pose proof alphabet_table as T. rewrite forallb_forall in T.
  specialize (T (Z.to_nat (six val s))).
  rewrite Z2Nat.id in T by lia. apply Z.eqb_eq, T, in_seq. lia.
Qed.

(** One step of [decode] on a character of the alphabet. *)
Lemma decode_alphabet enc c rest si dbuf :
  decodeMap enc c <> 255 ->
  decode enc (c :: rest) si dbuf =
    if (length (dbuf ++ [decodeMap enc c]) =? 4)%nat
    then let '(bs, e) := decode enc rest (si + 1) [] in
         (quantumBytes (dbuf ++ [decodeMap enc c]) ++ bs, e)
    else decode enc rest (si + 1) (dbuf ++ [decodeMap enc c]).
Proof.
  intros H. cbn [decode].
  destruct (decodeMap enc c =? 255) eqn:E; [apply Z.eqb_eq in E; contradiction|].
  reflexivity.
Qed.

Lemma decode_sextet val s rest si dbuf :
  decode URLEncoding (sextet URLEncoding val s :: rest) si dbuf =
    if (length (dbuf ++ [six val s]) =? 4)%nat
    then let '(bs, e) := decode URLEncoding rest (si + 1) [] in
         (quantumBytes (dbuf ++ [six val s]) ++ bs, e)
    else decode URLEncoding rest (si + 1) (dbuf ++ [six val s]).
Proof.
  rewrite decode_alphabet; rewrite decodeMap_sextet; [reflexivity|].
  pose proof (six_range val s). lia.
Qed.

Lemma quantumBytes_assemble s0 s1 s2 s3 :
  quantumBytes [s0; s1; s2; s3] =
    let val := assemble s0 s1 s2 s3 in
    [byte (Z.shiftr val 16); byte (Z.shiftr val 8); byte val].
Proof. reflexivity. Qed.

Lemma decode_padding2 s0 s1 si :
  decode URLEncoding ["="%char; "="%char] si [s0; s1] = (quantumBytes [s0; s1], None).
Proof. reflexivity. Qed.

Lemma decode_padding1 s0 s1 s2 si :
  decode URLEncoding ["="%char] si [s0; s1; s2] = (quantumBytes [s0; s1; s2], None).
Proof. reflexivity. Qed.

(** Induction on a byte string three bytes at a time. *)
Lemma list_ind3 {A : Type} (P : list A -> Prop) :
  P [] -> (forall a, P [a]) -> (forall a b, P [a; b]) ->
  (forall a b c l, P l -> P (a :: b :: c :: l)) ->
  forall l, P l.
Proof.
  intros H0 H1 H2 H3 l.
  assert (H : P l /\ (forall a, P (a :: l)) /\ (forall a b, P (a :: b :: l))).
  { induction l as [|x l IH]; [auto|].
    destruct IH as (IH0 & IH1 & IH2). auto. }
  apply H.
Qed.

Lemma decode_Encode bs :
  forall si, decode URLEncoding (Encode URLEncoding bs) si [] = (bs, None).
Proof.
  induction bs as [|a|a b|a b c rest IH] using list_ind3; intros si.
  - reflexivity.
  - cbn [Encode padding URLEncoding NewEncoding padChar app].
    rewrite !decode_sextet. cbn [app length Nat.eqb].
    rewrite decode_padding2. rewrite pack1.
    set (val := _ + _ + _).
    pose proof (uint_range a).
    assert (Hval : 0 <= val < 2 ^ 24)
      by (unfold val; change (uint zero) with 0; change (2 ^ 24) with 16777216; lia).
    pose proof (assemble_six val Hval) as Has.
    replace (six val 6) with 0 in Has
      by (rewrite six_div by lia; unfold val; change (uint zero) with 0;
          change (2 ^ 6) with 64; Z.div_mod_to_equations; lia).
    replace (six val 0) with 0 in Has
      by (rewrite six_div by lia; unfold val; change (uint zero) with 0;
          change (2 ^ 0) with 1; Z.div_mod_to_equations; lia).
    change (quantumBytes [six val 18; six val 12])
      with [byte (Z.shiftr (assemble (six val 18) (six val 12) 0 0) 16)].
    rewrite Has. destruct (unpack3 a zero zero) as (Ha & _ & _). fold val in Ha.
    rewrite Ha. reflexivity.
  - cbn [Encode padding URLEncoding NewEncoding padChar app].
    rewrite !decode_sextet. cbn [app length Nat.eqb].
    rewrite decode_padding1. rewrite pack2.
    set (val := _ + _ + _).
    pose proof (uint_range a). pose proof (uint_range b).
    assert (Hval : 0 <= val < 2 ^ 24)
      by (unfold val; change (uint zero) with 0; change (2 ^ 24) with 16777216; lia).
    pose proof (assemble_six val Hval) as Has.
    replace (six val 0) with 0 in Has
      by (rewrite six_div by lia; unfold val; change (uint zero) with 0;
          change (2 ^ 0) with 1; Z.div_mod_to_equations; lia).
    change (quantumBytes [six val 18; six val 12; six val 6])
      with (let v := assemble (six val 18) (six val 12) (six val 6) 0 in
            [byte (Z.shiftr v 16); byte (Z.shiftr v 8)]).
    rewrite Has. cbv zeta.
    destruct (unpack3 a b zero) as (Ha & Hb & _). fold val in Ha, Hb.
    rewrite Ha, Hb. reflexivity.
  - cbn [Encode].
    rewrite !decode_sextet. cbn [app length Nat.eqb].
    rewrite IH, quantumBytes_assemble, pack3.
    set (val := _ + _ + _).
    pose proof (uint_range a). pose proof (uint_range b). pose proof (uint_range c).
    rewrite assemble_six by (unfold val; change (2 ^ 24) with 16777216; lia).
    cbv zeta. destruct (unpack3 a b c) as (Ha & Hb & Hc). fold val in Ha, Hb, Hc.
    rewrite Ha, Hb, Hc. reflexivity.
Qed.

Lemma DecodeString_EncodeToString bs :
  DecodeString URLEncoding (EncodeToString URLEncoding bs) = (bs, None).
Proof.
  unfold DecodeString, EncodeToString.
  rewrite list_ascii_of_string_of_list_ascii. apply decode_Encode.
Qed.

Lemma skipNewlines_In c src si :
  In c src -> isNewline c = false -> In c (fst (skipNewlines src si)).
Proof.
  revert si. induction src as [|h t IH]; intros si Hin Hc; [destruct Hin|].
  cbn [skipNewlines]. destruct (isNewline h) eqn:Hh.
  - destruct Hin as [->|Hin]; [congruence|]. apply IH; assumption.
  - exact Hin.
Qed.

Lemma finish_garbage c dbuf src si :
  In c src -> isNewline c = false -> snd (finish dbuf src si) <> None.
Proof.
  intros Hin Hc. unfold finish.
  pose proof (skipNewlines_In c src si Hin Hc) as H.
  destruct (skipNewlines src si) as [r s]. cbn [fst] in H. cbn [snd].
  destruct r; [destruct H|discriminate].
Qed.

(** A byte outside the alphabet that is neither a newline nor the
    padding character makes the whole input illegal, wherever it is. *)
Lemma decode_illegal enc c :
  decodeMap enc c = 255 -> isNewline c = false -> isPad enc c = false ->
  forall src si dbuf, In c src -> snd (decode enc src si dbuf) <> None.
Proof.
  intros Hmap Hnl Hpad src.
  induction src as [|h t IH]; intros si dbuf Hin; [destruct Hin|].
  cbn [decode].
  destruct (decodeMap enc h =? 255) eqn:Hh; cbn [negb].
  - destruct (isNewline h) eqn:Hhn.
    + destruct Hin as [->|Hin]; [congruence|]. apply IH, Hin.
    + destruct (isPad enc h) eqn:Hhp; cbn [negb]; [|discriminate].
      destruct Hin as [->|Hin]; [congruence|].
      destruct (length dbuf) as [|[|[|n]]]; try discriminate.
      * pose proof (skipNewlines_In c t (si + 1) Hin Hnl) as H.
        destruct (skipNewlines t (si + 1)) as [r1 s1]. cbn [fst] in H.
        destruct r1 as [|c2 r2]; [discriminate|].
        destruct (isPad enc c2) eqn:Hc2; cbn [negb]; [|discriminate].
        destruct H as [->|H]; [congruence|].
        apply (finish_garbage c); assumption.
      * apply (finish_garbage c); assumption.
  - apply Z.eqb_neq in Hh.
    destruct Hin as [->|Hin]; [contradiction|].
    destruct (length (dbuf ++ [decodeMap enc h]) =? 4)%nat.
    + specialize (IH (si + 1) [] Hin).
      destruct (decode enc t (si + 1) []) as [bs e]. exact IH.
    + apply IH, Hin.
Qed.

(** The encoding without padding of a byte string whose length is not
    a multiple of three is not accepted by the padded decoder. *)
Lemma decode_unpadded bs :
  forall si, (length bs mod 3 <> 0)%nat ->
    snd (decode URLEncoding (Encode RawURLEncoding bs) si []) <> None.
Proof.
  induction bs as [|a|a b|a b c rest IH] using list_ind3; intros si Hlen.
  - cbn in Hlen. congruence.
  - cbn [Encode padding RawURLEncoding WithPadding padChar NoPadding app].
    change (sextet RawURLEncoding) with (sextet URLEncoding).
    rewrite !decode_sextet. cbn. discriminate.
  - cbn [Encode padding RawURLEncoding WithPadding padChar NoPadding app].
    change (sextet RawURLEncoding) with (sextet URLEncoding).
    rewrite !decode_sextet. cbn. discriminate.
  - cbn [Encode]. change (sextet RawURLEncoding) with (sextet URLEncoding).
    rewrite !decode_sextet. cbn [app length Nat.eqb].
    assert (Hrest : (length rest mod 3 <> 0)%nat).
    { cbn [length] in Hlen.
      replace (S (S (S (length rest)))) with (length rest + 1 * 3)%nat in Hlen by lia.
      rewrite Nat.Div0.mod_add in Hlen. exact Hlen. }
    specialize (IH (si + 1 + 1 + 1 + 1) Hrest).
    destruct (decode URLEncoding (Encode RawURLEncoding rest) _ []) as [bs' e].
    exact IH.
Qed.

(** Without padding characters, an input whose characters of the
    alphabet do not come in fours is not accepted. *)
Lemma decode_short enc :
  padChar enc <> NoPadding ->
  forall src si dbuf,
    Forall (fun c => inAlphabet enc c = true \/ isNewline c = true) src ->
    (length dbuf < 4)%nat ->
    ((length dbuf + alphabetCount enc src) mod 4 <> 0)%nat ->
    snd (decode enc src si dbuf) <> None.
Proof.
  intros Hpad src.
  induction src as [|c rest IH]; intros si dbuf Hall Hlen Hcount.
  - cbn [decode]. unfold alphabetCount in Hcount. cbn [List.filter length] in Hcount.
    rewrite Nat.add_0_r in Hcount.
    destruct dbuf as [|d dbuf]; [cbn in Hcount; congruence|].
    rewrite (bool_decide_eq_true_2 _ Hpad), orb_true_r. discriminate.
  - inversion Hall as [|c' rest' Hc Hrest]; subst.
    cbn [decode]. unfold alphabetCount in Hcount, IH. cbn [List.filter] in Hcount.
    unfold inAlphabet in Hc, Hcount at 1.
    destruct (decodeMap enc c =? 255) eqn:Hmap; cbn [negb length] in *.
    + destruct Hc as [Hc|Hc]; [discriminate|]. rewrite Hc.
      apply IH; assumption.
    + set (n := length (List.filter (inAlphabet enc) rest)) in *.
      rewrite length_app. cbn [length].
      destruct (length dbuf + 1 =? 4)%nat eqn:Hfull.
      * apply Nat.eqb_eq in Hfull.
        assert (Hr : ((length (@nil Z) + n) mod 4 <> 0)%nat).
        { cbn [length].
          replace (length dbuf + S n)%nat with (n + 1 * 4)%nat in Hcount by lia.
          rewrite Nat.Div0.mod_add in Hcount. exact Hcount. }
        specialize (IH (si + 1) [] Hrest ltac:(cbn; lia) Hr).
        destruct (decode enc rest (si + 1) []) as [bs e]. exact IH.
      * apply Nat.eqb_neq in Hfull.
        apply IH; [assumption|rewrite length_app; cbn [length]; lia|].
        rewrite length_app. cbn [length].
        replace (length dbuf + 1 + n)%nat with (length dbuf + S n)%nat by lia.
        exact Hcount.
Qed.

(** The padded URL encoding writes ASCII only. *)
Lemma sextet_URL_ascii val s :
  (N_of_ascii (sextet URLEncoding val s) <? utf8.RuneSelf)%N = true.
Proof.
  unfold sextet. set (n := Z.to_nat (Z.land (Z.shiftr val s) 63)).
  assert (Hall : forall m, (N_of_ascii (nth m (encode URLEncoding) zero) <? utf8.RuneSelf)%N
                           = true).
  { intros m. do 65 (destruct m as [|m]; [reflexivity|]).
    destruct m; reflexivity. }
  apply Hall.
Qed.

Lemma Encode_URL_ascii bs :
  forallb (fun c => (N_of_ascii c <? utf8.RuneSelf)%N) (Encode URLEncoding bs) = true.
Proof.
  induction bs as [|a|a b|a b c l IH] using list_ind3.
  - reflexivity.
  - cbn [Encode forallb]. rewrite !sextet_URL_ascii. reflexivity.
  - cbn [Encode forallb]. rewrite !sextet_URL_ascii. reflexivity.
  - cbn [Encode forallb]. rewrite !sextet_URL_ascii, IH. reflexivity.
Qed.

Lemma EncodeToString_URL_ascii bs : isASCII (EncodeToString URLEncoding bs) = true.
Proof.
  unfold isASCII, EncodeToString. rewrite list_ascii_of_string_of_list_ascii.
  apply Encode_URL_ascii.
Qed.

End base64_facts.

(** ** encoding/json *)

Module json_facts.

Import json.

Section Facts.

Variable equalFold : string -> string -> bool.
Variable t : StructType.

Lemma member_other f st m :
  fieldFor equalFold t (fst m) <> Some f ->
  fst (member equalFold t st m) !! f = fst st !! f.
Proof.
  intros H. unfold member.
  destruct (fieldFor equalFold t (fst m)) as [g|]; [|reflexivity].
  destruct (snd m); try reflexivity.
  cbn [fst]. apply lookup_insert_ne. congruence.
Qed.

Lemma fold_member_other f ms :
  (forall m, In m ms -> fieldFor equalFold t (fst m) <> Some f) ->
  forall st, fst (fold_left (member equalFold t) ms st) !! f = fst st !! f.
Proof.
  induction ms as [|m ms IH]; intros H st; [reflexivity|].
  cbn [fold_left]. rewrite IH by (intros; apply H; right; assumption).
  apply member_other, H. left. reflexivity.
Qed.

Lemma Unmarshal_fields ms fs :
  Unmarshal equalFold t (Object ms) = Ok fs ->
  fs = fst (fold_left (member equalFold t) ms (∅, None)).
Proof.
  unfold Unmarshal.
  destruct (fold_left (member equalFold t) ms (∅, None)) as [g [e|]]; [discriminate|].
  intros [= ->]. reflexivity.
Qed.

(** A field no key of the object goes to keeps its zero value. *)
Lemma Unmarshal_absent f ms fs :
  (forall m, In m ms -> fieldFor equalFold t (fst m) <> Some f) ->
  Unmarshal equalFold t (Object ms) = Ok fs ->
  mapIndex fs f = "".
Proof.
  intros H Hu. apply Unmarshal_fields in Hu. subst fs.
  unfold mapIndex. rewrite fold_member_other by assumption. reflexivity.
Qed.

(** The last string stored under a field is the value it ends with. *)
Lemma Unmarshal_last f k s ms1 ms2 fs :
  fieldFor equalFold t k = Some f ->
  (forall m, In m ms2 -> fieldFor equalFold t (fst m) <> Some f) ->
  Unmarshal equalFold t (Object (ms1 ++ (k, Str s) :: ms2)) = Ok fs ->
  mapIndex fs f = s.
Proof.
  intros Hk H Hu. apply Unmarshal_fields in Hu. subst fs.
  unfold mapIndex. rewrite fold_left_app. cbn [fold_left].
  rewrite fold_member_other by assumption.
  unfold member at 1. cbn [fst snd]. rewrite Hk. cbn [fst].
  rewrite lookup_insert_eq. reflexivity.
Qed.

End Facts.

(** The encoder copies a first byte that is ASCII and goes on. *)
Lemma encodedString_ascii_byte b s :
  (N_of_ascii b <? utf8.RuneSelf)%N = true ->
  encodedString (String b s) = String b (encodedString s).
Proof.
  intros H. unfold encodedString; fold encodedString. rewrite H. reflexivity.
Qed.

(** An ASCII string is encoded as it is. *)
Lemma encodedString_isASCII s : isASCII s = true -> encodedString s = s.
Proof.
  unfold isASCII. induction s as [|b s IH]; [reflexivity|].
  cbn [list_ascii_of_string forallb]. intros H.
  apply andb_prop in H. destruct H as [Hb Hs].
  rewrite (encodedString_ascii_byte b s Hb), (IH Hs). reflexivity.
Qed.

(** What is empty after encoding was empty before: [omitempty] looks at
    the value, and the encoder never drops a byte. *)
Lemma encodedString_nonempty s : s <> "" -> encodedString s <> "".
Proof.
  destruct s as [|b0 s1]; [congruence|]. intros _.
  unfold encodedString; fold encodedString.
  repeat match goal with
         | |- context [if ?c then _ else _] => destruct c
         | |- context [match ?e with _ => _ end] => destruct e
         end; discriminate.
Qed.

(** A first byte that is not ASCII is never encoded to an ASCII byte. *)
Lemma encodedString_head b0 s1 :
  (N_of_ascii b0 <? utf8.RuneSelf)%N = false ->
  exists c r, encodedString (String b0 s1) = String c r
              /\ (N_of_ascii c <? utf8.RuneSelf)%N = false.
Proof.
  intros H. unfold encodedString; fold encodedString. rewrite H.
  repeat match goal with
         | |- context [if ?c then _ else _] => destruct c
         | |- context [match ?e with _ => _ end] => destruct e
         end.
  all: first [ exists b0; eexists; split; [reflexivity|exact H]
             | exists (ascii_of_N 239); eexists; split; reflexivity ].
Qed.

(** A string whose encoding is ASCII was that ASCII string. *)
Lemma encodedString_ascii_inv s :
  forall t, encodedString s = t -> isASCII t = true -> s = t.
Proof.
  unfold isASCII. induction s as [|b s IH]; intros t Ht Ha.
  - exact Ht.
  - destruct (N_of_ascii b <? utf8.RuneSelf)%N eqn:Hb.
    + rewrite (encodedString_ascii_byte b s Hb) in Ht. subst t.
      cbn [list_ascii_of_string forallb] in Ha.
      apply andb_prop in Ha. destruct Ha as [_ Ha].
      f_equal. apply IH; [reflexivity|exact Ha].
    + destruct (encodedString_head b s Hb) as (c & r & Hc & Hn).
      rewrite Hc in Ht. subst t.
      cbn [list_ascii_of_string forallb] in Ha. rewrite Hn in Ha. discriminate Ha.
Qed.

End json_facts.

(** ** The handlers *)

(** The registered handlers are the six endpoints, each under its path. *)
Lemma registerHandlers_endpoints
    {storage_Provider keystore_Repository kms_KeyManager crypto_Crypto : Type}
    (pkg : Packages storage_Provider keystore_Repository kms_KeyManager crypto_Crypto)
    (equalFold : string -> string -> bool)
    (o : Operation storage_Provider kms_KeyManager crypto_Crypto) :
  registerHandlers pkg equalFold o
  = map (fun ep => NewHTTPHandler (pathOf ep) http.MethodPost
                     (handlerOf pkg equalFold o ep)) endpoints.
Proof. reflexivity. Qed.

Lemma endpoints_all (ep : endpoint) : In ep endpoints.
Proof. destruct ep; cbn; auto 10. Qed.

Lemma append_assoc (a b c : string) : (a ++ b) ++ c = a ++ b ++ c.
Proof.
  induction a as [|x a IH]; [reflexivity|].
  change (String x ((a ++ b) ++ c) = String x (a ++ b ++ c)). rewrite IH. reflexivity.
Qed.

Lemma Error_wrapError msg err : Error (wrapError msg err) = msg.
Proof. reflexivity. Qed.

Lemma wrapsInvalidSignature_Is err :
  wrapsInvalidSignature err -> errors_Is err ErrInvalidSignature = true.
Proof. induction 1 as [|pre post err _ IH]; [reflexivity|]. cbn. exact IH. Qed.

Lemma wrapsInvalidSignature_names err :
  wrapsInvalidSignature err -> names (Error err) "invalid signature".
Proof.
  induction 1 as [|pre post err _ (p & q & IH)].
  - exists "", "". reflexivity.
  - exists (pre ++ p), (q ++ post). unfold Errorf_w.
    rewrite Error_wrapError, IH, !append_assoc. reflexivity.
Qed.

Section Claims.

Context {storage_Provider keystore_Repository kms_KeyManager crypto_Crypto : Type}.
Variable pkg : Packages storage_Provider keystore_Repository kms_KeyManager crypto_Crypto.
Variable equalFold : string -> string -> bool.
Variable o : Operation storage_Provider kms_KeyManager crypto_Crypto.

(** C1. A verify request that reaches the verify capability is
    answered by what the capability returned: no error gives status
    200 and no body at all; an error that [errors.Is] matches with
    [ErrInvalidSignature] gives status 200; any other error gives
    status 500; in both error cases the body is an error response
    whose message is the verify-failure format filled with the
    error's text, so that it names the invalid signature whenever the
    error is the sentinel or wraps it. *)
Theorem verify_status_by_outcome :
  forall req werr ks k sig msg ret,
    let x := serve (verifyHandler pkg equalFold o req) (recorder werr) in
    In (EvVerify ks k sig msg ret) (trace x) ->
    match ret with
    | None =>
        http.Code (rw x) = http.StatusOK
        /\ writes (trace x) = [] /\ http.ResponseBody (rw x) = []
    | Some err =>
        let text := Sprintf verifyMessageFailure [Error err] in
        respondsError werr x
          (if errors_Is err ErrInvalidSignature
           then http.StatusOK else http.StatusInternalServerError) text
        /\ text = "Failed to verify a message: " ++ Error err
        /\ (wrapsInvalidSignature err ->
            http.Code (rw x) = http.StatusOK /\ names text "invalid signature")
    end.
Proof.
  intros req werr ks k sig msg ret x. subst x.
  assert (Hnames : forall err, wrapsInvalidSignature err ->
            names (Sprintf verifyMessageFailure [Error err]) "invalid signature").
  { intros err Hw. destruct (wrapsInvalidSignature_names err Hw) as (p & q & Hpq).
    exists ("Failed to verify a message: " ++ p), q.
    rewrite Sprintf_verifyMessageFailure, Hpq, !append_assoc. reflexivity. }
  destruct werr; run_all.
  all: intros H; find_event H.
  all: inversion H; subst; cbn.
  all: repeat split; try reflexivity; try congruence;
       try apply Sprintf_verifyMessageFailure.
  all: try match goal with
           | Hw : wrapsInvalidSignature _ |- names _ _ => apply Hnames, Hw
           | Hw : wrapsInvalidSignature _ |- _ =>
               apply wrapsInvalidSignature_Is in Hw; congruence
           end.
Qed.

(** C2 (amended). Base64 fields are decoded after provisioning.  A
    verify request whose signature, or a decrypt request whose cipher
    text or nonce, is not valid padded base64url never reaches the
    crypto capability; it is answered with 400 and the decode error
    text when the provider could be built, and with the 500 of the
    provider-creation failure when it could not. *)
Theorem malformed_base64_after_provisioning :
  forall ep req werr fs err,
    decoded equalFold ep req = Ok fs ->
    base64Error ep fs = Some err ->
    let x := serve (handlerOf pkg equalFold o ep req) (recorder werr) in
    Forall (fun e => isCrypto e = false) (trace x)
    /\ match provisionError pkg o (contextOf req fs) with
       | None =>
           respondsError werr x http.StatusBadRequest
             (Sprintf receivedBadRequest [Error err])
       | Some perr =>
           respondsError werr x http.StatusInternalServerError
             (Sprintf createKMSProviderFailure [Error perr])
       end.
Proof.
  intros ep req werr fs err Hd Hb x. subst x.
  destruct ep; try discriminate Hb; destruct werr; run_all.
  all: repeat split; try reflexivity; try congruence; all_events.
Qed.

(** C3. On every provisioned endpoint, a request whose body decodes
    and for which opening the keystore repository fails, or the
    key-manager constructor returns an error, is answered with 500
    and the provider-creation failure message around the error's text,
    the same for both causes, and no target capability is invoked. *)
Theorem provider_failure_is_uniform :
  forall ep req werr fs err,
    provisioned ep = true ->
    decoded equalFold ep req = Ok fs ->
    provisionError pkg o (contextOf req fs) = Some err ->
    let x := serve (handlerOf pkg equalFold o ep req) (recorder werr) in
    respondsError werr x http.StatusInternalServerError
      (Sprintf createKMSProviderFailure [Error err])
    /\ Sprintf createKMSProviderFailure [Error err]
       = "Failed to create a kms provider: " ++ Error err
    /\ Forall (fun e => isCapability e = false) (trace x)
    /\ (In (EvNewRepository (Some err)) (trace x)
        \/ In (EvKMSCreator (contextOf req fs) (Some err)) (trace x)).
Proof.
  intros ep req werr fs err Hp Hd He x. subst x.
  destruct ep; try discriminate Hp; destruct werr; run_all.
  all: split; [repeat split; try reflexivity; try congruence|].
  all: split; [apply Sprintf_createKMSProviderFailure|].
  all: split; [all_events|].
  all: first [left; solve [in_trace] | right; solve [in_trace]].
Qed.

(** C4. On every endpoint, a body that is not valid JSON for the
    endpoint's request struct is answered with 400 and an error
    response whose message is the bad-request format filled with the
    decoder's error text; no storage, key-manager or crypto call is
    made. *)
Theorem malformed_body_is_bad_request :
  forall ep req werr err,
    decoded equalFold ep req = Err err ->
    let x := serve (handlerOf pkg equalFold o ep req) (recorder werr) in
    respondsError werr x http.StatusBadRequest (Sprintf receivedBadRequest [Error err])
    /\ Sprintf receivedBadRequest [Error err] = "Received bad request: " ++ Error err
    /\ Forall (fun e => isCollaborator e = false) (trace x).
Proof.
  intros ep req werr err H x. subst x.
  destruct ep; destruct werr; run_all.
  all: repeat split; try reflexivity; try congruence;
       try apply Sprintf_receivedBadRequest; all_events.
Qed.

(** C5 (amended). Parsing a create-keystore request does not look at
    the controller.  Every body that decodes goes on to the keystore
    repository, is never answered with 400 and, once the repository
    is open, reaches [Create] with the controller as decoded: the
    empty string when no key of the body goes to that field. *)
Theorem createKeystore_takes_any_controller :
  forall req werr fs,
    decoded equalFold createKeystore req = Ok fs ->
    let x := serve (createKeystoreHandler pkg equalFold o req) (recorder werr) in
    let controller := mapIndex fs "controller" in
    http.Code (rw x) <> http.StatusBadRequest
    /\ hd_error (trace x)
       = Some (EvNewRepository
                 (errOf (keystore_NewRepository pkg (StorageProvider (provider o)))))
    /\ (forall repo,
          keystore_NewRepository pkg (StorageProvider (provider o)) = Ok repo ->
          In (EvCreate controller (keystore_Create pkg repo controller)) (trace x))
    /\ (forall ms,
          http.Body req = json.Document (json.Object ms) ->
          (forall m, In m ms ->
             json.fieldFor equalFold (requestType createKeystore) (fst m)
             <> Some "controller") ->
          controller = "").
Proof.
  intros req werr fs Hd x controller. subst x controller.
  assert (Habsent : forall ms,
            http.Body req = json.Document (json.Object ms) ->
            (forall m, In m ms ->
               json.fieldFor equalFold (requestType createKeystore) (fst m)
               <> Some "controller") ->
            mapIndex fs "controller" = "").
  { intros ms Hb Hms. unfold decoded, json.Decode in Hd. rewrite Hb in Hd.
    eapply json_facts.Unmarshal_absent; eassumption. }
  destruct werr; run_all.
  all: finish; eauto.
Qed.

(** C6. A create-keystore request whose body decodes, whose
    repository opens and whose [Create] returns an identifier is
    answered with 201 and a Location made of the request's host
    followed by /kms/keystores/ and the new identifier; a create-key
    request whose body decodes, whose bundle is built and whose
    [CreateKey] returns an identifier, with 201 and the host followed
    by /kms/keystores/, the keystore identifier of the path, /keys/
    and the new key identifier. *)
Theorem created_resource_location :
  forall req werr fs repo,
    keystore_NewRepository pkg (StorageProvider (provider o)) = Ok repo ->
    (forall keystoreID,
        decoded equalFold createKeystore req = Ok fs ->
        keystore_Create pkg repo (mapIndex fs "controller") = Ok keystoreID ->
        let x := serve (createKeystoreHandler pkg equalFold o req) (recorder werr) in
        http.Code (rw x) = http.StatusCreated
        /\ http.Header_Get "Location" (rw x)
           = http.Host req ++ "/kms/keystores/" ++ keystoreID)
    /\ (forall km keyID,
        let ks := mapIndex (http.Vars req) keystoreIDQueryParam in
        decoded equalFold createKey req = Ok fs ->
        KMSCreator (provider o) (contextOf req fs) = Ok km ->
        kmsservice_CreateKey pkg
          {| keystore := repo; kms := km; crypto := Crypto (provider o) |}
          ks (mapIndex fs "keyType") = Ok keyID ->
        let x := serve (createKeyHandler pkg equalFold o req) (recorder werr) in
        http.Code (rw x) = http.StatusCreated
        /\ http.Header_Get "Location" (rw x)
           = http.Host req ++ "/kms/keystores/" ++ ks ++ "/keys/" ++ keyID).
Proof.
  intros req werr fs repo Hr. split.
  - intros keystoreID Hd Hc x. subst x.
    destruct werr; run_all.
    all: split; [reflexivity|].
    all: unfold http.Header_Get; cbn [http.HeaderMap]; rewrite lookup_insert_eq;
         apply keystoreLocation_eq.
  - intros km keyID ks Hd Hk Hc x. subst x ks.
    destruct werr; run_all.
    all: split; [reflexivity|].
    all: unfold http.Header_Get; cbn [http.HeaderMap]; rewrite lookup_insert_eq;
         apply keyLocation_eq.
Qed.

(** C7. The create-keystore handler builds no provider bundle: on
    no path is the key-manager constructor called, its request struct
    has no passphrase to read, and the only collaborator calls it
    makes are on the keystore repository.  It is the only handler of
    that kind: every other one, once the body has parsed, starts by
    opening the repository and, when that works, calls the
    constructor. *)
Theorem createKeystore_builds_no_provider :
  (forall req werr,
      let x := serve (createKeystoreHandler pkg equalFold o req) (recorder werr) in
      creatorCalls (trace x) = []
      /\ Forall (fun e => isCollaborator e = true -> isRepositoryCall e = true) (trace x))
  /\ ~ In "passphrase" (json.Fields (requestType createKeystore))
  /\ (forall ep req werr fs,
        ep <> createKeystore ->
        decoded equalFold ep req = Ok fs ->
        let x := serve (handlerOf pkg equalFold o ep req) (recorder werr) in
        let opened := keystore_NewRepository pkg (StorageProvider (provider o)) in
        hd_error (trace x) = Some (EvNewRepository (errOf opened))
        /\ (errOf opened = None -> creatorCalls (trace x) = [contextOf req fs])).
Proof.
  split; [|split].
  - intros req werr x. subst x.
    destruct werr; run_all.
    all: split; [reflexivity|all_events].
  - cbn. intros [H|[]]. discriminate H.
  - intros ep req werr fs Hep Hd x opened. subst x opened.
    destruct ep; try contradiction; destruct werr; run_all.
    all: finish.
Qed.

(** C8. Whatever the request and whatever the writer, a handler
    writes a status at most once and hands the writer a body at most
    once.  When the writer fails, nothing reaches the body, the
    failure is logged once, with the writer's error, and the log is
    the last thing the handler does: no second write, no retry. *)
Theorem at_most_one_response :
  forall ep req werr,
    let x := serve (handlerOf pkg equalFold o ep req) (recorder werr) in
    (length (headerWrites (trace x)) <= 1)%nat
    /\ (length (writes (trace x)) <= 1)%nat
    /\ match werr with
       | None =>
           logged (trace x) = [] /\ http.ResponseBody (rw x) = writes (trace x)
       | Some err =>
           http.ResponseBody (rw x) = []
           /\ (writes (trace x) = [] /\ logged (trace x) = []
               \/ exists doc msg,
                    writes (trace x) = [doc] /\ logged (trace x) = [msg]
                    /\ In msg (writeFailureLogs err)
                    /\ lastTwo (trace x) = [EvWrite doc; EvErrorf msg])
       end.
Proof.
  intros ep req werr x. subst x.
  destruct ep; destruct werr; run_all.
  all: repeat split; cbn; try lia; try reflexivity.
  all: first [ left; split; reflexivity
             | right; eexists; eexists; repeat split; try reflexivity;
               first [left; reflexivity | right; left; reflexivity] ].
Qed.

(** C9 (amended). A provisioned handler calls the key-manager
    constructor at most once per request: exactly once when the body
    parses and the keystore repository opens, and not at all
    otherwise.  The call carries the keystore identifier of the URL
    path and the passphrase of the body's [passphrase] member: the
    string last given under that key, the empty string when the body
    has no such member. *)
Theorem creator_called_with_path_and_passphrase :
  forall ep req werr,
    provisioned ep = true ->
    let x := serve (handlerOf pkg equalFold o ep req) (recorder werr) in
    creatorCalls (trace x)
    = match decoded equalFold ep req with
      | Ok fs =>
          match keystore_NewRepository pkg (StorageProvider (provider o)) with
          | Ok _ => [ {| KeystoreID := mapIndex (http.Vars req) "keystoreID";
                         Passphrase := mapIndex fs "passphrase" |} ]
          | Err _ => []
          end
      | Err _ => []
      end
    /\ json.fieldFor equalFold (requestType ep) "passphrase" = Some "passphrase"
    /\ (forall ms fs,
          http.Body req = json.Document (json.Object ms) ->
          decoded equalFold ep req = Ok fs ->
          ((forall m, In m ms ->
              json.fieldFor equalFold (requestType ep) (fst m) <> Some "passphrase") ->
           mapIndex fs "passphrase" = "")
          /\ (forall ms1 k p ms2,
                ms = (ms1 ++ (k, json.Str p) :: ms2)%list ->
                json.fieldFor equalFold (requestType ep) k = Some "passphrase" ->
                (forall m, In m ms2 ->
                   json.fieldFor equalFold (requestType ep) (fst m)
                   <> Some "passphrase") ->
                mapIndex fs "passphrase" = p)).
Proof.
  intros ep req werr Hp x. subst x. split; [|split].
  - destruct ep; try discriminate Hp; destruct werr; run_all.
    all: reflexivity.
  - destruct ep; try discriminate Hp; reflexivity.
  - intros ms fs Hb Hd. unfold decoded, json.Decode in Hd. rewrite Hb in Hd. split.
    + intros Hms. eapply json_facts.Unmarshal_absent; eassumption.
    + intros ms1 k p ms2 -> Hk Hms2.
      eapply json_facts.Unmarshal_last; eassumption.
Qed.

(** C10. Every base64 field of the wire uses padded base64url.  A sign
    or an encrypt request that reaches a capability that succeeds is
    answered with the signature, or the cipher text and the nonce,
    encoded with [base64.URLEncoding]; a verify or a decrypt request
    whose bundle is built reaches its capability exactly when its
    base64 fields decode with the same encoding, and then with the
    decoded bytes, and the capability is never called with anything
    else.  Decoding what was encoded gives the bytes back, whatever
    they are; an input with a character of the standard alphabet that
    the URL alphabet lacks, or the unpadded encoding of a byte string
    that needs padding (more generally, an input without padding whose
    alphabet characters do not come in fours), is a decode error. *)
Theorem base64url_wire_fields :
  (forall bs,
      base64.DecodeString base64.URLEncoding
        (base64.EncodeToString base64.URLEncoding bs) = (bs, None))
  /\ (forall s c,
        In c (list_ascii_of_string s) -> c = "+"%char \/ c = "/"%char ->
        snd (base64.DecodeString base64.URLEncoding s) <> None)
  /\ (forall bs,
        (length bs mod 3 <> 0)%nat ->
        snd (base64.DecodeString base64.URLEncoding
               (base64.EncodeToString base64.RawURLEncoding bs)) <> None)
  /\ (forall s,
        Forall (fun c => inAlphabet base64.URLEncoding c = true
                         \/ base64.isNewline c = true) (list_ascii_of_string s) ->
        (alphabetCount base64.URLEncoding (list_ascii_of_string s) mod 4 <> 0)%nat ->
        snd (base64.DecodeString base64.URLEncoding s) <> None)
  /\ (forall req werr fs repo km signature,
        decoded equalFold sign req = Ok fs ->
        keystore_NewRepository pkg (StorageProvider (provider o)) = Ok repo ->
        KMSCreator (provider o) (contextOf req fs) = Ok km ->
        kmsservice_Sign pkg
          {| keystore := repo; kms := km; crypto := Crypto (provider o) |}
          (mapIndex (http.Vars req) keystoreIDQueryParam)
          (mapIndex (http.Vars req) keyIDQueryParam)
          (list_ascii_of_string (mapIndex fs "message")) = Ok signature ->
        let x := serve (signHandler pkg equalFold o req) (recorder werr) in
        let doc :=
          json.Object
            [("signature",
              json.Str (base64.EncodeToString base64.URLEncoding signature))] in
        writes (trace x) = [doc]
        /\ (werr = None -> http.ResponseBody (rw x) = [doc]))
  /\ (forall req werr fs repo km cipherText nonce,
        decoded equalFold encrypt req = Ok fs ->
        keystore_NewRepository pkg (StorageProvider (provider o)) = Ok repo ->
        KMSCreator (provider o) (contextOf req fs) = Ok km ->
        kmsservice_Encrypt pkg
          {| keystore := repo; kms := km; crypto := Crypto (provider o) |}
          (mapIndex (http.Vars req) keystoreIDQueryParam)
          (mapIndex (http.Vars req) keyIDQueryParam)
          (list_ascii_of_string (mapIndex fs "message"))
          (list_ascii_of_string (mapIndex fs "aad")) = Ok (cipherText, nonce) ->
        let x := serve (encryptHandler pkg equalFold o req) (recorder werr) in
        let doc :=
          json.Object
            [("cipherText",
              json.Str (base64.EncodeToString base64.URLEncoding cipherText));
             ("nonce", json.Str (base64.EncodeToString base64.URLEncoding nonce))] in
        writes (trace x) = [doc]
        /\ (werr = None -> http.ResponseBody (rw x) = [doc]))
  /\ (forall req werr fs,
        decoded equalFold verify req = Ok fs ->
        provisionError pkg o (contextOf req fs) = None ->
        let x := serve (verifyHandler pkg equalFold o req) (recorder werr) in
        match base64.DecodeString base64.URLEncoding (mapIndex fs "signature") with
        | (sig, None) =>
            exists ret,
              List.filter isCapability (trace x)
              = [EvVerify (mapIndex (http.Vars req) keystoreIDQueryParam)
                   (mapIndex (http.Vars req) keyIDQueryParam) sig
                   (list_ascii_of_string (mapIndex fs "message")) ret]
        | (_, Some err) =>
            List.filter isCapability (trace x) = []
            /\ http.Code (rw x) = http.StatusBadRequest
        end)
  /\ (forall req werr fs,
        decoded equalFold decrypt req = Ok fs ->
        provisionError pkg o (contextOf req fs) = None ->
        let x := serve (decryptHandler pkg equalFold o req) (recorder werr) in
        match base64.DecodeString base64.URLEncoding (mapIndex fs "cipherText"),
              base64.DecodeString base64.URLEncoding (mapIndex fs "nonce") with
        | (cipherText, None), (nonce, None) =>
            exists ret,
              List.filter isCapability (trace x)
              = [EvDecrypt (mapIndex (http.Vars req) keystoreIDQueryParam)
                   (mapIndex (http.Vars req) keyIDQueryParam) cipherText
                   (list_ascii_of_string (mapIndex fs "aad")) nonce ret]
        | _, _ =>
            List.filter isCapability (trace x) = []
            /\ http.Code (rw x) = http.StatusBadRequest
        end)
  /\ (forall req werr ks k sig msg ret,
        let x := serve (verifyHandler pkg equalFold o req) (recorder werr) in
        In (EvVerify ks k sig msg ret) (trace x) ->
        exists fs,
          decoded equalFold verify req = Ok fs
          /\ base64.DecodeString base64.URLEncoding (mapIndex fs "signature")
             = (sig, None))
  /\ (forall req werr ks k cipherText aad nonce ret,
        let x := serve (decryptHandler pkg equalFold o req) (recorder werr) in
        In (EvDecrypt ks k cipherText aad nonce ret) (trace x) ->
        exists fs,
          decoded equalFold decrypt req = Ok fs
          /\ base64.DecodeString base64.URLEncoding (mapIndex fs "cipherText")
             = (cipherText, None)
          /\ base64.DecodeString base64.URLEncoding (mapIndex fs "nonce")
             = (nonce, None)).
Proof.
  assert (Hascii : forall bs,
            json.encodedString (base64.EncodeToString base64.URLEncoding bs)
            = base64.EncodeToString base64.URLEncoding bs).
  { intros bs. apply json_facts.encodedString_isASCII,
      base64_facts.EncodeToString_URL_ascii. }
  split; [|split; [|split; [|split; [|split; [|split; [|split; [|split; [|split]]]]]]]].
  - apply base64_facts.DecodeString_EncodeToString.
  - intros s c Hin Hc. unfold base64.DecodeString.
    apply (base64_facts.decode_illegal base64.URLEncoding c); [| | |exact Hin];
      destruct Hc as [-> | ->]; reflexivity.
  - intros bs Hlen. unfold base64.DecodeString, base64.EncodeToString.
    rewrite list_ascii_of_string_of_list_ascii.
    apply base64_facts.decode_unpadded, Hlen.
  - intros s Hall Hcount. unfold base64.DecodeString.
    apply base64_facts.decode_short; [discriminate|exact Hall|cbn; lia|exact Hcount].
  - intros req werr fs repo km signature Hd Hr Hk Hs x doc. subst x doc.
    destruct werr; run_all.
    all: rewrite Hascii; split; [reflexivity|]; intros; try discriminate; reflexivity.
  - intros req werr fs repo km cipherText nonce Hd Hr Hk Hs x doc. subst x doc.
    destruct werr; run_all.
    all: rewrite !Hascii; split; [reflexivity|]; intros; try discriminate; reflexivity.
  - intros req werr fs Hd Hp x. subst x.
    destruct werr; run_all.
    all: first [eexists; reflexivity | split; reflexivity].
  - intros req werr fs Hd Hp x. subst x.
    destruct werr; run_all.
    all: first [eexists; reflexivity | split; reflexivity].
  - intros req werr ks k sig msg ret x. subst x.
    destruct werr; run_all.
    all: intros H; find_event H.
    all: inversion H; subst; eexists; split; [reflexivity|assumption].
  - intros req werr ks k cipherText aad nonce ret x. subst x.
    destruct werr; run_all.
    all: intros H; find_event H.
    all: inversion H; subst; eexists; split; [reflexivity|split; assumption].
Qed.

End Claims.

(** ** The package's tests, replayed on the model *)

Example TestCreateKeystoreHandler_Success :
  let x := run NewMockProvider createKeystore None
             (buildCreateKeystoreReq "did:example:123456789") in
  http.Code (rw x) = http.StatusCreated
  /\ http.Header_Get "Location" (rw x)
     = "localhost:8070/kms/keystores/bsi5ct08vcqmquc0fn5g".
Proof. vm_compute. split; reflexivity. Qed.

Example TestCreateKeystoreHandler_EOF :
  let x := run NewMockProvider createKeystore None emptyRequest in
  http.Code (rw x) = http.StatusBadRequest
  /\ http.ResponseBody (rw x) = [errorBody "Received bad request: EOF"].
Proof. vm_compute. split; reflexivity. Qed.

Example TestCreateKeystoreHandler_open_store_error :
  let m := withOpenStoreErr (errorString 5 "create keystore error") NewMockProvider in
  let x := run m createKeystore None (buildCreateKeystoreReq "did:example:123456789") in
  http.Code (rw x) = http.StatusInternalServerError
  /\ http.ResponseBody (rw x)
     = [errorBody "Failed to create a keystore: create keystore error"].
Proof. vm_compute. split; reflexivity. Qed.

Example TestCreateKeyHandler_Success :
  let x := run NewMockProvider createKey None (buildCreateKeyReq "ED25519") in
  http.Code (rw x) = http.StatusCreated
  /\ http.Header_Get "Location" (rw x)
     = "localhost:8070/kms/keystores/bsi5ct08vcqmquc0fn5g/keys/Fm4r2iwjYnswLRZKl38W".
Proof. vm_compute. split; reflexivity. Qed.

Example TestCreateKeyHandler_kms_creator_error :
  let m := withKMSCreatorErr (errorString 3 "kms creator error") NewMockProvider in
  let x := run m createKey None (buildCreateKeyReq "ED25519") in
  http.Code (rw x) = http.StatusInternalServerError
  /\ http.ResponseBody (rw x)
     = [errorBody "Failed to create a kms provider: kms creator error"].
Proof. vm_compute. split; reflexivity. Qed.

Example TestSignHandler_Success :
  let x := run NewMockProvider sign None (buildSignReq "test message") in
  http.Code (rw x) = http.StatusOK
  /\ http.ResponseBody (rw x)
     = [json.Object [("signature", json.Str "c2lnbmF0dXJl")]].
Proof. vm_compute. split; reflexivity. Qed.

Example TestVerifyHandler_Success :
  let x := run NewMockProvider verify None (buildVerifyReq "c2lnbmF0dXJl") in
  http.Code (rw x) = http.StatusOK /\ http.ResponseBody (rw x) = [].
Proof. vm_compute. split; reflexivity. Qed.

Example TestVerifyHandler_invalid_signature :
  let m := withVerifyErr ErrInvalidSignature NewMockProvider in
  let x := run m verify None (buildVerifyReq "c2lnbmF0dXJl") in
  http.Code (rw x) = http.StatusOK
  /\ http.ResponseBody (rw x)
     = [errorBody "Failed to verify a message: invalid signature"].
Proof. vm_compute. split; reflexivity. Qed.

Example TestVerifyHandler_bad_encoded_signature :
  let x := run NewMockProvider verify None (buildVerifyReq "!signature") in
  http.Code (rw x) = http.StatusBadRequest
  /\ http.ResponseBody (rw x)
     = [errorBody "Received bad request: illegal base64 data at input byte 0"].
Proof. vm_compute. split; reflexivity. Qed.

Example TestVerifyHandler_verify_error :
  let m := withVerifyErr (errorString 6 "verify error") NewMockProvider in
  let x := run m verify None (buildVerifyReq "c2lnbmF0dXJl") in
  http.Code (rw x) = http.StatusInternalServerError
  /\ http.ResponseBody (rw x) = [errorBody "Failed to verify a message: verify error"].
Proof. vm_compute. split; reflexivity. Qed.

Example TestEncryptHandler_Success :
  let x := run NewMockProvider encrypt None
             (buildEncryptReq "test message" "additional data") in
  http.Code (rw x) = http.StatusOK
  /\ http.ResponseBody (rw x)
     = [json.Object [("cipherText", json.Str "Y2lwaGVyIHRleHQ=");
                     ("nonce", json.Str "bm9uY2U=")]].
Proof. vm_compute. split; reflexivity. Qed.

Example TestDecryptHandler_Success :
  let x := run NewMockProvider decrypt None
             (buildDecryptReq "Y2lwaGVyIHRleHQ=" "bm9uY2U=") in
  http.Code (rw x) = http.StatusOK
  /\ http.ResponseBody (rw x) = [json.Object [("plainText", json.Str "plain text")]].
Proof. vm_compute. split; reflexivity. Qed.

Example TestDecryptHandler_bad_encoded_nonce :
  let x := run NewMockProvider decrypt None (buildDecryptReq "Y2lwaGVyIHRleHQ=" "!nonce") in
  http.Code (rw x) = http.StatusBadRequest
  /\ http.ResponseBody (rw x)
     = [errorBody "Received bad request: illegal base64 data at input byte 0"].
Proof. vm_compute. split; reflexivity. Qed.

Example TestDecryptHandler_failed_to_write_a_response :
  let x := run NewMockProvider decrypt (Some (errorString 9 "write error"))
             (buildDecryptReq "Y2lwaGVyIHRleHQ=" "bm9uY2U=") in
  http.ResponseBody (rw x) = []
  /\ logged (trace x) = ["Unable to send a response, write error"].
Proof. vm_compute. split; reflexivity. Qed.

(** ** The statements at concrete requests *)

(** The tests' "Success: invalid signature": the capability rejects the
    signature, the response is 200 and names the invalid signature. *)
Lemma verify_status_by_outcome_witness :
  let m := withVerifyErr ErrInvalidSignature NewMockProvider in
  let x := run m verify None (buildVerifyReq "c2lnbmF0dXJl") in
  In (EvVerify "bsi5ct08vcqmquc0fn5g" "Fm4r2iwjYnswLRZKl38W"
        (list_ascii_of_string "signature") (list_ascii_of_string "test message")
        (Some ErrInvalidSignature)) (trace x)
  /\ http.Code (rw x) = 200%Z
  /\ writes (trace x) = [errorBody "Failed to verify a message: invalid signature"].
Proof.
  intros m x.
  assert (H : In (EvVerify "bsi5ct08vcqmquc0fn5g" "Fm4r2iwjYnswLRZKl38W"
                    (list_ascii_of_string "signature")
                    (list_ascii_of_string "test message")
                    (Some ErrInvalidSignature)) (trace x))
    by (vm_compute; auto).
  split; [exact H|].
  pose proof (verify_status_by_outcome (mockPackages m) asciiEqualFold (mockOperation m)
                (buildVerifyReq "c2lnbmF0dXJl") None _ _ _ _ _ H) as T.
  destruct T as ((Hc & Hw & _) & _). split; [exact Hc|exact Hw].
Defined.

(** The claim of C2 fails: a malformed signature sent while the
    key-manager constructor fails is answered with the 500 of the
    provider-creation failure, and the constructor was called before
    the signature was looked at. *)
Lemma malformed_signature_behind_failing_creator :
  let m := withKMSCreatorErr (errorString 3 "kms creator error") NewMockProvider in
  let req := buildVerifyReq "!signature" in
  let x := run m verify None req in
  errOf (decoded asciiEqualFold verify req) = None
  /\ snd (base64.DecodeString base64.URLEncoding "!signature")
     = Some (CorruptInputError 0)
  /\ http.Code (rw x) = http.StatusInternalServerError
  /\ http.Code (rw x) <> http.StatusBadRequest
  /\ writes (trace x)
     = [errorBody "Failed to create a kms provider: kms creator error"]
  /\ creatorCalls (trace x)
     = [ {| KeystoreID := "bsi5ct08vcqmquc0fn5g"; Passphrase := "" |} ].
Proof. vm_compute. repeat split; discriminate. Qed.

(** The tests' "bad encoded signature": with a working provider the
    answer is 400 with the decoder's text. *)
Lemma malformed_base64_after_provisioning_witness :
  let req := buildVerifyReq "!signature" in
  let fs : gmap string string :=
    <["message" := "test message"]> (<["signature" := "!signature"]> ∅) in
  let x := run NewMockProvider verify None req in
  decoded asciiEqualFold verify req = Ok fs
  /\ base64Error verify fs = Some (CorruptInputError 0)
  /\ http.Code (rw x) = 400%Z
  /\ writes (trace x)
     = [errorBody "Received bad request: illegal base64 data at input byte 0"].
Proof.
  intros req fs x.
  assert (Hd : decoded asciiEqualFold verify req = Ok fs) by reflexivity.
  assert (Hb : base64Error verify fs = Some (CorruptInputError 0)) by reflexivity.
  split; [exact Hd|]. split; [exact Hb|].
  pose proof (malformed_base64_after_provisioning
                (mockPackages NewMockProvider) asciiEqualFold
                (mockOperation NewMockProvider) verify req None fs _ Hd Hb) as T.
  destruct T as (_ & Hc & Hw & _). split; [exact Hc|exact Hw].
Defined.

(** The tests' "Failed to create a kms provider: open store". *)
Lemma provider_failure_is_uniform_witness :
  let err := errorString 4 "open store error" in
  let m := withOpenStoreErr err NewMockProvider in
  let req := buildSignReq "test message" in
  let fs : gmap string string := <["message" := "test message"]> ∅ in
  let x := run m sign None req in
  provisioned sign = true
  /\ decoded asciiEqualFold sign req = Ok fs
  /\ provisionError (mockPackages m) (mockOperation m) (contextOf req fs) = Some err
  /\ http.Code (rw x) = 500%Z
  /\ writes (trace x) = [errorBody "Failed to create a kms provider: open store error"]
  /\ Forall (fun e => isCapability e = false) (trace x).
Proof.
  intros err m req fs x.
  assert (Hd : decoded asciiEqualFold sign req = Ok fs) by reflexivity.
  assert (He : provisionError (mockPackages m) (mockOperation m) (contextOf req fs)
               = Some err) by reflexivity.
  split; [reflexivity|]. split; [exact Hd|]. split; [exact He|].
  destruct (provider_failure_is_uniform
              (mockPackages m) asciiEqualFold (mockOperation m) sign req None fs err
              eq_refl Hd He) as ((Hc & Hw & _) & _ & Hn & _).
  split; [exact Hc|]. split; [exact Hw|exact Hn].
Defined.

(** The tests' "Received bad request: EOF". *)
Lemma malformed_body_is_bad_request_witness :
  let x := run NewMockProvider decrypt None emptyRequest in
  decoded asciiEqualFold decrypt emptyRequest = Err io_EOF
  /\ http.Code (rw x) = 400%Z
  /\ http.ResponseBody (rw x) = [errorBody "Received bad request: EOF"]
  /\ trace x = [EvWriteHeader 400; EvWrite (errorBody "Received bad request: EOF")].
Proof.
  intros x.
  assert (Hd : decoded asciiEqualFold decrypt emptyRequest = Err io_EOF) by reflexivity.
  split; [exact Hd|].
  pose proof (malformed_body_is_bad_request
                (mockPackages NewMockProvider) asciiEqualFold
                (mockOperation NewMockProvider) decrypt emptyRequest None io_EOF Hd) as T.
  destruct T as ((Hc & _ & Hb) & _). split; [exact Hc|]. split; [exact (Hb eq_refl)|].
  vm_compute. reflexivity.
Defined.

(** The claim of C5 fails: the bodies [{}] and [{"controller": ""}] are
    valid JSON without a controller, and both reach [Create] with the
    empty controller and are answered with 201. *)
Lemma empty_controller_reaches_Create :
  let absent := request (object []) in
  let empty := buildCreateKeystoreReq "" in
  let x := run NewMockProvider createKeystore None absent in
  let y := run NewMockProvider createKeystore None empty in
  errOf (decoded asciiEqualFold createKeystore absent) = None
  /\ errOf (decoded asciiEqualFold createKeystore empty) = None
  /\ In (EvCreate "" (Ok "bsi5ct08vcqmquc0fn5g")) (trace x)
  /\ In (EvCreate "" (Ok "bsi5ct08vcqmquc0fn5g")) (trace y)
  /\ http.Code (rw x) = http.StatusCreated
  /\ http.Code (rw y) = http.StatusCreated
  /\ http.Code (rw x) <> http.StatusBadRequest
  /\ http.Code (rw y) <> http.StatusBadRequest.
Proof. vm_compute. repeat split; auto; discriminate. Qed.

Lemma createKeystore_takes_any_controller_witness :
  let req := request (object []) in
  let x := run NewMockProvider createKeystore None req in
  decoded asciiEqualFold createKeystore req = Ok ∅
  /\ mapIndex (∅ : gmap string string) "controller" = ""
  /\ http.Code (rw x) <> http.StatusBadRequest
  /\ In (EvCreate "" (Ok "bsi5ct08vcqmquc0fn5g")) (trace x).
Proof.
  intros req x.
  assert (Hd : decoded asciiEqualFold createKeystore req = Ok ∅) by reflexivity.
  split; [exact Hd|].
  pose proof (createKeystore_takes_any_controller
                (mockPackages NewMockProvider) asciiEqualFold
                (mockOperation NewMockProvider) req None ∅ Hd) as T.
  destruct T as (Hc & _ & Hin & Habsent).
  split; [exact (Habsent [] eq_refl (fun m H => match H with end))|].
  split; [exact Hc|]. exact (Hin tt eq_refl).
Defined.

(** The tests' "Success" of create keystore and of create key. *)
Lemma created_resource_location_witness :
  let pkg := mockPackages NewMockProvider in
  let op := mockOperation NewMockProvider in
  let req := buildCreateKeystoreReq "did:example:123456789" in
  let fs : gmap string string := <["controller" := "did:example:123456789"]> ∅ in
  let req' := buildCreateKeyReq "ED25519" in
  let fs' : gmap string string := <["keyType" := "ED25519"]> ∅ in
  let x := run NewMockProvider createKeystore None req in
  let x' := run NewMockProvider createKey None req' in
  keystore_NewRepository pkg (StorageProvider (provider op)) = Ok tt
  /\ decoded asciiEqualFold createKeystore req = Ok fs
  /\ keystore_Create pkg tt (mapIndex fs "controller") = Ok "bsi5ct08vcqmquc0fn5g"
  /\ http.Code (rw x) = 201%Z
  /\ http.Header_Get "Location" (rw x)
     = "localhost:8070/kms/keystores/bsi5ct08vcqmquc0fn5g"
  /\ decoded asciiEqualFold createKey req' = Ok fs'
  /\ KMSCreator (provider op) (contextOf req' fs') = Ok tt
  /\ http.Code (rw x') = 201%Z
  /\ http.Header_Get "Location" (rw x')
     = "localhost:8070/kms/keystores/bsi5ct08vcqmquc0fn5g/keys/Fm4r2iwjYnswLRZKl38W".
Proof.
  intros pkg op req fs req' fs' x x'.
  assert (Hr : keystore_NewRepository pkg (StorageProvider (provider op)) = Ok tt)
    by reflexivity.
  assert (Hd : decoded asciiEqualFold createKeystore req = Ok fs) by reflexivity.
  assert (Hc : keystore_Create pkg tt (mapIndex fs "controller")
               = Ok "bsi5ct08vcqmquc0fn5g") by reflexivity.
  assert (Hd' : decoded asciiEqualFold createKey req' = Ok fs') by reflexivity.
  assert (Hk : KMSCreator (provider op) (contextOf req' fs') = Ok tt) by reflexivity.
  split; [exact Hr|]. split; [exact Hd|]. split; [exact Hc|].
  destruct (proj1 (created_resource_location pkg asciiEqualFold op req None fs tt Hr)
              _ Hd Hc) as (H1 & H2).
  split; [exact H1|]. split; [exact H2|].
  split; [exact Hd'|]. split; [exact Hk|].
  exact (proj2 (created_resource_location pkg asciiEqualFold op req' None fs' tt Hr)
           tt "Fm4r2iwjYnswLRZKl38W" Hd' Hk eq_refl).
Defined.

(** A sign request provisions; a create-keystore request does not. *)
Lemma createKeystore_builds_no_provider_witness :
  let req := buildSignReq "test message" in
  let fs : gmap string string := <["message" := "test message"]> ∅ in
  let x := run NewMockProvider createKeystore None
             (buildCreateKeystoreReq "did:example:123456789") in
  let y := run NewMockProvider sign None req in
  creatorCalls (trace x) = []
  /\ decoded asciiEqualFold sign req = Ok fs
  /\ creatorCalls (trace y) = [contextOf req fs].
Proof.
  intros req fs x y.
  destruct (createKeystore_builds_no_provider
              (mockPackages NewMockProvider) asciiEqualFold
              (mockOperation NewMockProvider)) as (H1 & _ & H3).
  split; [exact (proj1 (H1 (buildCreateKeystoreReq "did:example:123456789") None))|].
  assert (Hd : decoded asciiEqualFold sign req = Ok fs) by reflexivity.
  split; [exact Hd|].
  refine (proj2 (H3 sign req None fs _ Hd) eq_refl).
  discriminate.
Defined.

(** The tests' "Failed to write a response". *)
Lemma at_most_one_response_witness :
  let err := errorString 9 "write error" in
  let x := run NewMockProvider decrypt (Some err)
             (buildDecryptReq "Y2lwaGVyIHRleHQ=" "bm9uY2U=") in
  http.ResponseBody (rw x) = []
  /\ (length (writes (trace x)) <= 1)%nat
  /\ logged (trace x) = ["Unable to send a response, write error"].
Proof.
  intros err x.
  destruct (at_most_one_response
              (mockPackages NewMockProvider) asciiEqualFold
              (mockOperation NewMockProvider) decrypt
              (buildDecryptReq "Y2lwaGVyIHRleHQ=" "bm9uY2U=") (Some err))
    as (_ & Hw & Hb & _).
  split; [exact Hb|]. split; [exact Hw|]. vm_compute. reflexivity.
Defined.

(** The claim of C9 fails as it stands: a sign request without a body,
    and one whose keystore repository does not open, call the
    constructor zero times. *)
Lemma creator_not_called_on_every_request :
  let x := run NewMockProvider sign None emptyRequest in
  let y := run (withOpenStoreErr (errorString 4 "open store error") NewMockProvider)
               sign None (buildSignReq "test message") in
  provisioned sign = true
  /\ creatorCalls (trace x) = []
  /\ creatorCalls (trace y) = []
  /\ length (creatorCalls (trace x)) <> 1%nat
  /\ length (creatorCalls (trace y)) <> 1%nat.
Proof. vm_compute. repeat split; discriminate. Qed.

Lemma creator_called_with_path_and_passphrase_witness :
  let req := request (object [("message", "test message"); ("passphrase", "pw")]) in
  let x := run NewMockProvider sign None req in
  provisioned sign = true
  /\ creatorCalls (trace x)
     = [ {| KeystoreID := "bsi5ct08vcqmquc0fn5g"; Passphrase := "pw" |} ].
Proof.
  intros req x. split; [reflexivity|].
  destruct (creator_called_with_path_and_passphrase
              (mockPackages NewMockProvider) asciiEqualFold
              (mockOperation NewMockProvider) sign req None eq_refl) as (H & _).
  etransitivity; [exact H|]. vm_compute. reflexivity.
Defined.

(** The bytes ff fe fd fb: their padded URL encoding decodes to them,
    their standard encoding and their unpadded URL encoding are
    rejected.  The tests' "Success" of sign: the signature goes out in
    the padded URL encoding; and the tests' "bad encoded signature":
    verify is not called. *)
Lemma base64url_wire_fields_witness :
  let bs := [ascii_of_nat 255; ascii_of_nat 254; ascii_of_nat 253; ascii_of_nat 251] in
  let pkg := mockPackages NewMockProvider in
  let op := mockOperation NewMockProvider in
  let req := buildSignReq "test message" in
  let fs : gmap string string := <["message" := "test message"]> ∅ in
  let x := run NewMockProvider sign None req in
  let req' := buildVerifyReq "!signature" in
  let fs' : gmap string string :=
    <["message" := "test message"]> (<["signature" := "!signature"]> ∅) in
  let x' := run NewMockProvider verify None req' in
  base64.EncodeToString base64.URLEncoding bs = "__79-w=="
  /\ base64.DecodeString base64.URLEncoding "__79-w==" = (bs, None)
  /\ base64.EncodeToString base64.StdEncoding bs = "//79+w=="
  /\ snd (base64.DecodeString base64.URLEncoding "//79+w==") <> None
  /\ base64.EncodeToString base64.RawURLEncoding bs = "__79-w"
  /\ snd (base64.DecodeString base64.URLEncoding "__79-w") <> None
  /\ decoded asciiEqualFold sign req = Ok fs
  /\ http.ResponseBody (rw x) = [json.Object [("signature", json.Str "c2lnbmF0dXJl")]]
  /\ decoded asciiEqualFold verify req' = Ok fs'
  /\ provisionError pkg op (contextOf req' fs') = None
  /\ List.filter isCapability (trace x') = [].
Proof.
  intros bs pkg op req fs x req' fs' x'.
  destruct (base64url_wire_fields pkg asciiEqualFold op)
    as (H1 & H2 & H3 & _ & H5 & _ & H7 & _).
  split; [reflexivity|]. split; [exact (H1 bs)|]. split; [reflexivity|].
  split; [apply (H2 "//79+w==" "/"%char); [left; reflexivity|right; reflexivity]|].
  split; [reflexivity|].
  split; [apply (H3 bs); cbn; discriminate|].
  assert (Hd : decoded asciiEqualFold sign req = Ok fs) by reflexivity.
  assert (Hd' : decoded asciiEqualFold verify req' = Ok fs') by reflexivity.
  assert (Hp : provisionError pkg op (contextOf req' fs') = None) by reflexivity.
  split; [exact Hd|].
  split; [exact (proj2 (H5 req None fs tt tt (list_ascii_of_string "signature")
                          Hd eq_refl eq_refl eq_refl) eq_refl)|].
  split; [exact Hd'|]. split; [exact Hp|].
  exact (proj1 (H7 req' None fs' Hd' Hp)).
Defined.

(** * Further properties of the package *)

Section PlanFacts.

Context {storage_Provider keystore_Repository kms_KeyManager crypto_Crypto : Type}.
Variable pkg : Packages storage_Provider keystore_Repository kms_KeyManager crypto_Crypto.
Variable equalFold : string -> string -> bool.
Variable o : Operation storage_Provider kms_KeyManager crypto_Crypto.

(** Every handler carries out its request's plan. *)
Lemma serve_plan ep req werr :
  serve (handlerOf pkg equalFold o ep req) (recorder werr)
  = carryOut werr (planOf pkg equalFold o ep req).
Proof.
  unfold carryOut, planOf, capabilityCall, answerTo, failed, badRequest, bundleOf,
    sendEvents, sendWriter, writeLog, taken, failureFormat, capabilityError.
  destruct ep; destruct werr; run_all; reflexivity.
Qed.

End PlanFacts.

(** ** Facts the further properties share *)

(** A format of the package puts its argument after a fixed text. *)
Lemma Sprintf_messageFormats f s :
  In f messageFormats -> Sprintf f [s] = Sprintf f [""] ++ s.
Proof.
  unfold messageFormats. intros Hf.
  repeat (destruct Hf as [<-|Hf]; [
    match goal with
    | |- Sprintf ?f _ = _ =>
        let p := eval vm_compute in (Sprintf f [""]) in
        change (p ++ s ++ "" = p ++ s); rewrite append_nil_r; reflexivity
    end |]).
  destruct Hf.
Qed.

(** The message of an error response is never empty, so [omitempty]
    never drops it, and it is not empty once encoded. *)
Lemma errorBody_messageFormats f s :
  In f messageFormats ->
  json.encodedString (Sprintf f [s]) <> ""
  /\ errorBody (Sprintf f [s])
     = json.Object [("errMessage", json.Str (json.encodedString (Sprintf f [s])))].
Proof.
  intros Hf. rewrite (Sprintf_messageFormats f s Hf).
  unfold messageFormats in Hf.
  repeat (destruct Hf as [<-|Hf];
          [split; [apply json_facts.encodedString_nonempty; discriminate|reflexivity]|]).
  destruct Hf.
Qed.

Lemma failureFormat_messageFormats ep : In (failureFormat ep) messageFormats.
Proof. destruct ep; cbn; auto 10. Qed.

(** Sending an answer calls no collaborator. *)
Lemma sendEvents_collaborators werr a :
  List.filter isCollaborator (sendEvents werr a) = [].
Proof. destruct a, werr; reflexivity. Qed.

(** ** The handlers, the helpers and the routes *)

Section Further.

Context {storage_Provider keystore_Repository kms_KeyManager crypto_Crypto : Type}.
Variable pkg : Packages storage_Provider keystore_Repository kms_KeyManager crypto_Crypto.
Variable equalFold : string -> string -> bool.
Variable o : Operation storage_Provider kms_KeyManager crypto_Crypto.

(** X1. On every endpoint but verify, a request that gets as far as
    its capability and whose capability returns an error is answered
    with 500 and the endpoint's own failure format around the error's
    text: for create-keystore when the body decodes and the repository
    opens; for the others when, in addition, the key manager is
    built. *)
Theorem capability_failure_is_internal_error :
  forall req werr fs repo err,
    keystore_NewRepository pkg (StorageProvider (provider o)) = Ok repo ->
    (decoded equalFold createKeystore req = Ok fs ->
     keystore_Create pkg repo (mapIndex fs "controller") = Err err ->
     respondsError werr
       (serve (handlerOf pkg equalFold o createKeystore req) (recorder werr))
       http.StatusInternalServerError (Sprintf createKeystoreFailure [Error err]))
    /\ (forall ep km,
          provisioned ep = true ->
          ep <> verify ->
          decoded equalFold ep req = Ok fs ->
          KMSCreator (provider o) (contextOf req fs) = Ok km ->
          base64Error ep fs = None ->
          capabilityError
            (capabilityCall pkg ep
               {| keystore := repo; kms := km; crypto := Crypto (provider o) |} req fs)
          = Some err ->
          respondsError werr
            (serve (handlerOf pkg equalFold o ep req) (recorder werr))
            http.StatusInternalServerError (Sprintf (failureFormat ep) [Error err])).
Proof.
  intros req werr fs repo err Hr. split.
  - intros Hd Hc. rewrite serve_plan. unfold carryOut, planOf.
    rewrite Hd, Hr. cbn [provisioned fst snd]. rewrite Hc.
    destruct werr; unfold_plan; cbn; repeat split; try reflexivity; discriminate.
  - intros ep km Hp Hv Hd Hk Hb Hc. rewrite serve_plan. unfold carryOut, planOf.
    rewrite Hd, Hr, Hp, Hk, Hb. cbn [fst snd]. unfold bundleOf.
    destruct ep; try discriminate Hp; try contradiction; unfold capabilityCall in *.
    all: cbn [capabilityError] in Hc.
    all: match type of Hc with errOf ?r = _ => destruct r eqn:E end;
         cbn in Hc; simplify_eq.
    all: destruct werr; unfold_plan; cbn; repeat split; try reflexivity; discriminate.
Qed.

(** X2. When the keystore repository does not open, the create-keystore
    handler answers 500 with the keystore-creation failure and the
    error's text, and calls neither [Create] nor the key-manager
    constructor. *)
Theorem createKeystore_reports_unopened_store :
  forall req werr err,
    let x := serve (createKeystoreHandler pkg equalFold o req) (recorder werr) in
    In (EvNewRepository (Some err)) (trace x) ->
    respondsError werr x http.StatusInternalServerError
      ("Failed to create a keystore: " ++ Error err)
    /\ capabilityCalls (trace x) = []
    /\ creatorCalls (trace x) = [].
Proof.
  intros req werr err. cbv zeta.
  change (createKeystoreHandler pkg equalFold o req)
    with (handlerOf pkg equalFold o createKeystore req).
  assert (Hs : Sprintf createKeystoreFailure [Error err]
               = "Failed to create a keystore: " ++ Error err)
    by (apply (Sprintf_messageFormats createKeystoreFailure); cbn; auto).
  rewrite <- Hs. clear Hs. rewrite serve_plan. paths; try discriminate.
  all: destruct werr; unfold_plan.
  all: cbn; intros H; repeat branch; find_event H; simplify_eq.
  all: finish.
Qed.

(** X3. A sign, encrypt or decrypt request whose body decodes, whose
    bundle is built and whose capability succeeds is answered without
    any call of [WriteHeader], so with the implicit 200, and with one
    body: the response struct.  The plain text of decrypt is not
    base64-encoded: it goes out as a JSON string, so as it is when it
    is ASCII, and in general with every byte that is not part of
    well-formed UTF-8 replaced by U+FFFD. *)
Theorem crypto_success_payload :
  forall req werr fs repo km,
    keystore_NewRepository pkg (StorageProvider (provider o)) = Ok repo ->
    KMSCreator (provider o) (contextOf req fs) = Ok km ->
    let b := {| keystore := repo; kms := km; crypto := Crypto (provider o) |} in
    let ks := mapIndex (http.Vars req) keystoreIDQueryParam in
    let k := mapIndex (http.Vars req) keyIDQueryParam in
    (forall signature,
        decoded equalFold sign req = Ok fs ->
        kmsservice_Sign pkg b ks k (list_ascii_of_string (mapIndex fs "message"))
        = Ok signature ->
        let x := serve (signHandler pkg equalFold o req) (recorder werr) in
        let doc := Marshal {| signResp.Signature :=
                                base64.EncodeToString base64.URLEncoding signature |} in
        http.Code (rw x) = http.StatusOK
        /\ headerWrites (trace x) = []
        /\ writes (trace x) = [doc]
        /\ (werr = None -> http.ResponseBody (rw x) = [doc]))
    /\ (forall cipherText nonce,
        decoded equalFold encrypt req = Ok fs ->
        kmsservice_Encrypt pkg b ks k (list_ascii_of_string (mapIndex fs "message"))
          (list_ascii_of_string (mapIndex fs "aad")) = Ok (cipherText, nonce) ->
        let x := serve (encryptHandler pkg equalFold o req) (recorder werr) in
        let doc := Marshal {| encryptResp.CipherText :=
                                base64.EncodeToString base64.URLEncoding cipherText;
                              encryptResp.Nonce :=
                                base64.EncodeToString base64.URLEncoding nonce |} in
        http.Code (rw x) = http.StatusOK
        /\ headerWrites (trace x) = []
        /\ writes (trace x) = [doc]
        /\ (werr = None -> http.ResponseBody (rw x) = [doc]))
    /\ (forall plainText,
        decoded equalFold decrypt req = Ok fs ->
        base64Error decrypt fs = None ->
        kmsservice_Decrypt pkg b ks k
          (fst (base64.DecodeString base64.URLEncoding (mapIndex fs "cipherText")))
          (list_ascii_of_string (mapIndex fs "aad"))
          (fst (base64.DecodeString base64.URLEncoding (mapIndex fs "nonce")))
        = Ok plainText ->
        let x := serve (decryptHandler pkg equalFold o req) (recorder werr) in
        let doc :=
          json.Object
            [("plainText",
              json.Str (json.encodedString (string_of_list_ascii plainText)))] in
        http.Code (rw x) = http.StatusOK
        /\ headerWrites (trace x) = []
        /\ writes (trace x) = [doc]
        /\ (werr = None -> http.ResponseBody (rw x) = [doc])
        /\ (isASCII (string_of_list_ascii plainText) = true ->
            doc = json.Object
                    [("plainText", json.Str (string_of_list_ascii plainText))])).
Proof.
  intros req werr fs repo km Hr Hk b ks k. subst b ks k.
  split; [|split].
  - intros signature Hd Hs x doc. subst x doc.
    change (signHandler pkg equalFold o req) with (handlerOf pkg equalFold o sign req).
    rewrite serve_plan. unfold carryOut, planOf.
    rewrite Hd, Hr, Hk. cbn [provisioned base64Error fst snd].
    unfold capabilityCall, bundleOf, answerTo. rewrite Hs.
    destruct werr; cbn; repeat split; try reflexivity; discriminate.
  - intros cipherText nonce Hd Hs x doc. subst x doc.
    change (encryptHandler pkg equalFold o req)
      with (handlerOf pkg equalFold o encrypt req).
    rewrite serve_plan. unfold carryOut, planOf.
    rewrite Hd, Hr, Hk. cbn [provisioned base64Error fst snd].
    unfold capabilityCall, bundleOf, answerTo. rewrite Hs.
    destruct werr; cbn; repeat split; try reflexivity; discriminate.
  - intros plainText Hd Hb Hs x doc. subst x doc.
    change (decryptHandler pkg equalFold o req)
      with (handlerOf pkg equalFold o decrypt req).
    rewrite serve_plan. unfold carryOut, planOf.
    rewrite Hd, Hr, Hk, Hb. cbn [provisioned fst snd].
    unfold capabilityCall, bundleOf, answerTo. rewrite Hs.
    destruct werr; cbn; repeat split; try reflexivity; try discriminate.
    all: intros Ha; rewrite (json_facts.encodedString_isASCII _ Ha); reflexivity.
Qed.

(** The calls of a plan are calls on the collaborators. *)
Lemma planOf_collaborators ep req :
  List.filter isCollaborator (fst (planOf pkg equalFold o ep req))
  = fst (planOf pkg equalFold o ep req).
Proof. paths; try reflexivity; destruct ep; try discriminate; reflexivity. Qed.

(** X4. A capability is only called on a request whose body decoded
    and whose base64 fields decoded, after the repository was opened
    and, on every endpoint but create-keystore, after the key manager
    was built from the path's keystore and the body's passphrase; and
    these are all the calls on the collaborators that the request
    causes, in this order. *)
Theorem capability_follows_provisioning :
  forall ep req werr call,
    let x := serve (handlerOf pkg equalFold o ep req) (recorder werr) in
    In call (trace x) ->
    isCapability call = true ->
    exists fs,
      decoded equalFold ep req = Ok fs
      /\ base64Error ep fs = None
      /\ collaboratorCalls (trace x)
         = EvNewRepository None
           :: (if provisioned ep then [EvKMSCreator (contextOf req fs) None] else [])
           ++ [call].
Proof.
  intros ep req werr call. cbv zeta. rewrite serve_plan.
  unfold collaboratorCalls, carryOut. cbn [trace].
  rewrite List.filter_app, sendEvents_collaborators, app_nil_r, planOf_collaborators.
  intros H Hc. apply in_app_or in H. destruct H as [H|H].
  2: { exfalso. destruct (snd (planOf pkg equalFold o ep req)), werr;
       find_event H; subst; discriminate Hc. }
  revert H. paths; intros H; find_event H; subst; try discriminate Hc.
  - exists fs. auto.
  - exists fs. destruct ep; try discriminate. auto.
Qed.

(** X5. Every call on a collaborator comes before the first call on
    the response writer: once a handler has started to answer, it
    calls nothing but the writer and the logger; and every request is
    answered. *)
Theorem calls_precede_response :
  forall ep req werr,
    let x := serve (handlerOf pkg equalFold o ep req) (recorder werr) in
    exists sent,
      trace x = (collaboratorCalls (trace x) ++ sent)%list
      /\ collaboratorCalls sent = []
      /\ (headerWrites sent <> [] \/ writes sent <> []).
Proof.
  intros ep req werr. cbv zeta. rewrite serve_plan.
  unfold collaboratorCalls, carryOut. cbn [trace].
  rewrite List.filter_app, sendEvents_collaborators, app_nil_r, planOf_collaborators.
  exists (sendEvents werr (snd (planOf pkg equalFold o ep req))).
  split; [reflexivity|]. split; [apply sendEvents_collaborators|].
  destruct (snd (planOf pkg equalFold o ep req)); cbn; first [left; discriminate | right; discriminate].
Qed.

(** X6. On the endpoints that work on a key, once the body and its
    base64 fields decoded and the bundle was built, the capability is
    called once, on the bundle made of the repository just opened, the
    key manager just built and the provider's crypto, with the
    identifiers of the URL path (an absent one is the empty string),
    the message and the additional data as the bytes of their strings,
    and the signature, the cipher text and the nonce as decoded. *)
Theorem capability_called_on_request_bundle :
  forall ep req werr fs repo km,
    let x := serve (handlerOf pkg equalFold o ep req) (recorder werr) in
    provisioned ep = true ->
    decoded equalFold ep req = Ok fs ->
    keystore_NewRepository pkg (StorageProvider (provider o)) = Ok repo ->
    KMSCreator (provider o) (contextOf req fs) = Ok km ->
    base64Error ep fs = None ->
    capabilityCalls (trace x)
    = [capabilityCall pkg ep
         {| keystore := repo; kms := km; crypto := Crypto (provider o) |} req fs].
Proof.
  intros ep req werr fs repo km x Hp Hd Hr Hk Hb. subst x. rewrite serve_plan.
  unfold capabilityCalls, carryOut, planOf. rewrite Hd, Hr, Hp, Hk, Hb.
  cbn [fst snd trace]. rewrite List.filter_app.
  replace (List.filter isCapability (sendEvents werr _)) with (@nil event).
  - destruct ep; try discriminate; reflexivity.
  - destruct ep; try discriminate; unfold_plan; cbn; repeat branch; reflexivity.
Qed.

(** X7. What sign answers, verify accepts: when the signature field of
    a verify request is the string that a successful sign wrote, and
    the bundle can be built, the verify capability is called with the
    very bytes the sign capability returned. *)
Theorem signature_round_trip :
  forall req werr req' werr' ks k msg signature fs,
    let x := serve (signHandler pkg equalFold o req) (recorder werr) in
    let x' := serve (verifyHandler pkg equalFold o req') (recorder werr') in
    In (EvSign ks k msg (Ok signature)) (trace x) ->
    decoded equalFold verify req' = Ok fs ->
    writes (trace x) = [Marshal {| signResp.Signature := mapIndex fs "signature" |}] ->
    provisionError pkg o (contextOf req' fs) = None ->
    exists ret,
      In (EvVerify (mapIndex (http.Vars req') keystoreIDQueryParam)
            (mapIndex (http.Vars req') keyIDQueryParam)
            signature (list_ascii_of_string (mapIndex fs "message")) ret)
         (trace x').
Proof.
  intros req werr req' werr' ks k msg signature fs x x' Hsign Hd Hw Hp.
  subst x x'.
  assert (Hs : mapIndex fs "signature"
               = base64.EncodeToString base64.URLEncoding signature).
  { clear Hd Hp. revert Hsign Hw.
    change (signHandler pkg equalFold o req) with (handlerOf pkg equalFold o sign req).
    rewrite serve_plan. paths; destruct werr; unfold_plan.
    all: cbn; intros H; repeat branch; find_event H; simplify_eq.
    all: intros Hw; cbn in Hw.
    all: apply json_facts.encodedString_ascii_inv;
         [|apply base64_facts.EncodeToString_URL_ascii].
    all: rewrite <- (json_facts.encodedString_isASCII _
                       (base64_facts.EncodeToString_URL_ascii signature)).
    all: congruence. }
  change (verifyHandler pkg equalFold o req') with (handlerOf pkg equalFold o verify req').
  rewrite serve_plan. unfold carryOut, planOf. rewrite Hd.
  unfold provisionError in Hp.
  destruct (keystore_NewRepository pkg (StorageProvider (provider o))) as [repo|];
    [|discriminate].
  destruct (KMSCreator (provider o) (contextOf req' fs)) as [km|]; [|discriminate].
  unfold base64Error, capabilityCall.
  rewrite Hs, base64_facts.DecodeString_EncodeToString.
  cbn [provisioned fst snd trace]. eexists. in_trace.
Qed.

(** X8. What encrypt answers, decrypt accepts: when the cipher text and
    the nonce of a decrypt request are the strings that a successful
    encrypt wrote, and the bundle can be built, the decrypt capability
    is called with the very cipher text and nonce the encrypt
    capability returned. *)
Theorem cipher_round_trip :
  forall req werr req' werr' ks k msg aad cipherText nonce fs,
    let x := serve (encryptHandler pkg equalFold o req) (recorder werr) in
    let x' := serve (decryptHandler pkg equalFold o req') (recorder werr') in
    In (EvEncrypt ks k msg aad (Ok (cipherText, nonce))) (trace x) ->
    decoded equalFold decrypt req' = Ok fs ->
    writes (trace x)
    = [Marshal {| encryptResp.CipherText := mapIndex fs "cipherText";
                  encryptResp.Nonce := mapIndex fs "nonce" |}] ->
    provisionError pkg o (contextOf req' fs) = None ->
    exists ret,
      In (EvDecrypt (mapIndex (http.Vars req') keystoreIDQueryParam)
            (mapIndex (http.Vars req') keyIDQueryParam)
            cipherText (list_ascii_of_string (mapIndex fs "aad")) nonce ret)
         (trace x').
Proof.
  intros req werr req' werr' ks k msg aad cipherText nonce fs x x' Henc Hd Hw Hp.
  subst x x'.
  assert (Hs : mapIndex fs "cipherText"
               = base64.EncodeToString base64.URLEncoding cipherText
               /\ mapIndex fs "nonce" = base64.EncodeToString base64.URLEncoding nonce).
  { clear Hd Hp. revert Henc Hw.
    change (encryptHandler pkg equalFold o req)
      with (handlerOf pkg equalFold o encrypt req).
    rewrite serve_plan. paths; destruct werr; unfold_plan.
    all: cbn; intros H; repeat branch; find_event H; simplify_eq.
    all: intros Hw; cbn in Hw.
    all: split; apply json_facts.encodedString_ascii_inv;
         try apply base64_facts.EncodeToString_URL_ascii.
    all: match goal with
         | |- _ = base64.EncodeToString _ ?bs =>
             rewrite <- (json_facts.encodedString_isASCII _
                           (base64_facts.EncodeToString_URL_ascii bs))
         end.
    all: congruence. }
  destruct Hs as [Hc Hn].
  change (decryptHandler pkg equalFold o req')
    with (handlerOf pkg equalFold o decrypt req').
  rewrite serve_plan. unfold carryOut, planOf. rewrite Hd.
  unfold provisionError in Hp.
  destruct (keystore_NewRepository pkg (StorageProvider (provider o))) as [repo|];
    [|discriminate].
  destruct (KMSCreator (provider o) (contextOf req' fs)) as [km|]; [|discriminate].
  unfold base64Error, capabilityCall.
  rewrite Hc, Hn, !base64_facts.DecodeString_EncodeToString.
  cbn [provisioned fst snd trace]. eexists. in_trace.
Qed.

(** X9. The only header a handler sets is Location, and it sets it
    exactly on the responses with status 201, which only the two
    create endpoints give and which carry no body.  The header map
    holds nothing else but the Content-Type that the recorder itself
    adds when a body is written before any status. *)
Theorem location_only_when_created :
  forall ep req werr,
    let x := serve (handlerOf pkg equalFold o ep req) (recorder werr) in
    (http.Code (rw x) = http.StatusCreated
     <-> http.HeaderMap (rw x) !! "Location" <> None)
    /\ (http.Code (rw x) = http.StatusCreated
        <-> exists location, headerSets (trace x) = [("Location", location)])
    /\ (forall key value, In (key, value) (headerSets (trace x)) -> key = "Location")
    /\ (forall key, http.HeaderMap (rw x) !! key <> None ->
                    key = "Location" \/ key = "Content-Type")
    /\ (http.Code (rw x) = http.StatusCreated ->
        (ep = createKeystore \/ ep = createKey)
        /\ writes (trace x) = [] /\ http.ResponseBody (rw x) = []).
Proof.
  intros ep req werr. cbv zeta. rewrite serve_plan.
  assert (Hmap : forall (key k : string) (v : list string),
             (<[k := v]> (∅ : gmap string (list string))) !! key <> None -> key = k).
  { intros key k v H. destruct (decide (key = k)) as [E|E]; [exact E|].
    rewrite lookup_insert_ne in H by congruence. rewrite lookup_empty in H.
    congruence. }
  paths.
  all: destruct ep; try discriminate; destruct werr; unfold_plan.
  all: cbn [rw trace http.Code http.HeaderMap http.ResponseBody]; repeat branch.
  all: unfold http.StatusOK, http.StatusCreated, http.StatusBadRequest,
         http.StatusInternalServerError.
  all: split; [split; intros H; try discriminate H; try reflexivity;
               first [ rewrite lookup_insert_eq; discriminate
                     | exfalso; rewrite lookup_empty in H; congruence
                     | exfalso; apply Hmap in H; discriminate H ] |].
  all: split; [split; [intros H; try discriminate H; eexists; reflexivity
                      | intros [location H]; try discriminate H; reflexivity] |].
  all: split; [intros key value H; find_event H; congruence|].
  all: split; [intros key H;
               first [ rewrite lookup_empty in H; congruence
                     | apply Hmap in H; auto ] |].
  all: intros H; try discriminate H; repeat split; auto.
Qed.

(** X10. The status of a response is 200, 201, 400 or 500.  The two
    create endpoints never answer 200 and the four crypto endpoints
    never answer 201; and a request answered with 400 has reached no
    capability. *)
Theorem status_codes :
  forall ep req werr,
    let x := serve (handlerOf pkg equalFold o ep req) (recorder werr) in
    In (http.Code (rw x))
       [http.StatusOK; http.StatusCreated; http.StatusBadRequest;
        http.StatusInternalServerError]
    /\ (http.Code (rw x) = http.StatusOK -> In ep [sign; verify; encrypt; decrypt])
    /\ (http.Code (rw x) = http.StatusCreated -> In ep [createKeystore; createKey])
    /\ (http.Code (rw x) = http.StatusBadRequest -> capabilityCalls (trace x) = []).
Proof.
  intros ep req werr. cbv zeta. rewrite serve_plan. paths.
  all: destruct ep; try discriminate; destruct werr; unfold_plan.
  all: cbn; repeat branch.
  all: unfold http.StatusOK, http.StatusCreated, http.StatusBadRequest,
         http.StatusInternalServerError.
  all: repeat split; intros; try discriminate; try reflexivity; auto 10.
Qed.

(** X11. A response with status 400 or 500 has exactly one body: an
    object whose only member is [errMessage], with a text that is not
    empty; the status is written once, before the body, and no header
    is set. *)
Theorem error_status_has_error_body :
  forall ep req werr,
    let x := serve (handlerOf pkg equalFold o ep req) (recorder werr) in
    http.Code (rw x) = http.StatusBadRequest
    \/ http.Code (rw x) = http.StatusInternalServerError ->
    exists m rest,
      m <> ""
      /\ writes (trace x) = [json.Object [("errMessage", json.Str m)]]
      /\ trace x
         = (collaboratorCalls (trace x)
              ++ EvWriteHeader (http.Code (rw x))
              :: EvWrite (json.Object [("errMessage", json.Str m)]) :: rest)%list
      /\ logged rest = logged (trace x)
      /\ http.HeaderMap (rw x) = ∅.
Proof.
  intros ep req werr. cbv zeta. rewrite serve_plan.
  unfold collaboratorCalls, carryOut. cbn [rw trace].
  rewrite List.filter_app, sendEvents_collaborators, app_nil_r, planOf_collaborators.
  assert (Hm : forall status f s,
             In f messageFormats ->
             exists m rest,
               m <> ""
               /\ writes (fst (planOf pkg equalFold o ep req)
                             ++ sendEvents werr (Failure status (Sprintf f [s])))
                  = [json.Object [("errMessage", json.Str m)]]
               /\ (fst (planOf pkg equalFold o ep req)
                     ++ sendEvents werr (Failure status (Sprintf f [s])))%list
                  = (fst (planOf pkg equalFold o ep req)
                       ++ EvWriteHeader status
                       :: EvWrite (json.Object [("errMessage", json.Str m)]) :: rest)%list
               /\ logged rest
                  = logged (fst (planOf pkg equalFold o ep req)
                              ++ sendEvents werr (Failure status (Sprintf f [s])))
               /\ http.HeaderMap (sendWriter werr (Failure status (Sprintf f [s]))) = ∅).
  { intros status f s Hf. destruct (errorBody_messageFormats f s Hf) as [Hne Hb].
    exists (json.encodedString (Sprintf f [s])),
      (writeLog werr "Unable to send an error message, %s").
    unfold writes, logged. rewrite !flat_map_app.
    rewrite <- planOf_collaborators.
    replace (flat_map _ (List.filter isCollaborator _)) with (@nil json.Value).
    2: { induction (fst (planOf pkg equalFold o ep req)) as [|e t IH]; [reflexivity|].
         cbn [List.filter]. destruct (isCollaborator e) eqn:E; [|exact IH].
         destruct e; try discriminate E; exact IH. }
    replace (flat_map _ (List.filter isCollaborator _)) with (@nil string).
    2: { induction (fst (planOf pkg equalFold o ep req)) as [|e t IH]; [reflexivity|].
         cbn [List.filter]. destruct (isCollaborator e) eqn:E; [|exact IH].
         destruct e; try discriminate E; exact IH. }
    cbn [sendEvents sendWriter http.HeaderMap app flat_map]. rewrite Hb.
    destruct werr; repeat split; try assumption; reflexivity. }
  revert Hm. paths; intros Hm.
  all: destruct ep; try discriminate; unfold answerTo, capabilityCall, failed, badRequest,
         capabilityError, failureFormat in *; cbn [provisioned errOf].
  all: repeat match goal with
         | |- context [match ?e with _ => _ end] =>
             lazymatch e with
             | context [match _ with _ => _ end] => fail
             | _ => destruct e; cbn [errOf]
             end
         end.
  all: try (intros _; cbn [sendWriter http.Code]; apply Hm; cbn; auto 10).
  all: unfold sendWriter, recorder; destruct werr; cbn [http.Code];
       unfold http.StatusOK, http.StatusCreated, http.StatusBadRequest,
         http.StatusInternalServerError; intros [H|H]; discriminate H.
Qed.

(** X12. A writer that fails changes nothing but the body received, the
    log and the Content-Type that the recorder adds on a first write:
    the calls on the collaborators, the status written, the headers
    the handler sets, the body handed to the writer, the status code
    and every other header are those of the same request served on a
    working writer. *)
Theorem writer_failure_changes_nothing_else :
  forall ep req werr,
    let x := serve (handlerOf pkg equalFold o ep req) (recorder werr) in
    let y := serve (handlerOf pkg equalFold o ep req) (recorder None) in
    collaboratorCalls (trace x) = collaboratorCalls (trace y)
    /\ headerWrites (trace x) = headerWrites (trace y)
    /\ headerSets (trace x) = headerSets (trace y)
    /\ writes (trace x) = writes (trace y)
    /\ http.Code (rw x) = http.Code (rw y)
    /\ (forall key, key <> "Content-Type" ->
                    http.HeaderMap (rw x) !! key = http.HeaderMap (rw y) !! key).
Proof.
  intros ep req werr. cbv zeta. rewrite !serve_plan.
  unfold carryOut, collaboratorCalls, headerWrites, headerSets, writes. cbn [rw trace].
  rewrite !List.filter_app, !flat_map_app.
  destruct (snd (planOf pkg equalFold o ep req)), werr; repeat split; try reflexivity.
  intros key Hk. cbn [sendWriter recorder http.HeaderMap].
  rewrite lookup_insert_ne by congruence. reflexivity.
Qed.

(** X13. [New] keeps the provider it is given, and the handlers it
    registers are found by path and method: looking up an endpoint's
    path with POST gives that endpoint's handler, and a lookup that
    finds a handler was made with POST and the path of the endpoint
    whose handler it is. *)
Theorem routes_are_the_six_endpoints :
  forall p : Provider storage_Provider kms_KeyManager crypto_Crypto,
    let op := New p in
    provider op = p
    /\ (forall ep,
          handlerLookup pkg equalFold op (pathOf ep) http.MethodPost
          = Some (NewHTTPHandler (pathOf ep) http.MethodPost
                    (handlerOf pkg equalFold op ep)))
    /\ (forall pathToLookup methodToLookup h,
          handlerLookup pkg equalFold op pathToLookup methodToLookup = Some h ->
          methodToLookup = http.MethodPost
          /\ exists ep, pathToLookup = pathOf ep
                        /\ Handle h = handlerOf pkg equalFold op ep).
Proof.
  intros p op. split; [reflexivity|]. split.
  - intros ep. destruct ep; reflexivity.
  - intros pathToLookup methodToLookup h H. unfold handlerLookup in H.
    apply List.find_some in H. destruct H as [Hin Hb].
    apply andb_prop in Hb. destruct Hb as [Hp Hm].
    apply String.eqb_eq in Hp. apply String.eqb_eq in Hm.
    unfold GetRESTHandlers in Hin. rewrite registerHandlers_endpoints in Hin.
    apply in_map_iff in Hin. destruct Hin as (ep & <- & _).
    cbn [Path Method Handle] in *. subst. split; [reflexivity|].
    exists ep. split; reflexivity.
Qed.

(** X15. [prepareKMSProvider] returns no bundle exactly when it has
    answered: then the repository did not open or the constructor
    failed, and the 500 with that error's text was sent.  When it
    returns a bundle, it has written nothing, and the bundle's
    accessors give the repository that was opened, the key manager the
    constructor built for this keystore and passphrase, and the
    provider's crypto. *)
Theorem prepareKMSProvider_contract :
  forall (p : Provider storage_Provider kms_KeyManager crypto_Crypto)
         keystoreID passphrase x0,
    let ctx := {| KeystoreID := keystoreID; Passphrase := passphrase |} in
    let r := prepareKMSProvider pkg p keystoreID passphrase x0 in
    match fst r with
    | Some b =>
        keystore_NewRepository pkg (StorageProvider p) = Ok (Keystore b)
        /\ KMSCreator p ctx = Ok (KMS b)
        /\ kmsProvider_Crypto b = Crypto p
        /\ rw (snd r) = rw x0
        /\ trace (snd r) = (trace x0 ++ [EvNewRepository None; EvKMSCreator ctx None])%list
    | None =>
        exists err,
          (keystore_NewRepository pkg (StorageProvider p) = Err err
           \/ errOf (keystore_NewRepository pkg (StorageProvider p)) = None
              /\ KMSCreator p ctx = Err err)
          /\ writes (trace (snd r))
             = (writes (trace x0)
                  ++ [errorBody (Sprintf createKMSProviderFailure [Error err])])%list
          /\ headerWrites (trace (snd r))
             = (headerWrites (trace x0) ++ [http.StatusInternalServerError])%list
          /\ capabilityCalls (trace (snd r)) = capabilityCalls (trace x0)
          /\ (http.wroteHeader (rw x0) = false ->
              http.Code (rw (snd r)) = http.StatusInternalServerError)
    end.
Proof.
  intros p keystoreID passphrase [[code wrote hdr body werr] t]. cbv zeta.
  unfold prepareKMSProvider, NewRepository, callKMSCreator, writeErrorResponse, Encode,
    logger_Errorf, rw_WriteHeader, rw_Write, emit, onWriter, http.Write, http.WriteHeader,
    mbind, mret, M_bind, M_ret, Keystore, KMS, kmsProvider_Crypto, capabilityCalls,
    writes, headerWrites.
  cbn [rw trace].
  destruct (keystore_NewRepository pkg (StorageProvider p)) as [repo|err];
    [destruct (KMSCreator p _) as [km|err]|].
  - cbn. rewrite <- ?app_assoc. repeat split; reflexivity.
  - destruct werr, wrote; cbn; exists err.
    all: rewrite <- ?app_assoc, ?flat_map_app, ?List.filter_app; cbn.
    all: rewrite ?app_nil_r; repeat split; auto; discriminate.
  - destruct werr, wrote; cbn; exists err.
    all: rewrite <- ?app_assoc, ?flat_map_app, ?List.filter_app; cbn.
    all: rewrite ?app_nil_r; repeat split; auto; discriminate.
Qed.

(** X16. [parseRequest] returns false exactly when it has answered:
    then the body did not decode and the 400 with the decoder's text
    was sent.  When it returns true it has touched neither the writer
    nor anything else, and the request struct holds the decoded
    fields. *)
Theorem parseRequest_contract :
  forall (T : Type) (R : RequestStruct T) req x0,
    let r := parseRequest equalFold T req x0 in
    match fst r with
    | Some parsed =>
        snd r = x0
        /\ exists fs, json.Decode equalFold structType (http.Body req) = Ok fs
                      /\ parsed = fromFields fs
    | None =>
        exists err,
          json.Decode equalFold structType (http.Body req) = Err err
          /\ writes (trace (snd r))
             = (writes (trace x0)
                  ++ [errorBody (Sprintf receivedBadRequest [Error err])])%list
          /\ headerWrites (trace (snd r))
             = (headerWrites (trace x0) ++ [http.StatusBadRequest])%list
          /\ collaboratorCalls (trace (snd r)) = collaboratorCalls (trace x0)
          /\ (http.wroteHeader (rw x0) = false ->
              http.Code (rw (snd r)) = http.StatusBadRequest)
    end.
Proof.
  intros T R req [[code wrote hdr body werr] t]. cbv zeta.
  unfold parseRequest, writeErrorResponse, Encode,
    logger_Errorf, rw_WriteHeader, rw_Write, emit, onWriter, http.Write, http.WriteHeader,
    mbind, mret, M_bind, M_ret, collaboratorCalls, writes, headerWrites.
  cbn [rw trace].
  destruct (json.Decode equalFold structType (http.Body req)) as [fs|err].
  - cbn. split; [reflexivity|]. exists fs. split; reflexivity.
  - destruct werr, wrote; cbn; exists err.
    all: rewrite <- ?app_assoc, ?flat_map_app, ?List.filter_app; cbn.
    all: rewrite ?app_nil_r; repeat split; auto; discriminate.
Qed.

(** X17. A handler reads three things of a request: the body, the
    path variables [keystoreID] (all endpoints but create-keystore) and
    [keyID] (the four crypto endpoints), and the host (the two create
    endpoints).  Two requests that agree on these are served alike. *)
Theorem request_parts_read :
  forall ep req req' werr,
    decoded equalFold ep req = decoded equalFold ep req' ->
    (provisioned ep = true ->
     mapIndex (http.Vars req) keystoreIDQueryParam
     = mapIndex (http.Vars req') keystoreIDQueryParam) ->
    (In ep [sign; verify; encrypt; decrypt] ->
     mapIndex (http.Vars req) keyIDQueryParam
     = mapIndex (http.Vars req') keyIDQueryParam) ->
    (In ep [createKeystore; createKey] -> http.Host req = http.Host req') ->
    serve (handlerOf pkg equalFold o ep req) (recorder werr)
    = serve (handlerOf pkg equalFold o ep req') (recorder werr).
Proof.
  intros ep req req' werr Hd Hks Hk Hh. rewrite !serve_plan. f_equal.
  unfold planOf. rewrite <- Hd.
  destruct (decoded equalFold ep req) as [fs|err]; [|reflexivity].
  destruct (keystore_NewRepository pkg (StorageProvider (provider o))) as [repo|err];
    [|reflexivity].
  destruct ep; cbn [provisioned]; unfold contextOf, capabilityCall, answerTo;
    cbn [In] in *.
  all: rewrite <- ?Hks, <- ?Hk, <- ?Hh by auto 10; reflexivity.
Qed.

End Further.

(** X14. The text of an error message tells which failure it reports
    and with which error text: two messages made from the package's
    formats are the same only if the formats and the error texts are. *)
Theorem message_identifies_failure :
  forall f g s t,
    In f messageFormats -> In g messageFormats ->
    Sprintf f [s] = Sprintf g [t] ->
    f = g /\ s = t.
Proof.
  intros f g s t Hf Hg H.
  rewrite (Sprintf_messageFormats f s Hf), (Sprintf_messageFormats g t Hg) in H.
  unfold messageFormats in Hf, Hg. cbn [In] in Hf, Hg.
  repeat (destruct Hf as [<-|Hf]); try contradiction.
  all: repeat (destruct Hg as [<-|Hg]); try contradiction.
  all: match type of H with
       | Sprintf ?f _ ++ _ = Sprintf ?g _ ++ _ =>
           let p := eval vm_compute in (Sprintf f [""]) in
           let q := eval vm_compute in (Sprintf g [""]) in
           change (p ++ s = q ++ t) in H
       end.
  all: cbv [String.append] in H.
  all: first [discriminate H | injection H as ->; split; reflexivity].
Qed.

(** X18. The location of a key is the location of its keystore
    followed by /keys/ and the key identifier, whatever the host and
    the identifiers are, also when an identifier contains one of the
    placeholders of the path templates. *)
Theorem key_location_under_keystore_location :
  forall hostURL keystoreID keyID,
    keyLocation hostURL keystoreID keyID
    = keystoreLocation hostURL keystoreID ++ "/keys/" ++ keyID.
Proof.
  intros hostURL keystoreID keyID.
  rewrite keyLocation_eq, keystoreLocation_eq, !append_assoc. reflexivity.
Qed.

(** ** The further properties at concrete requests *)

(** A create-keystore request whose [Create] fails and a sign request
    whose [Sign] fails. *)
Lemma capability_failure_is_internal_error_witness :
  let err := errorString 5 "create keystore error" in
  let m := withCreateErr err NewMockProvider in
  let req := buildCreateKeystoreReq "did:example:123456789" in
  let fs : gmap string string := <["controller" := "did:example:123456789"]> ∅ in
  let x := run m createKeystore None req in
  let err' := errorString 6 "sign error" in
  let m' := withSignErr err' NewMockProvider in
  let req' := buildSignReq "test message" in
  let fs' : gmap string string := <["message" := "test message"]> ∅ in
  let x' := run m' sign None req' in
  keystore_NewRepository (mockPackages m) (StorageProvider (provider (mockOperation m)))
  = Ok tt
  /\ decoded asciiEqualFold createKeystore req = Ok fs
  /\ keystore_Create (mockPackages m) tt (mapIndex fs "controller") = Err err
  /\ http.Code (rw x) = 500%Z
  /\ writes (trace x) = [errorBody "Failed to create a keystore: create keystore error"]
  /\ provisioned sign = true
  /\ sign <> verify
  /\ decoded asciiEqualFold sign req' = Ok fs'
  /\ KMSCreator (provider (mockOperation m')) (contextOf req' fs') = Ok tt
  /\ base64Error sign fs' = None
  /\ capabilityError
       (capabilityCall (mockPackages m') sign
          {| keystore := tt; kms := tt; crypto := Crypto (provider (mockOperation m')) |}
          req' fs') = Some err'
  /\ http.Code (rw x') = 500%Z
  /\ writes (trace x') = [errorBody "Failed to sign a message: sign error"].
Proof.
  intros err m req fs x err' m' req' fs' x'.
  assert (Hr : keystore_NewRepository (mockPackages m)
                 (StorageProvider (provider (mockOperation m))) = Ok tt) by reflexivity.
  assert (Hd : decoded asciiEqualFold createKeystore req = Ok fs) by reflexivity.
  assert (Hc : keystore_Create (mockPackages m) tt (mapIndex fs "controller") = Err err)
    by reflexivity.
  assert (Hne : sign <> verify) by discriminate.
  assert (Hd' : decoded asciiEqualFold sign req' = Ok fs') by reflexivity.
  assert (Hk : KMSCreator (provider (mockOperation m')) (contextOf req' fs') = Ok tt)
    by reflexivity.
  assert (Hb : base64Error sign fs' = None) by reflexivity.
  assert (He : capabilityError
                 (capabilityCall (mockPackages m') sign
                    {| keystore := tt; kms := tt;
                       crypto := Crypto (provider (mockOperation m')) |}
                    req' fs') = Some err') by reflexivity.
  split; [exact Hr|]. split; [exact Hd|]. split; [exact Hc|].
  destruct (proj1 (capability_failure_is_internal_error
                     (mockPackages m) asciiEqualFold (mockOperation m)
                     req None fs tt err Hr) Hd Hc) as (H1 & H2 & _).
  split; [exact H1|]. split; [exact H2|].
  split; [reflexivity|]. split; [exact Hne|]. split; [exact Hd'|].
  split; [exact Hk|]. split; [exact Hb|]. split; [exact He|].
  destruct (proj2 (capability_failure_is_internal_error
                     (mockPackages m') asciiEqualFold (mockOperation m')
                     req' None fs' tt err' eq_refl) sign tt eq_refl Hne Hd' Hk Hb He)
    as (H3 & H4 & _).
  split; [exact H3|exact H4].
Defined.

(** The tests' "Failed to create a keystore: open store". *)
Lemma createKeystore_reports_unopened_store_witness :
  let err := errorString 4 "open store error" in
  let x := run (withOpenStoreErr err NewMockProvider) createKeystore None
             (buildCreateKeystoreReq "did:example:123456789") in
  In (EvNewRepository (Some err)) (trace x)
  /\ http.Code (rw x) = 500%Z
  /\ writes (trace x) = [errorBody "Failed to create a keystore: open store error"]
  /\ capabilityCalls (trace x) = [].
Proof.
  intros err x.
  assert (H : In (EvNewRepository (Some err)) (trace x)) by (vm_compute; auto).
  split; [exact H|].
  destruct (createKeystore_reports_unopened_store
              (mockPackages (withOpenStoreErr err NewMockProvider)) asciiEqualFold
              (mockOperation (withOpenStoreErr err NewMockProvider))
              (buildCreateKeystoreReq "did:example:123456789") None err H)
    as ((Hc & Hw & _) & Hn & _).
  split; [exact Hc|]. split; [exact Hw|exact Hn].
Defined.

(** The tests' "Success" of sign, of encrypt and of decrypt; and a
    decrypt whose plain text is the two bytes ff 61: the body holds
    U+FFFD and the letter a. *)
Lemma crypto_success_payload_witness :
  let pkg := mockPackages NewMockProvider in
  let op := mockOperation NewMockProvider in
  let sreq := buildSignReq "test message" in
  let sfs : gmap string string := <["message" := "test message"]> ∅ in
  let ereq := buildEncryptReq "test message" "additional data" in
  let efs : gmap string string :=
    <["message" := "test message"]> (<["aad" := "additional data"]> ∅) in
  let dreq := buildDecryptReq "Y2lwaGVyIHRleHQ=" "bm9uY2U=" in
  let dfs : gmap string string :=
    <["cipherText" := "Y2lwaGVyIHRleHQ="]>
      (<["aad" := "additional data"]> (<["nonce" := "bm9uY2U="]> ∅)) in
  let binary := [ascii_of_nat 255; "a"%char] in
  let m := withDecryptValue binary NewMockProvider in
  let x := run m decrypt None dreq in
  decoded asciiEqualFold sign sreq = Ok sfs
  /\ http.ResponseBody (rw (run NewMockProvider sign None sreq))
     = [json.Object [("signature", json.Str "c2lnbmF0dXJl")]]
  /\ decoded asciiEqualFold encrypt ereq = Ok efs
  /\ http.ResponseBody (rw (run NewMockProvider encrypt None ereq))
     = [json.Object [("cipherText", json.Str "Y2lwaGVyIHRleHQ=");
                     ("nonce", json.Str "bm9uY2U=")]]
  /\ decoded asciiEqualFold decrypt dreq = Ok dfs
  /\ base64Error decrypt dfs = None
  /\ isASCII "plain text" = true
  /\ http.Code (rw (run NewMockProvider decrypt None dreq)) = 200%Z
  /\ http.ResponseBody (rw (run NewMockProvider decrypt None dreq))
     = [json.Object [("plainText", json.Str "plain text")]]
  /\ headerWrites (trace x) = []
  /\ http.ResponseBody (rw x)
     = [json.Object
          [("plainText",
            json.Str (string_of_list_ascii
                        [ascii_of_nat 239; ascii_of_nat 191; ascii_of_nat 189;
                         "a"%char]))]].
Proof.
  intros pkg op sreq sfs ereq efs dreq dfs binary m x.
  assert (Hs : decoded asciiEqualFold sign sreq = Ok sfs) by reflexivity.
  assert (He : decoded asciiEqualFold encrypt ereq = Ok efs) by reflexivity.
  assert (Hd : decoded asciiEqualFold decrypt dreq = Ok dfs) by reflexivity.
  assert (Hb : base64Error decrypt dfs = None) by reflexivity.
  destruct (crypto_success_payload pkg asciiEqualFold op sreq None sfs tt tt
              eq_refl eq_refl) as (H1 & _ & _).
  destruct (crypto_success_payload pkg asciiEqualFold op ereq None efs tt tt
              eq_refl eq_refl) as (_ & H2 & _).
  destruct (crypto_success_payload pkg asciiEqualFold op dreq None dfs tt tt
              eq_refl eq_refl) as (_ & _ & H3).
  destruct (crypto_success_payload (mockPackages m) asciiEqualFold (mockOperation m)
              dreq None dfs tt tt eq_refl eq_refl) as (_ & _ & H4).
  split; [exact Hs|].
  split; [exact (proj2 (proj2 (proj2 (H1 _ Hs eq_refl))) eq_refl)|].
  split; [exact He|].
  split; [exact (proj2 (proj2 (proj2 (H2 _ _ He eq_refl))) eq_refl)|].
  split; [exact Hd|]. split; [exact Hb|]. split; [reflexivity|].
  destruct (H3 (list_ascii_of_string "plain text") Hd Hb eq_refl)
    as (Hc & _ & _ & Hbody & _).
  split; [exact Hc|]. split; [exact (Hbody eq_refl)|].
  destruct (H4 binary Hd Hb eq_refl) as (_ & Hh & _ & Hbody' & _).
  split; [exact Hh|exact (Hbody' eq_refl)].
Defined.

(** A sign request served by working collaborators. *)
Lemma capability_follows_provisioning_witness :
  let req := request (object [("message", "test message"); ("passphrase", "pw")]) in
  let x := run NewMockProvider sign None req in
  let call := EvSign "bsi5ct08vcqmquc0fn5g" "Fm4r2iwjYnswLRZKl38W"
                (list_ascii_of_string "test message")
                (Ok (list_ascii_of_string "signature")) in
  In call (trace x)
  /\ isCapability call = true
  /\ exists fs,
       decoded asciiEqualFold sign req = Ok fs
       /\ base64Error sign fs = None
       /\ collaboratorCalls (trace x)
          = [EvNewRepository None; EvKMSCreator (contextOf req fs) None; call].
Proof.
  intros req x call.
  assert (H : In call (trace x)) by (vm_compute; auto).
  split; [exact H|]. split; [reflexivity|].
  exact (capability_follows_provisioning
           (mockPackages NewMockProvider) asciiEqualFold
           (mockOperation NewMockProvider) sign req None call H eq_refl).
Defined.

(** The tests' "Success" of verify: the capability gets the decoded
    signature and the message as it is. *)
Lemma capability_called_on_request_bundle_witness :
  let req := buildVerifyReq "c2lnbmF0dXJl" in
  let fs : gmap string string :=
    <["message" := "test message"]> (<["signature" := "c2lnbmF0dXJl"]> ∅) in
  let x := run NewMockProvider verify None req in
  provisioned verify = true
  /\ decoded asciiEqualFold verify req = Ok fs
  /\ base64Error verify fs = None
  /\ capabilityCalls (trace x)
     = [EvVerify "bsi5ct08vcqmquc0fn5g" "Fm4r2iwjYnswLRZKl38W"
          (list_ascii_of_string "signature") (list_ascii_of_string "test message") None].
Proof.
  intros req fs x.
  assert (Hd : decoded asciiEqualFold verify req = Ok fs) by reflexivity.
  assert (Hb : base64Error verify fs = None) by reflexivity.
  split; [reflexivity|]. split; [exact Hd|]. split; [exact Hb|].
  exact (capability_called_on_request_bundle
           (mockPackages NewMockProvider) asciiEqualFold
           (mockOperation NewMockProvider) verify req None fs tt tt
           eq_refl Hd eq_refl eq_refl Hb).
Defined.

(** The signature the mock signs with, sent back for verification. *)
Lemma signature_round_trip_witness :
  let req := buildSignReq "test message" in
  let req' := buildVerifyReq "c2lnbmF0dXJl" in
  let fs : gmap string string :=
    <["message" := "test message"]> (<["signature" := "c2lnbmF0dXJl"]> ∅) in
  let x := run NewMockProvider sign None req in
  let x' := run NewMockProvider verify None req' in
  In (EvSign "bsi5ct08vcqmquc0fn5g" "Fm4r2iwjYnswLRZKl38W"
        (list_ascii_of_string "test message") (Ok (list_ascii_of_string "signature")))
     (trace x)
  /\ decoded asciiEqualFold verify req' = Ok fs
  /\ writes (trace x) = [Marshal {| signResp.Signature := mapIndex fs "signature" |}]
  /\ provisionError (mockPackages NewMockProvider) (mockOperation NewMockProvider)
       (contextOf req' fs) = None
  /\ exists ret,
       In (EvVerify "bsi5ct08vcqmquc0fn5g" "Fm4r2iwjYnswLRZKl38W"
             (list_ascii_of_string "signature") (list_ascii_of_string "test message") ret)
          (trace x').
Proof.
  intros req req' fs x x'.
  assert (H : In (EvSign "bsi5ct08vcqmquc0fn5g" "Fm4r2iwjYnswLRZKl38W"
                    (list_ascii_of_string "test message")
                    (Ok (list_ascii_of_string "signature"))) (trace x))
    by (vm_compute; auto).
  assert (Hd : decoded asciiEqualFold verify req' = Ok fs) by reflexivity.
  assert (Hw : writes (trace x)
               = [Marshal {| signResp.Signature := mapIndex fs "signature" |}])
    by reflexivity.
  assert (Hp : provisionError (mockPackages NewMockProvider)
                 (mockOperation NewMockProvider) (contextOf req' fs) = None)
    by reflexivity.
  split; [exact H|]. split; [exact Hd|]. split; [exact Hw|]. split; [exact Hp|].
  exact (signature_round_trip
           (mockPackages NewMockProvider) asciiEqualFold
           (mockOperation NewMockProvider) req None req' None _ _ _ _ fs H Hd Hw Hp).
Defined.

(** The cipher text and the nonce the mock encrypts to, sent back for
    decryption. *)
Lemma cipher_round_trip_witness :
  let req := buildEncryptReq "test message" "additional data" in
  let req' := buildDecryptReq "Y2lwaGVyIHRleHQ=" "bm9uY2U=" in
  let fs : gmap string string :=
    <["cipherText" := "Y2lwaGVyIHRleHQ="]>
      (<["aad" := "additional data"]> (<["nonce" := "bm9uY2U="]> ∅)) in
  let x := run NewMockProvider encrypt None req in
  let x' := run NewMockProvider decrypt None req' in
  In (EvEncrypt "bsi5ct08vcqmquc0fn5g" "Fm4r2iwjYnswLRZKl38W"
        (list_ascii_of_string "test message") (list_ascii_of_string "additional data")
        (Ok (list_ascii_of_string "cipher text", list_ascii_of_string "nonce")))
     (trace x)
  /\ decoded asciiEqualFold decrypt req' = Ok fs
  /\ writes (trace x)
     = [Marshal {| encryptResp.CipherText := mapIndex fs "cipherText";
                   encryptResp.Nonce := mapIndex fs "nonce" |}]
  /\ provisionError (mockPackages NewMockProvider) (mockOperation NewMockProvider)
       (contextOf req' fs) = None
  /\ exists ret,
       In (EvDecrypt "bsi5ct08vcqmquc0fn5g" "Fm4r2iwjYnswLRZKl38W"
             (list_ascii_of_string "cipher text")
             (list_ascii_of_string "additional data")
             (list_ascii_of_string "nonce") ret)
          (trace x').
Proof.
  intros req req' fs x x'.
  assert (H : In (EvEncrypt "bsi5ct08vcqmquc0fn5g" "Fm4r2iwjYnswLRZKl38W"
                    (list_ascii_of_string "test message")
                    (list_ascii_of_string "additional data")
                    (Ok (list_ascii_of_string "cipher text",
                         list_ascii_of_string "nonce"))) (trace x))
    by (vm_compute; auto).
  assert (Hd : decoded asciiEqualFold decrypt req' = Ok fs) by reflexivity.
  assert (Hw : writes (trace x)
               = [Marshal {| encryptResp.CipherText := mapIndex fs "cipherText";
                             encryptResp.Nonce := mapIndex fs "nonce" |}])
    by reflexivity.
  assert (Hp : provisionError (mockPackages NewMockProvider)
                 (mockOperation NewMockProvider) (contextOf req' fs) = None)
    by reflexivity.
  split; [exact H|]. split; [exact Hd|]. split; [exact Hw|]. split; [exact Hp|].
  exact (cipher_round_trip
           (mockPackages NewMockProvider) asciiEqualFold
           (mockOperation NewMockProvider) req None req' None _ _ _ _ _ _ fs
           H Hd Hw Hp).
Defined.

(** A keystore that was created: 201 and the Location the handler set;
    a signature: no header set by the handler. *)
Lemma location_only_when_created_witness :
  let x := run NewMockProvider createKeystore None
             (buildCreateKeystoreReq "did:example:123456789") in
  let y := run NewMockProvider sign None (buildSignReq "test message") in
  http.Code (rw x) = http.StatusCreated
  /\ http.HeaderMap (rw x) !! "Location" <> None
  /\ (exists location, headerSets (trace x) = [("Location", location)])
  /\ writes (trace x) = []
  /\ http.HeaderMap (rw y) !! "Content-Type" <> None
  /\ ("Content-Type" = "Location" \/ "Content-Type" = "Content-Type").
Proof.
  intros x y.
  assert (Hc : http.Code (rw x) = http.StatusCreated) by reflexivity.
  assert (Hy : http.HeaderMap (rw y) !! "Content-Type" <> None)
    by (vm_compute; discriminate).
  destruct (location_only_when_created
              (mockPackages NewMockProvider) asciiEqualFold
              (mockOperation NewMockProvider) createKeystore
              (buildCreateKeystoreReq "did:example:123456789") None)
    as (Hl & He & _ & _ & Hb).
  destruct (location_only_when_created
              (mockPackages NewMockProvider) asciiEqualFold
              (mockOperation NewMockProvider) sign
              (buildSignReq "test message") None)
    as (_ & _ & _ & Hk & _).
  split; [exact Hc|]. split; [exact (proj1 Hl Hc)|]. split; [exact (proj1 He Hc)|].
  split; [exact (proj1 (proj2 (Hb Hc)))|]. split; [exact Hy|].
  exact (Hk "Content-Type" Hy).
Defined.

(** The tests' "bad encoded signature": 400, and verify was not called. *)
Lemma status_codes_witness :
  let x := run NewMockProvider verify None (buildVerifyReq "!signature") in
  http.Code (rw x) = http.StatusBadRequest
  /\ capabilityCalls (trace x) = [].
Proof.
  intros x.
  assert (Hc : http.Code (rw x) = http.StatusBadRequest) by reflexivity.
  split; [exact Hc|].
  exact (proj2 (proj2 (proj2 (status_codes
           (mockPackages NewMockProvider) asciiEqualFold
           (mockOperation NewMockProvider) verify
           (buildVerifyReq "!signature") None))) Hc).
Defined.

(** The tests' "Received bad request: EOF" on a writer that fails. *)
Lemma error_status_has_error_body_witness :
  let err := errorString 9 "write error" in
  let x := run NewMockProvider sign (Some err) emptyRequest in
  (http.Code (rw x) = http.StatusBadRequest
   \/ http.Code (rw x) = http.StatusInternalServerError)
  /\ exists m rest,
       m <> ""
       /\ writes (trace x) = [json.Object [("errMessage", json.Str m)]]
       /\ trace x
          = (collaboratorCalls (trace x)
               ++ EvWriteHeader (http.Code (rw x))
               :: EvWrite (json.Object [("errMessage", json.Str m)]) :: rest)%list
       /\ logged rest = logged (trace x)
       /\ http.HeaderMap (rw x) = ∅.
Proof.
  intros err x.
  assert (Hc : http.Code (rw x) = http.StatusBadRequest
               \/ http.Code (rw x) = http.StatusInternalServerError)
    by (left; reflexivity).
  split; [exact Hc|].
  exact (error_status_has_error_body
           (mockPackages NewMockProvider) asciiEqualFold
           (mockOperation NewMockProvider) sign emptyRequest (Some err) Hc).
Defined.

(** The tests' "Failed to write a response": the same status, the same
    body handed to the writer, no Location on either writer. *)
Lemma writer_failure_changes_nothing_else_witness :
  let err := errorString 9 "write error" in
  let req := buildDecryptReq "Y2lwaGVyIHRleHQ=" "bm9uY2U=" in
  let x := run NewMockProvider decrypt (Some err) req in
  let y := run NewMockProvider decrypt None req in
  "Location" <> "Content-Type"
  /\ writes (trace x) = writes (trace y)
  /\ http.Code (rw x) = http.Code (rw y)
  /\ http.HeaderMap (rw x) !! "Location" = http.HeaderMap (rw y) !! "Location"
  /\ http.HeaderMap (rw x) !! "Content-Type" <> http.HeaderMap (rw y) !! "Content-Type".
Proof.
  intros err req x y.
  assert (Hne : "Location" <> "Content-Type") by discriminate.
  destruct (writer_failure_changes_nothing_else
              (mockPackages NewMockProvider) asciiEqualFold
              (mockOperation NewMockProvider) decrypt req (Some err))
    as (_ & _ & _ & Hw & Hc & Hm).
  split; [exact Hne|]. split; [exact Hw|]. split; [exact Hc|].
  split; [exact (Hm "Location" Hne)|]. vm_compute. discriminate.
Defined.

(** Looking up the sign endpoint of a new operation. *)
Lemma routes_are_the_six_endpoints_witness :
  let p := provider (mockOperation NewMockProvider) in
  let pkg := mockPackages NewMockProvider in
  let h := NewHTTPHandler signEndpoint "POST"
             (signHandler pkg asciiEqualFold (New p)) in
  handlerLookup pkg asciiEqualFold (New p)
    "/kms/keystores/{keystoreID}/keys/{keyID}/sign" "POST" = Some h
  /\ exists ep, "/kms/keystores/{keystoreID}/keys/{keyID}/sign" = pathOf ep
                /\ Handle h = handlerOf pkg asciiEqualFold (New p) ep.
Proof.
  intros p pkg h.
  assert (H : handlerLookup pkg asciiEqualFold (New p)
                "/kms/keystores/{keystoreID}/keys/{keyID}/sign" "POST" = Some h)
    by reflexivity.
  split; [exact H|].
  exact (proj2 (proj2 (proj2 (routes_are_the_six_endpoints pkg asciiEqualFold p))
                  _ _ h H)).
Defined.

(** Two texts of the bad-request format. *)
Lemma message_identifies_failure_witness :
  In receivedBadRequest messageFormats
  /\ Sprintf receivedBadRequest ["EOF"] = Sprintf receivedBadRequest ["EOF"]
  /\ receivedBadRequest = receivedBadRequest /\ "EOF" = "EOF".
Proof.
  assert (Hf : In receivedBadRequest messageFormats) by (left; reflexivity).
  split; [exact Hf|]. split; [reflexivity|].
  exact (message_identifies_failure receivedBadRequest receivedBadRequest
           "EOF" "EOF" Hf Hf eq_refl).
Defined.

(** The tests' "Failed to create a kms provider: kms creator": no bundle,
    and the 500 was sent. *)
Lemma prepareKMSProvider_contract_witness :
  let err := errorString 3 "kms creator error" in
  let m := withKMSCreatorErr err NewMockProvider in
  let x0 := start (recorder None) in
  let r := prepareKMSProvider (mockPackages m) (provider (mockOperation m))
             "bsi5ct08vcqmquc0fn5g" "" x0 in
  fst r = None
  /\ http.wroteHeader (rw x0) = false
  /\ http.Code (rw (snd r)) = http.StatusInternalServerError
  /\ headerWrites (trace (snd r)) = [http.StatusInternalServerError].
Proof.
  intros err m x0 r.
  pose proof (prepareKMSProvider_contract (mockPackages m) (provider (mockOperation m))
                "bsi5ct08vcqmquc0fn5g" "" x0) as T.
  destruct T as (e & _ & _ & Hh & _ & Hc).
  split; [reflexivity|]. split; [reflexivity|]. split; [exact (Hc eq_refl)|exact Hh].
Defined.

(** A request without a body: nothing parsed, and the 400 was sent. *)
Lemma parseRequest_contract_witness :
  let x0 := start (recorder None) in
  let r := parseRequest asciiEqualFold signReq.t emptyRequest x0 in
  fst r = None
  /\ http.wroteHeader (rw x0) = false
  /\ http.Code (rw (snd r)) = http.StatusBadRequest
  /\ writes (trace (snd r)) = [errorBody "Received bad request: EOF"].
Proof.
  intros x0 r.
  pose proof (parseRequest_contract asciiEqualFold signReq.t _ emptyRequest x0) as T.
  destruct T as (e & He & Hw & _ & _ & Hc).
  split; [reflexivity|]. split; [reflexivity|]. split; [exact (Hc eq_refl)|].
  assert (E : e = io_EOF) by (injection He as <-; reflexivity).
  rewrite E in Hw. exact Hw.
Defined.

(** A create-keystore request sent with and without path variables. *)
Lemma request_parts_read_witness :
  let req := buildCreateKeystoreReq "did:example:123456789" in
  let req' := {| http.Body := http.Body req; http.Host := "localhost:8070";
                 http.Vars := ∅ |} in
  decoded asciiEqualFold createKeystore req = decoded asciiEqualFold createKeystore req'
  /\ http.Host req = http.Host req'
  /\ mapIndex (http.Vars req) keystoreIDQueryParam
     <> mapIndex (http.Vars req') keystoreIDQueryParam
  /\ run NewMockProvider createKeystore None req
     = run NewMockProvider createKeystore None req'.
Proof.
  intros req req'.
  assert (Hd : decoded asciiEqualFold createKeystore req
               = decoded asciiEqualFold createKeystore req') by reflexivity.
  split; [exact Hd|]. split; [reflexivity|]. split; [discriminate|].
  refine (request_parts_read (mockPackages NewMockProvider) asciiEqualFold
            (mockOperation NewMockProvider) createKeystore req req' None Hd _ _ _).
  - discriminate.
  - intros H. repeat (destruct H as [H|H]; try discriminate H). destruct H.
  - intros _. reflexivity.
Defined.
